(** * Scripturae: the ESP32 WiFi dashboard template

    A shallow embedding of the dashboard class ([WebDashboard.cpp] and its
    header) and of the four sketches built around it or preceding it:
    the stand-alone single-file sketch, the clean template that registers
    callbacks with the dashboard, and the temperature monitor and light
    sensor examples.

    Conventions.
    - A [String] is a text, modelled as [string]; whatever goes through a
      [const char*] ([c_str()], the [String] constructor from one, the
      comparison of a [String] with a literal) sees that text up to its
      first NUL character ([c_str] below).
    - [int] and [unsigned long] values are [Z]; the only arithmetic the
      sketches perform on [unsigned long] is the subtraction of two clock
      readings, whose 32-bit wrap-around is written out.
    - [float] values are IEEE-754 numbers ([spec_float]).
    - An ArduinoJson document is the ordered list of its members; what
      [serializeJson] prints for it is not modelled. Where a sketch builds
      its answer in a [StaticJsonDocument], the capacity of the document is
      accounted for.
    - Globals of a sketch are the fields of a state record; a function of
      the sketch is a computation in the monad [M] below, which threads the
      state, collects the observable effects in order, and distinguishes a
      call that returns from one after which the device reboots.
    - What comes from the network, the clock or a sensor during one pass of
      [loop()] is an explicit input of that pass. *)

From Stdlib Require Import ZArith List String Ascii Bool Lia.
From Stdlib Require Import Floats.SpecFloat.
Import ListNotations.

Local Open Scope string_scope.
Local Open Scope Z_scope.

(** ** Effects *)

(** A computation over a state [S] producing effects [E]: its outcome is
    [Some x] when the call returns [x] and [None] when control never comes
    back to the caller (the device restarted). *)
Definition M (E S X : Type) : Type := S -> option X * S * list E.

Definition ret {E S X} (x : X) : M E S X := fun s => (Some x, s, []).

Definition bind {E S X Y} (m : M E S X) (k : X -> M E S Y) : M E S Y :=
  fun s =>
    match m s with
    | (Some x, s1, t1) =>
        match k x s1 with
        | (r, s2, t2) => (r, s2, (t1 ++ t2)%list)
        end
    | (None, s1, t1) => (None, s1, t1)
    end.

Definition get {E S} : M E S S := fun s => (Some s, s, []).
Definition modify {E S} (f : S -> S) : M E S unit := fun s => (Some tt, f s, []).
Definition emit {E S} (e : E) : M E S unit := fun s => (Some tt, s, [e]).
Definition never_returns {E S X} (e : E) : M E S X := fun s => (None, s, [e]).
Definition when {E S} (b : bool) (m : M E S unit) : M E S unit :=
  if b then m else ret tt.

Declare Scope monad_scope.
Delimit Scope monad_scope with monad.
Notation "x <- m ;; k" := (bind m (fun x => k))
  (at level 61, m at next level, right associativity) : monad_scope.
Notation "m ;; k" := (bind m (fun _ => k))
  (at level 61, right associativity) : monad_scope.
Local Open Scope monad_scope.

(** Projections of a run. *)
Definition outcome {E S X} (r : option X * S * list E) : option X := fst (fst r).
Definition final {E S X} (r : option X * S * list E) : S := snd (fst r).
Definition trace {E S X} (r : option X * S * list E) : list E := snd r.

(** Running a computation on a part [A] of a larger state [W], its effects
    mapped into the effects of the larger program. *)
Definition zoom {E1 E2 A W X} (proj : W -> A) (upd : A -> W -> W)
    (inj : E1 -> E2) (m : M E1 A X) : M E2 W X :=
  fun w =>
    match m (proj w) with
    | (r, a, t) => (r, upd a w, map inj t)
    end.

(** ** The Arduino core, as far as the sketches use it *)

Definition HIGH : bool := true.
Definition LOW : bool := false.

Inductive pin_mode := OUTPUT | INPUT.

Definition IPAddress : Type := Z * Z * Z * Z.

Inductive printf_arg :=
| ArgStr (s : string)
| ArgFloat (f : spec_float).

Inductive hw_event :=
| SerialBegin (baud : Z)
| SerialPrint (s : string)
| SerialPrintln (s : string)
| SerialPrintInt (z : Z)
| SerialPrintlnInt (z : Z)
| SerialPrintlnIP (ip : IPAddress)
| SerialPrintf (fmt : string) (args : list printf_arg)
| PinMode (pin : Z) (m : pin_mode)
| DigitalWrite (pin : Z) (level : bool)
| DelayMs (ms : Z)
| DhtBegin
| SoftAPConfig (local_ip gateway subnet : IPAddress)
| SoftAP (ssid password : string)
| EspRestart.

(** The characters a C string literal escapes. *)
Definition dq : string := String (ascii_of_nat 34) EmptyString.
Definition nl : string := String (ascii_of_nat 10) EmptyString.

(** The text a C string holds: the characters before the first NUL.
    [String::c_str()] hands out the buffer of a [String], and whatever
    takes a [const char*] reads the buffer that far. *)
Fixpoint c_str (s : string) : string :=
  match s with
  | EmptyString => EmptyString
  | String c rest =>
      if Ascii.eqb c Ascii.zero then EmptyString else String c (c_str rest)
  end.

(** [s == "literal"] on a [String]: the core compares the two buffers
    with [strcmp], so the text of [s] counts up to its first NUL. *)
Definition String_equals (s literal : string) : bool :=
  String.eqb (c_str s) literal.

(** [millis() - last > period] on 32-bit [unsigned long]. *)
Definition elapsed (now last : Z) : Z := (now - last) mod 2 ^ 32.

(** [isnan] of [math.h]. *)
Definition isnan (f : spec_float) : bool :=
  match f with
  | S754_nan => true
  | _ => false
  end.

(** Conversion of an [int] or a literal to [float] (binary32). *)
Definition float_of_Z (z : Z) : spec_float := binary_normalize 24 128 z 0 false.

(** ** ArduinoJson documents *)

#[local] Set Warnings "-register-all".

Inductive JsonVariant :=
| JBool (b : bool)
| JInt (z : Z)
| JFloat (f : spec_float)
| JString (s : string)
| JObject (members : list (string * JsonVariant))
| JNull.

(** A document is the ordered list of its top-level members; a freshly
    declared [StaticJsonDocument] has none. *)
Definition JsonDocument : Type := list (string * JsonVariant).

(** [obj[key] = v]: replaces the member when the key is there, appends it
    otherwise. *)
Fixpoint json_set (key : string) (v : JsonVariant)
    (o : list (string * JsonVariant)) : list (string * JsonVariant) :=
  match o with
  | [] => [(key, v)]
  | (k, w) :: rest =>
      if String.eqb k key then (k, v) :: rest
      else (k, w) :: json_set key v rest
  end.

Definition json_keys (o : list (string * JsonVariant)) : list string :=
  map fst o.

Fixpoint json_get (key : string) (o : list (string * JsonVariant))
    : option JsonVariant :=
  match o with
  | [] => None
  | (k, w) :: rest => if String.eqb k key then Some w else json_get key rest
  end.

(** The value [serializeJson] writes for a document: a document to which
    nothing was assigned is the null value; it becomes an object with its
    first member. *)
Definition json_root (doc : JsonDocument) : JsonVariant :=
  match doc with
  | [] => JNull
  | _ :: _ => JObject doc
  end.

(** The memory pool of a [StaticJsonDocument<N>], as ArduinoJson lays it
    out on the ESP32. A member of an object takes a slot of 16 bytes; a
    boolean or a number lives in its slot, a literal text is kept by
    address, and a [String] is copied into the pool with its terminator.
    A member for which no slot is left is not added, and a [String] whose
    copy does not fit leaves its member null. *)
Module StaticJsonDocument.
Definition SLOT_SIZE : Z := 16.

Record t := {
  capacity : Z;
  usage : Z;
  members : JsonDocument
}.

(** [StaticJsonDocument<n> doc;] *)
Definition declare (n : Z) : t := {| capacity := n; usage := 0; members := [] |}.

Definition has_member (key : string) (d : t) : bool :=
  match json_get key (members d) with
  | Some _ => true
  | None => false
  end.

(** [doc[key] = v] for a value that needs no copy. *)
Definition set (key : string) (v : JsonVariant) (d : t) : t :=
  if has_member key d then
    {| capacity := capacity d; usage := usage d;
       members := json_set key v (members d) |}
  else if usage d + SLOT_SIZE <=? capacity d then
    {| capacity := capacity d; usage := usage d + SLOT_SIZE;
       members := json_set key v (members d) |}
  else d.

(** [doc[key] = s] for a [String]: the slot first, then the copy. *)
Definition set_String (key : string) (s : string) (d : t) : t :=
  let d := set key JNull d in
  let size := Z.of_nat (String.length s) + 1 in
  if has_member key d && (usage d + size <=? capacity d) then
    {| capacity := capacity d; usage := usage d + size;
       members := json_set key (JString s) (members d) |}
  else d.
End StaticJsonDocument.

(** What [send] and [send_P] are given as the body: a literal text, the
    text [serializeJson] produced from a document, or a page kept in
    program memory. *)
Inductive payload :=
| Literal (s : string)
| SerializeJson (doc : JsonDocument)
| Progmem (name : string).

(** ** The WebServer library, as far as the sketches use it *)

Inductive http_method := HTTP_GET | HTTP_POST | HTTP_OTHER.

Definition http_method_eqb (a b : http_method) : bool :=
  match a, b with
  | HTTP_GET, HTTP_GET | HTTP_POST, HTTP_POST | HTTP_OTHER, HTTP_OTHER => true
  | _, _ => false
  end.

Record request := {
  req_method : http_method;
  req_uri : string;
  req_args : list (string * string)
}.

(** [server.hasArg(name)] *)
Fixpoint hasArg (name : string) (args : list (string * string)) : bool :=
  match args with
  | [] => false
  | (k, _) :: rest => if String.eqb k name then true else hasArg name rest
  end.

(** [server.arg(name)]: the value of the first argument of that name, the
    empty text when there is none. *)
Fixpoint arg (name : string) (args : list (string * string)) : string :=
  match args with
  | [] => ""
  | (k, v) :: rest => if String.eqb k name then v else arg name rest
  end.

(** Observable events of a sketch: hardware effects, a callback call made
    by the dashboard, a response sent to the HTTP client. *)
Inductive callback_call :=
| CallOutput1 (state : bool)
| CallOutput2 (state : bool)
| CallMode (mode : string)
| CallReset
| CallCustom.

Inductive event :=
| Hw (e : hw_event)
| Invoke (c : callback_call)
| Send (code : Z) (content_type : string) (body : payload).

Section Routing.
(** The handlers a sketch registers are named by a type [H] of its own. *)
Variable H : Type.

(** A route: [on(uri, fn)] accepts any method ([None]),
    [on(uri, HTTP_GET, fn)] only that one. *)
Record route := {
  r_uri : string;
  r_method : option http_method;
  r_handler : H
}.

Record WebServer := {
  ws_port : Z;
  ws_routes : list route;
  ws_listening : bool
}.

Definition route_matches (r : route) (q : request) : bool :=
  String.eqb (r_uri r) (req_uri q) &&
  match r_method r with
  | None => true
  | Some m => http_method_eqb m (req_method q)
  end.

Definition find_route (srv : WebServer) (q : request) : option H :=
  option_map r_handler (find (fun r => route_matches r q) (ws_routes srv)).

Definition on (uri : string) (m : option http_method) (h : H)
    (srv : WebServer) : WebServer :=
  {| ws_port := ws_port srv;
     ws_routes := (ws_routes srv ++ [{| r_uri := uri; r_method := m; r_handler := h |}])%list;
     ws_listening := ws_listening srv |}.

Definition server_begin (srv : WebServer) : WebServer :=
  {| ws_port := ws_port srv; ws_routes := ws_routes srv; ws_listening := true |}.

(** [server.handleClient()]: services the pending request, if any, by
    the first matching route; the library answers 404 itself when no
    route matches. A server that is not listening has no client. *)
Definition handleClient {S} (srv : WebServer) (pending : option request)
    (dispatch : H -> request -> M event S unit) : M event S unit :=
  match pending with
  | None => ret tt
  | Some q =>
      if ws_listening srv then
        match find_route srv q with
        | Some h => dispatch h q
        | None => emit (Send 404 "text/plain" (Literal ("Not found: " ++ req_uri q)))
        end
      else ret tt
  end.
End Routing.

Arguments r_uri {H}.
Arguments r_method {H}.
Arguments r_handler {H}.
Arguments ws_port {H}.
Arguments ws_routes {H}.
Arguments ws_listening {H}.
Arguments find_route {H}.
Arguments on {H}.
Arguments server_begin {H}.
Arguments handleClient {H S}.

(** The access point of the WiFi driver. *)
Module WiFi.
Record t := {
  ap_ip : IPAddress;
  ap_gateway : IPAddress;
  ap_subnet : IPAddress;
  ap_ssid : string;
  ap_password : string;
  ap_up : bool
}.

Definition off : t :=
  {| ap_ip := (0, 0, 0, 0); ap_gateway := (0, 0, 0, 0); ap_subnet := (0, 0, 0, 0);
     ap_ssid := ""; ap_password := ""; ap_up := false |}.

Definition softAPConfig (ip gw mask : IPAddress) (w : t) : t :=
  {| ap_ip := ip; ap_gateway := gw; ap_subnet := mask;
     ap_ssid := ap_ssid w; ap_password := ap_password w; ap_up := ap_up w |}.

(** What [softAP] accepts: a network name that is not empty and a
    passphrase that is empty (an open network) or has at least eight
    characters, the rule the stand-alone sketch notes next to its
    password. Both arrive as C strings. *)
Definition accepts (ssid password : string) : bool :=
  negb (String.eqb (c_str ssid) "") &&
  (String.eqb (c_str password) "" || (8 <=? String.length (c_str password))%nat).

(** [softAP(ssid, password)]: starts the access point when the arguments
    are accepted; otherwise it returns false, which no caller in the
    sketches looks at, and the driver is as it was. *)
Definition softAP (ssid password : string) (w : t) : t :=
  if accepts ssid password then
    {| ap_ip := ap_ip w; ap_gateway := ap_gateway w; ap_subnet := ap_subnet w;
       ap_ssid := c_str ssid; ap_password := c_str password; ap_up := true |}
  else w.

Definition softAPIP (w : t) : IPAddress := ap_ip w.
End WiFi.

(** ** WebDashboard.h: the data shown on the dashboard *)

Module SensorData.
Record t := {
  value1 : spec_float;
  value2 : spec_float;
  value3 : spec_float;
  label1 : string;
  label2 : string;
  label3 : string;
  unit1 : string;
  unit2 : string;
  unit3 : string;
  showValue1 : bool;
  showValue2 : bool;
  showValue3 : bool
}.

Definition set_value1 (v : spec_float) (s : t) : t :=
  {| value1 := v; value2 := value2 s; value3 := value3 s;
     label1 := label1 s; label2 := label2 s; label3 := label3 s;
     unit1 := unit1 s; unit2 := unit2 s; unit3 := unit3 s;
     showValue1 := showValue1 s; showValue2 := showValue2 s;
     showValue3 := showValue3 s |}.
Definition set_value2 (v : spec_float) (s : t) : t :=
  {| value1 := value1 s; value2 := v; value3 := value3 s;
     label1 := label1 s; label2 := label2 s; label3 := label3 s;
     unit1 := unit1 s; unit2 := unit2 s; unit3 := unit3 s;
     showValue1 := showValue1 s; showValue2 := showValue2 s;
     showValue3 := showValue3 s |}.
Definition set_value3 (v : spec_float) (s : t) : t :=
  {| value1 := value1 s; value2 := value2 s; value3 := v;
     label1 := label1 s; label2 := label2 s; label3 := label3 s;
     unit1 := unit1 s; unit2 := unit2 s; unit3 := unit3 s;
     showValue1 := showValue1 s; showValue2 := showValue2 s;
     showValue3 := showValue3 s |}.
End SensorData.

Module OutputStates.
Record t := {
  output1 : bool;
  output2 : bool;
  label1 : string;
  label2 : string;
  showOutput1 : bool;
  showOutput2 : bool
}.

Definition set_output1 (v : bool) (o : t) : t :=
  {| output1 := v; output2 := output2 o;
     label1 := label1 o; label2 := label2 o;
     showOutput1 := showOutput1 o; showOutput2 := showOutput2 o |}.
Definition set_output2 (v : bool) (o : t) : t :=
  {| output1 := output1 o; output2 := v;
     label1 := label1 o; label2 := label2 o;
     showOutput1 := showOutput1 o; showOutput2 := showOutput2 o |}.
End OutputStates.

Module SystemInfo.
Record t := {
  projectName : string;
  version : string;
  mode : string;
  uptime : Z
}.

Definition set_mode (v : string) (i : t) : t :=
  {| projectName := projectName i; version := version i;
     mode := v; uptime := uptime i |}.
Definition set_uptime (v : Z) (i : t) : t :=
  {| projectName := projectName i; version := version i;
     mode := mode i; uptime := v |}.
End SystemInfo.

(** [doc[k1] = v1; doc[k2] = v2; ...] in that order. *)
Definition assign (kvs : list (string * JsonVariant))
    (o : list (string * JsonVariant)) : list (string * JsonVariant) :=
  fold_left (fun acc kv => json_set (fst kv) (snd kv) acc) kvs o.

(** The body of every error answer of the dashboard. *)
Definition invalid_request : string :=
  "{" ++ dq ++ "error" ++ dq ++ ":" ++ dq ++ "Invalid request" ++ dq ++ "}".

(** ** WebDashboard.cpp *)

Module WebDashboard.

Inductive handler :=
| HandleRoot
| HandleStatus
| HandleOutput1
| HandleOutput2
| HandleMode
| HandleReset
| HandleCustom.

Section App.
(** The globals of the sketch that owns the dashboard. *)
Variable A : Type.

(** The callback types of the header. A callback is a function of the
    sketch; those of the sketches modelled here act on the globals of
    their sketch and on the hardware, and that is what these types let a
    callback do: one that called back into the dashboard object or the
    WiFi driver is outside them. [ModeCallback] takes a [const char*]. *)
Definition OutputCallback : Type := bool -> M hw_event A unit.
Definition ModeCallback : Type := string -> M hw_event A unit.
Definition ActionCallback : Type := M hw_event A unit.

(** The private members of the class. [_ssid] and [_password] are
    [const char*]. A data pointer is either null
    or the address of a structure among the globals of the sketch:
    reading through it reads the structure as it is at that time. *)
Record t := {
  _ssid : string;
  _password : string;
  _server : option (WebServer handler);
  _sensorData : option (A -> SensorData.t);
  _outputStates : option (A -> OutputStates.t);
  _systemInfo : option (A -> SystemInfo.t);
  _output1Callback : option OutputCallback;
  _output2Callback : option OutputCallback;
  _modeCallback : option ModeCallback;
  _resetCallback : option ActionCallback;
  _customCallback : option ActionCallback
}.

(** The constructor. *)
Definition WebDashboard (ssid password : string) : t :=
  {| _ssid := ssid;
     _password := password;
     _server := None;
     _sensorData := None;
     _outputStates := None;
     _systemInfo := None;
     _output1Callback := None;
     _output2Callback := None;
     _modeCallback := None;
     _resetCallback := None;
     _customCallback := None |}.

Definition set_server (v : option (WebServer handler)) (d : t) : t :=
  {| _ssid := _ssid d; _password := _password d; _server := v;
     _sensorData := _sensorData d; _outputStates := _outputStates d;
     _systemInfo := _systemInfo d;
     _output1Callback := _output1Callback d;
     _output2Callback := _output2Callback d;
     _modeCallback := _modeCallback d;
     _resetCallback := _resetCallback d;
     _customCallback := _customCallback d |}.

Definition updateSensorData (data : option (A -> SensorData.t)) (d : t) : t :=
  {| _ssid := _ssid d; _password := _password d; _server := _server d;
     _sensorData := data; _outputStates := _outputStates d;
     _systemInfo := _systemInfo d;
     _output1Callback := _output1Callback d;
     _output2Callback := _output2Callback d;
     _modeCallback := _modeCallback d;
     _resetCallback := _resetCallback d;
     _customCallback := _customCallback d |}.

Definition updateOutputStates (states : option (A -> OutputStates.t)) (d : t) : t :=
  {| _ssid := _ssid d; _password := _password d; _server := _server d;
     _sensorData := _sensorData d; _outputStates := states;
     _systemInfo := _systemInfo d;
     _output1Callback := _output1Callback d;
     _output2Callback := _output2Callback d;
     _modeCallback := _modeCallback d;
     _resetCallback := _resetCallback d;
     _customCallback := _customCallback d |}.

Definition updateSystemInfo (info : option (A -> SystemInfo.t)) (d : t) : t :=
  {| _ssid := _ssid d; _password := _password d; _server := _server d;
     _sensorData := _sensorData d; _outputStates := _outputStates d;
     _systemInfo := info;
     _output1Callback := _output1Callback d;
     _output2Callback := _output2Callback d;
     _modeCallback := _modeCallback d;
     _resetCallback := _resetCallback d;
     _customCallback := _customCallback d |}.

Definition onOutput1Change (callback : option OutputCallback) (d : t) : t :=
  {| _ssid := _ssid d; _password := _password d; _server := _server d;
     _sensorData := _sensorData d; _outputStates := _outputStates d;
     _systemInfo := _systemInfo d;
     _output1Callback := callback;
     _output2Callback := _output2Callback d;
     _modeCallback := _modeCallback d;
     _resetCallback := _resetCallback d;
     _customCallback := _customCallback d |}.

Definition onOutput2Change (callback : option OutputCallback) (d : t) : t :=
  {| _ssid := _ssid d; _password := _password d; _server := _server d;
     _sensorData := _sensorData d; _outputStates := _outputStates d;
     _systemInfo := _systemInfo d;
     _output1Callback := _output1Callback d;
     _output2Callback := callback;
     _modeCallback := _modeCallback d;
     _resetCallback := _resetCallback d;
     _customCallback := _customCallback d |}.

Definition onModeChange (callback : option ModeCallback) (d : t) : t :=
  {| _ssid := _ssid d; _password := _password d; _server := _server d;
     _sensorData := _sensorData d; _outputStates := _outputStates d;
     _systemInfo := _systemInfo d;
     _output1Callback := _output1Callback d;
     _output2Callback := _output2Callback d;
     _modeCallback := callback;
     _resetCallback := _resetCallback d;
     _customCallback := _customCallback d |}.

Definition onReset (callback : option ActionCallback) (d : t) : t :=
  {| _ssid := _ssid d; _password := _password d; _server := _server d;
     _sensorData := _sensorData d; _outputStates := _outputStates d;
     _systemInfo := _systemInfo d;
     _output1Callback := _output1Callback d;
     _output2Callback := _output2Callback d;
     _modeCallback := _modeCallback d;
     _resetCallback := callback;
     _customCallback := _customCallback d |}.

Definition onCustomAction (callback : option ActionCallback) (d : t) : t :=
  {| _ssid := _ssid d; _password := _password d; _server := _server d;
     _sensorData := _sensorData d; _outputStates := _outputStates d;
     _systemInfo := _systemInfo d;
     _output1Callback := _output1Callback d;
     _output2Callback := _output2Callback d;
     _modeCallback := _modeCallback d;
     _resetCallback := _resetCallback d;
     _customCallback := callback |}.

(** What a running sketch consists of: the dashboard object, the
    globals of the sketch, and the WiFi driver. *)
Record World := {
  dash : t;
  app : A;
  wifi : WiFi.t
}.

Definition set_dash (d : t) (w : World) : World :=
  {| dash := d; app := app w; wifi := wifi w |}.
Definition set_app (a : A) (w : World) : World :=
  {| dash := dash w; app := a; wifi := wifi w |}.
Definition set_wifi (x : WiFi.t) (w : World) : World :=
  {| dash := dash w; app := app w; wifi := x |}.

Definition Op : Type := M event World unit.

Definition hw (e : hw_event) : Op := emit (Hw e).
Definition send (code : Z) (content_type : string) (body : payload) : Op :=
  emit (Send code content_type body).
Definition on_dash (f : t -> t) : Op := modify (fun w => set_dash (f (dash w)) w).
Definition on_wifi (f : WiFi.t -> WiFi.t) : Op := modify (fun w => set_wifi (f (wifi w)) w).
Definition server_on (uri : string) (h : handler) : Op :=
  on_dash (fun d => set_server (option_map (on uri None h) (_server d)) d).

(** A call through a callback pointer: the call is recorded, then the
    function of the sketch runs on the globals of the sketch. *)
Definition call (c : callback_call) (fn : M hw_event A unit) : Op :=
  emit (Invoke c) ;; zoom app set_app Hw fn.

Definition begin : Op :=
  hw (SerialPrintln (nl ++ "=== Starting WiFi Access Point ===")) ;;
  let local_IP : IPAddress := (192, 168, 4, 1) in
  let gateway : IPAddress := (192, 168, 4, 1) in
  let subnet : IPAddress := (255, 255, 255, 0) in
  hw (SoftAPConfig local_IP gateway subnet) ;;
  on_wifi (WiFi.softAPConfig local_IP gateway subnet) ;;
  w <- get ;;
  hw (SoftAP (c_str (_ssid (dash w))) (c_str (_password (dash w)))) ;;
  on_wifi (WiFi.softAP (_ssid (dash w)) (_password (dash w))) ;;
  w <- get ;;
  let IP := WiFi.softAPIP (wifi w) in
  hw (SerialPrint "AP SSID: ") ;;
  hw (SerialPrintln (c_str (_ssid (dash w)))) ;;
  hw (SerialPrint "AP IP: ") ;;
  hw (SerialPrintlnIP IP) ;;
  hw (SerialPrintln "Open browser to: http://192.168.4.1") ;;
  on_dash (set_server
    (Some {| ws_port := 80; ws_routes := []; ws_listening := false |})) ;;
  server_on "/" HandleRoot ;;
  server_on "/api/status" HandleStatus ;;
  server_on "/api/output1" HandleOutput1 ;;
  server_on "/api/output2" HandleOutput2 ;;
  server_on "/api/mode" HandleMode ;;
  server_on "/api/reset" HandleReset ;;
  server_on "/api/custom" HandleCustom ;;
  on_dash (fun d => set_server (option_map server_begin (_server d)) d) ;;
  hw (SerialPrintln ("Web server started!" ++ nl)).

Definition handleRoot : Op :=
  send 200 "text/html" (Progmem "HTML_PAGE").

Definition sensors_members (s : SensorData.t) : list (string * JsonVariant) :=
  assign
    [ ("value1", JFloat (SensorData.value1 s));
      ("value2", JFloat (SensorData.value2 s));
      ("value3", JFloat (SensorData.value3 s));
      ("label1", JString (SensorData.label1 s));
      ("label2", JString (SensorData.label2 s));
      ("label3", JString (SensorData.label3 s));
      ("unit1", JString (SensorData.unit1 s));
      ("unit2", JString (SensorData.unit2 s));
      ("unit3", JString (SensorData.unit3 s));
      ("show1", JBool (SensorData.showValue1 s));
      ("show2", JBool (SensorData.showValue2 s));
      ("show3", JBool (SensorData.showValue3 s)) ] [].

Definition outputs_members (o : OutputStates.t) : list (string * JsonVariant) :=
  assign
    [ ("output1", JBool (OutputStates.output1 o));
      ("output2", JBool (OutputStates.output2 o));
      ("label1", JString (OutputStates.label1 o));
      ("label2", JString (OutputStates.label2 o));
      ("show1", JBool (OutputStates.showOutput1 o));
      ("show2", JBool (OutputStates.showOutput2 o)) ] [].

Definition system_members (i : SystemInfo.t) : list (string * JsonVariant) :=
  assign
    [ ("name", JString (SystemInfo.projectName i));
      ("version", JString (SystemInfo.version i));
      ("mode", JString (SystemInfo.mode i));
      ("uptime", JInt (SystemInfo.uptime i)) ] [].

(** The document [handleStatus] builds: a nested object per data
    pointer that is not null. Its values are booleans, numbers and
    [const char*] texts kept by address, in at most 25 members: 400 of
    the 512 bytes of the [StaticJsonDocument<512>], so that every
    assignment finds its slot. *)
Definition status_doc (w : World) : JsonDocument :=
  let doc : JsonDocument := [] in
  let doc :=
    match _sensorData (dash w) with
    | Some p => json_set "sensors" (JObject (sensors_members (p (app w)))) doc
    | None => doc
    end in
  let doc :=
    match _outputStates (dash w) with
    | Some p => json_set "outputs" (JObject (outputs_members (p (app w)))) doc
    | None => doc
    end in
  let doc :=
    match _systemInfo (dash w) with
    | Some p => json_set "system" (JObject (system_members (p (app w)))) doc
    | None => doc
    end in
  doc.

Definition handleStatus : Op :=
  w <- get ;;
  send 200 "application/json" (SerializeJson (status_doc w)).

(** [StaticJsonDocument<64> doc; doc["success"] = true;] *)
Definition success_doc : JsonDocument :=
  StaticJsonDocument.members
    (StaticJsonDocument.set "success" (JBool true) (StaticJsonDocument.declare 64)).

Definition handleOutput1 (q : request) : Op :=
  w <- get ;;
  match hasArg "state" (req_args q), _output1Callback (dash w) with
  | true, Some callback =>
      let state := String_equals (arg "state" (req_args q)) "1" in
      call (CallOutput1 state) (callback state) ;;
      send 200 "application/json" (SerializeJson success_doc)
  | _, _ => send 400 "application/json" (Literal invalid_request)
  end.

Definition handleOutput2 (q : request) : Op :=
  w <- get ;;
  match hasArg "state" (req_args q), _output2Callback (dash w) with
  | true, Some callback =>
      let state := String_equals (arg "state" (req_args q)) "1" in
      call (CallOutput2 state) (callback state) ;;
      send 200 "application/json" (SerializeJson success_doc)
  | _, _ => send 400 "application/json" (Literal invalid_request)
  end.

Definition handleMode (q : request) : Op :=
  w <- get ;;
  match hasArg "mode" (req_args q), _modeCallback (dash w) with
  | true, Some callback =>
      let mode := arg "mode" (req_args q) in
      call (CallMode (c_str mode)) (callback (c_str mode)) ;;
      send 200 "application/json" (SerializeJson success_doc)
  | _, _ => send 400 "application/json" (Literal invalid_request)
  end.

Definition handleReset : Op :=
  w <- get ;;
  match _resetCallback (dash w) with
  | Some callback => call CallReset callback
  | None => ret tt
  end ;;
  send 200 "application/json" (SerializeJson success_doc) ;;
  hw (DelayMs 1000) ;;
  never_returns (Hw EspRestart).

(** [StaticJsonDocument<128> doc], with its two members; the message
    is a literal, kept by address. *)
Definition custom_doc : JsonDocument :=
  StaticJsonDocument.members
    (StaticJsonDocument.set "message" (JString "Custom action completed")
       (StaticJsonDocument.set "success" (JBool true) (StaticJsonDocument.declare 128))).

Definition handleCustom : Op :=
  w <- get ;;
  match _customCallback (dash w) with
  | Some callback => call CallCustom callback
  | None => ret tt
  end ;;
  send 200 "application/json" (SerializeJson custom_doc).

(** The closures [begin] registers. *)
Definition dispatch (h : handler) (q : request) : Op :=
  match h with
  | HandleRoot => handleRoot
  | HandleStatus => handleStatus
  | HandleOutput1 => handleOutput1 q
  | HandleOutput2 => handleOutput2 q
  | HandleMode => handleMode q
  | HandleReset => handleReset
  | HandleCustom => handleCustom
  end.

(** [loop()]: polls the listener when there is one. *)
Definition loop (pending : option request) : Op :=
  w <- get ;;
  match _server (dash w) with
  | Some srv => handleClient srv pending dispatch
  | None => ret tt
  end.

Definition getIP (w : World) : IPAddress := WiFi.softAPIP (wifi w).
End App.

Arguments _ssid {A}.
Arguments _password {A}.
Arguments _server {A}.
Arguments _sensorData {A}.
Arguments _outputStates {A}.
Arguments _systemInfo {A}.
Arguments _output1Callback {A}.
Arguments _output2Callback {A}.
Arguments _modeCallback {A}.
Arguments _resetCallback {A}.
Arguments _customCallback {A}.
Arguments WebDashboard {A}.
Arguments updateSensorData {A}.
Arguments updateOutputStates {A}.
Arguments updateSystemInfo {A}.
Arguments onOutput1Change {A}.
Arguments onOutput2Change {A}.
Arguments onModeChange {A}.
Arguments onReset {A}.
Arguments onCustomAction {A}.
Arguments dash {A}.
Arguments app {A}.
Arguments wifi {A}.
Arguments set_dash {A}.
Arguments set_app {A}.
Arguments set_wifi {A}.
Arguments hw {A}.
Arguments send {A}.
Arguments on_dash {A}.
Arguments call {A}.
Arguments begin {A}.
Arguments handleRoot {A}.
Arguments status_doc {A}.
Arguments handleStatus {A}.
Arguments handleOutput1 {A}.
Arguments handleOutput2 {A}.
Arguments handleMode {A}.
Arguments handleReset {A}.
Arguments handleCustom {A}.
Arguments dispatch {A}.
Arguments loop {A}.
Arguments getIP {A}.
Arguments server_on {A}.
Arguments on_wifi {A}.
Arguments set_server {A}.
End WebDashboard.

(** ** The clean template sketch (callbacks registered with the dashboard) *)

Module Template.

Definition WIFI_SSID : string := "ESP32-Config".
Definition WIFI_PASSWORD : string := "esp32pass".

Definition LED_PIN : Z := 2.
Definition RELAY_PIN : Z := 4.
Definition SENSOR_PIN : Z := 34.

(** The globals of the sketch; [lastSensorRead] is the static local of
    [loop()]. [currentMode] is assigned only from a literal and from
    [String(mode)], a C string: it holds no NUL, so that comparing it
    with a literal compares the two texts. *)
Record globals := {
  sensors : SensorData.t;
  outputs : OutputStates.t;
  systemInfo : SystemInfo.t;
  currentMode : string;
  ledState : bool;
  relayState : bool;
  sensorValue : Z;
  lastSensorRead : Z
}.

Definition set_sensors (v : SensorData.t) (g : globals) : globals :=
  {| sensors := v; outputs := outputs g; systemInfo := systemInfo g;
     currentMode := currentMode g; ledState := ledState g;
     relayState := relayState g; sensorValue := sensorValue g;
     lastSensorRead := lastSensorRead g |}.
Definition set_outputs (v : OutputStates.t) (g : globals) : globals :=
  {| sensors := sensors g; outputs := v; systemInfo := systemInfo g;
     currentMode := currentMode g; ledState := ledState g;
     relayState := relayState g; sensorValue := sensorValue g;
     lastSensorRead := lastSensorRead g |}.
Definition set_systemInfo (v : SystemInfo.t) (g : globals) : globals :=
  {| sensors := sensors g; outputs := outputs g; systemInfo := v;
     currentMode := currentMode g; ledState := ledState g;
     relayState := relayState g; sensorValue := sensorValue g;
     lastSensorRead := lastSensorRead g |}.
Definition set_currentMode (v : string) (g : globals) : globals :=
  {| sensors := sensors g; outputs := outputs g; systemInfo := systemInfo g;
     currentMode := v; ledState := ledState g;
     relayState := relayState g; sensorValue := sensorValue g;
     lastSensorRead := lastSensorRead g |}.
Definition set_ledState (v : bool) (g : globals) : globals :=
  {| sensors := sensors g; outputs := outputs g; systemInfo := systemInfo g;
     currentMode := currentMode g; ledState := v;
     relayState := relayState g; sensorValue := sensorValue g;
     lastSensorRead := lastSensorRead g |}.
Definition set_relayState (v : bool) (g : globals) : globals :=
  {| sensors := sensors g; outputs := outputs g; systemInfo := systemInfo g;
     currentMode := currentMode g; ledState := ledState g;
     relayState := v; sensorValue := sensorValue g;
     lastSensorRead := lastSensorRead g |}.
Definition set_sensorValue (v : Z) (g : globals) : globals :=
  {| sensors := sensors g; outputs := outputs g; systemInfo := systemInfo g;
     currentMode := currentMode g; ledState := ledState g;
     relayState := relayState g; sensorValue := v;
     lastSensorRead := lastSensorRead g |}.
Definition set_lastSensorRead (v : Z) (g : globals) : globals :=
  {| sensors := sensors g; outputs := outputs g; systemInfo := systemInfo g;
     currentMode := currentMode g; ledState := ledState g;
     relayState := relayState g; sensorValue := sensorValue g;
     lastSensorRead := v |}.

(** Functions of the sketch that act on its globals and the hardware. *)
Definition Fn : Type := M hw_event globals unit.

Definition onOff (state : bool) : string := if state then "ON" else "OFF".

Definition onLEDChange (state : bool) : Fn :=
  emit (SerialPrint "LED button pressed: ") ;;
  emit (SerialPrintln (onOff state)) ;;
  modify (set_ledState state) ;;
  emit (DigitalWrite LED_PIN (if state then HIGH else LOW)) ;;
  modify (fun g => set_outputs (OutputStates.set_output1 (ledState g) (outputs g)) g).

Definition onRelayChange (state : bool) : Fn :=
  emit (SerialPrint "Relay button pressed: ") ;;
  emit (SerialPrintln (onOff state)) ;;
  g <- get ;;
  if String.eqb (currentMode g) "manual" then
    modify (set_relayState state) ;;
    emit (DigitalWrite RELAY_PIN (if state then HIGH else LOW)) ;;
    modify (fun g => set_outputs (OutputStates.set_output2 (relayState g) (outputs g)) g)
  else
    emit (SerialPrintln "Relay control only available in manual mode").

(** [mode] is a [const char*]: [println(mode)] and [String(mode)] read
    it up to its first NUL. *)
Definition onModeChange (mode : string) : Fn :=
  emit (SerialPrint "Mode changed to: ") ;;
  emit (SerialPrintln (c_str mode)) ;;
  modify (set_currentMode (c_str mode)) ;;
  modify (fun g => set_systemInfo (SystemInfo.set_mode (currentMode g) (systemInfo g)) g) ;;
  g <- get ;;
  when (String.eqb (currentMode g) "sleep")
    (emit (SerialPrintln "Entering sleep mode...")).

Definition onReset : Fn :=
  emit (SerialPrintln "Reset requested via dashboard").

(** [for (int i = 0; i < 5; i++)] of [onCustomAction], on its remaining
    number of rounds. *)
Fixpoint blink (rounds : nat) : Fn :=
  match rounds with
  | O => ret tt
  | S n =>
      emit (DigitalWrite LED_PIN HIGH) ;;
      emit (DelayMs 150) ;;
      emit (DigitalWrite LED_PIN LOW) ;;
      emit (DelayMs 150) ;;
      blink n
  end.

Definition onCustomAction : Fn :=
  emit (SerialPrintln "💡 Blink LED Test - Blinking onboard LED 5 times...") ;;
  g <- get ;;
  let originalState := ledState g in
  blink 5 ;;
  emit (DigitalWrite LED_PIN (if originalState then HIGH else LOW)) ;;
  emit (SerialPrintln "✓ LED blink test completed - ESP32 is working!").

Definition initializeDataStructures : Fn :=
  g <- get ;;
  modify (set_sensors
    {| SensorData.label1 := "Sensor";
       SensorData.label2 := "Temperature";
       SensorData.label3 := "Humidity";
       SensorData.unit1 := "units";
       SensorData.unit2 := "°C";
       SensorData.unit3 := "%";
       SensorData.showValue1 := true;
       SensorData.showValue2 := false;
       SensorData.showValue3 := false;
       SensorData.value1 := float_of_Z 0;
       SensorData.value2 := float_of_Z 0;
       SensorData.value3 := float_of_Z 0 |}) ;;
  modify (set_outputs
    {| OutputStates.label1 := "LED";
       OutputStates.label2 := "Relay";
       OutputStates.showOutput1 := true;
       OutputStates.showOutput2 := true;
       OutputStates.output1 := false;
       OutputStates.output2 := false |}) ;;
  modify (set_systemInfo
    {| SystemInfo.projectName := "🔧 My ESP32 Project";
       SystemInfo.version := "v1.0";
       SystemInfo.mode := currentMode g;
       SystemInfo.uptime := 0 |}).

(** [readSensors()], given what [analogRead(SENSOR_PIN)] returns. *)
Definition readSensors (adc : Z) : Fn :=
  modify (set_sensorValue adc).

Definition runApplicationLogic : Fn :=
  g <- get ;;
  when (String.eqb (currentMode g) "auto")
    (if (sensorValue g >? 2000) && negb (relayState g) then
       modify (set_relayState true) ;;
       emit (DigitalWrite RELAY_PIN HIGH) ;;
       emit (SerialPrintln "Auto: Relay turned ON")
     else if (sensorValue g <? 1500) && relayState g then
       modify (set_relayState false) ;;
       emit (DigitalWrite RELAY_PIN LOW) ;;
       emit (SerialPrintln "Auto: Relay turned OFF")
     else ret tt) ;;
  g <- get ;;
  when (String.eqb (currentMode g) "sleep") (ret tt).

(** The sketch as a whole: its globals next to the dashboard object. *)
Definition World : Type := WebDashboard.World globals.
Definition Op : Type := M event World unit.

Definition fn (f : Fn) : Op :=
  zoom WebDashboard.app WebDashboard.set_app Hw f.

(** [updateDashboardData()], given what [millis()] returns. *)
Definition updateDashboardData (now : Z) : Op :=
  fn (modify (fun g => set_sensors (SensorData.set_value1 (float_of_Z (sensorValue g)) (sensors g)) g)) ;;
  fn (modify (fun g => set_outputs (OutputStates.set_output1 (ledState g) (outputs g)) g)) ;;
  fn (modify (fun g => set_outputs (OutputStates.set_output2 (relayState g) (outputs g)) g)) ;;
  fn (modify (fun g => set_systemInfo (SystemInfo.set_uptime (now / 1000) (systemInfo g)) g)) ;;
  fn (modify (fun g => set_systemInfo (SystemInfo.set_mode (currentMode g) (systemInfo g)) g)) ;;
  WebDashboard.on_dash (WebDashboard.updateSensorData (Some sensors)) ;;
  WebDashboard.on_dash (WebDashboard.updateOutputStates (Some outputs)) ;;
  WebDashboard.on_dash (WebDashboard.updateSystemInfo (Some systemInfo)).

Definition setup : Op :=
  WebDashboard.hw (SerialBegin 115200) ;;
  WebDashboard.hw (DelayMs 1000) ;;
  WebDashboard.hw (SerialPrintln (nl ++ nl ++ "╔════════════════════════════════════╗")) ;;
  WebDashboard.hw (SerialPrintln "║   ESP32 Dashboard Template v2.0   ║") ;;
  WebDashboard.hw (SerialPrintln ("╚════════════════════════════════════╝" ++ nl)) ;;
  WebDashboard.hw (PinMode LED_PIN OUTPUT) ;;
  WebDashboard.hw (PinMode RELAY_PIN OUTPUT) ;;
  WebDashboard.hw (PinMode SENSOR_PIN INPUT) ;;
  WebDashboard.hw (DigitalWrite LED_PIN LOW) ;;
  WebDashboard.hw (DigitalWrite RELAY_PIN LOW) ;;
  fn initializeDataStructures ;;
  WebDashboard.begin ;;
  WebDashboard.on_dash (WebDashboard.onOutput1Change (Some onLEDChange)) ;;
  WebDashboard.on_dash (WebDashboard.onOutput2Change (Some onRelayChange)) ;;
  WebDashboard.on_dash (WebDashboard.onModeChange (Some onModeChange)) ;;
  WebDashboard.on_dash (WebDashboard.onReset (Some onReset)) ;;
  WebDashboard.on_dash (WebDashboard.onCustomAction (Some onCustomAction)) ;;
  WebDashboard.hw (SerialPrintln "✓ Setup complete!") ;;
  WebDashboard.hw (SerialPrintln ("✓ Connect to WiFi and open http://192.168.4.1" ++ nl)).

(** What one pass of [loop()] takes from outside: the request waiting
    at the listener, the three readings of [millis()] (the test of the
    sensor period, the stamp stored after a read, the uptime), and what
    [analogRead] returns if the sensor is read. *)
Record pass := {
  pending : option request;
  millis_test : Z;
  millis_stamp : Z;
  millis_uptime : Z;
  adc : Z
}.

Definition loop (i : pass) : Op :=
  WebDashboard.loop (pending i) ;;
  w <- get ;;
  when (elapsed (millis_test i) (lastSensorRead (WebDashboard.app w)) >? 500)
    (fn (readSensors (adc i)) ;;
     fn (modify (set_lastSensorRead (millis_stamp i)))) ;;
  updateDashboardData (millis_uptime i) ;;
  fn runApplicationLogic ;;
  WebDashboard.hw (DelayMs 10).

(** The globals as the C++ runtime initialises them before [setup()]. *)
Definition boot_globals : globals :=
  {| sensors :=
       {| SensorData.value1 := S754_zero false;
          SensorData.value2 := S754_zero false;
          SensorData.value3 := S754_zero false;
          SensorData.label1 := ""; SensorData.label2 := ""; SensorData.label3 := "";
          SensorData.unit1 := ""; SensorData.unit2 := ""; SensorData.unit3 := "";
          SensorData.showValue1 := false;
          SensorData.showValue2 := false;
          SensorData.showValue3 := false |};
     outputs :=
       {| OutputStates.output1 := false; OutputStates.output2 := false;
          OutputStates.label1 := ""; OutputStates.label2 := "";
          OutputStates.showOutput1 := false; OutputStates.showOutput2 := false |};
     systemInfo :=
       {| SystemInfo.projectName := ""; SystemInfo.version := "";
          SystemInfo.mode := ""; SystemInfo.uptime := 0 |};
     currentMode := "auto";
     ledState := false;
     relayState := false;
     sensorValue := 0;
     lastSensorRead := 0 |}.

Definition boot : World :=
  {| WebDashboard.dash := WebDashboard.WebDashboard WIFI_SSID WIFI_PASSWORD;
     WebDashboard.app := boot_globals;
     WebDashboard.wifi := WiFi.off |}.

End Template.

(** ** The stand-alone sketch (server and handlers in one file) *)

Module Standalone.

Definition AP_SSID : string := "ESP32-Config".
Definition AP_PASSWORD : string := "esp32pass".
Definition AP_IP : IPAddress := (192, 168, 4, 1).
Definition AP_GATEWAY : IPAddress := (192, 168, 4, 1).
Definition AP_SUBNET : IPAddress := (255, 255, 255, 0).

Definition LED_PIN : Z := 2.
Definition RELAY_PIN : Z := 4.
Definition SENSOR_PIN : Z := 34.

Inductive handler :=
| HandleRoot
| HandleStatus
| HandleLED
| HandleRelay
| HandleMode
| HandleReset.

(** The globals of the sketch, the WiFi driver, and [lastRead], the
    static local of [loop()]. *)
Record globals := {
  server : WebServer handler;
  wifi : WiFi.t;
  ledState : bool;
  relayState : bool;
  sensorValue : Z;
  projectMode : string;
  lastRead : Z
}.

Definition set_server (v : WebServer handler) (g : globals) : globals :=
  {| server := v; wifi := wifi g; ledState := ledState g;
     relayState := relayState g; sensorValue := sensorValue g;
     projectMode := projectMode g; lastRead := lastRead g |}.
Definition set_wifi (v : WiFi.t) (g : globals) : globals :=
  {| server := server g; wifi := v; ledState := ledState g;
     relayState := relayState g; sensorValue := sensorValue g;
     projectMode := projectMode g; lastRead := lastRead g |}.
Definition set_ledState (v : bool) (g : globals) : globals :=
  {| server := server g; wifi := wifi g; ledState := v;
     relayState := relayState g; sensorValue := sensorValue g;
     projectMode := projectMode g; lastRead := lastRead g |}.
Definition set_relayState (v : bool) (g : globals) : globals :=
  {| server := server g; wifi := wifi g; ledState := ledState g;
     relayState := v; sensorValue := sensorValue g;
     projectMode := projectMode g; lastRead := lastRead g |}.
Definition set_sensorValue (v : Z) (g : globals) : globals :=
  {| server := server g; wifi := wifi g; ledState := ledState g;
     relayState := relayState g; sensorValue := v;
     projectMode := projectMode g; lastRead := lastRead g |}.
Definition set_projectMode (v : string) (g : globals) : globals :=
  {| server := server g; wifi := wifi g; ledState := ledState g;
     relayState := relayState g; sensorValue := sensorValue g;
     projectMode := v; lastRead := lastRead g |}.
Definition set_lastRead (v : Z) (g : globals) : globals :=
  {| server := server g; wifi := wifi g; ledState := ledState g;
     relayState := relayState g; sensorValue := sensorValue g;
     projectMode := projectMode g; lastRead := v |}.

Definition Op : Type := M event globals unit.

Definition hw (e : hw_event) : Op := emit (Hw e).
Definition send (code : Z) (content_type : string) (body : payload) : Op :=
  emit (Send code content_type body).

Definition missing (param : string) : string :=
  "{" ++ dq ++ "error" ++ dq ++ ":" ++ dq ++ "Missing " ++ param ++ " parameter" ++ dq ++ "}".

Definition setup : Op :=
  hw (SerialBegin 115200) ;;
  hw (DelayMs 1000) ;;
  hw (SerialPrintln (nl ++ nl ++ "=== ESP32 WiFi Config Dashboard ===")) ;;
  hw (PinMode LED_PIN OUTPUT) ;;
  hw (PinMode RELAY_PIN OUTPUT) ;;
  hw (PinMode SENSOR_PIN INPUT) ;;
  hw (DigitalWrite LED_PIN LOW) ;;
  hw (DigitalWrite RELAY_PIN LOW) ;;
  hw (SerialPrintln "Starting WiFi Access Point...") ;;
  hw (SoftAPConfig AP_IP AP_GATEWAY AP_SUBNET) ;;
  modify (fun g => set_wifi (WiFi.softAPConfig AP_IP AP_GATEWAY AP_SUBNET (wifi g)) g) ;;
  hw (SoftAP AP_SSID AP_PASSWORD) ;;
  modify (fun g => set_wifi (WiFi.softAP AP_SSID AP_PASSWORD (wifi g)) g) ;;
  g <- get ;;
  let IP := WiFi.softAPIP (wifi g) in
  hw (SerialPrint "AP SSID: ") ;;
  hw (SerialPrintln AP_SSID) ;;
  hw (SerialPrint "AP IP address: ") ;;
  hw (SerialPrintlnIP IP) ;;
  hw (SerialPrintln "Connect to the WiFi and open http://192.168.4.1") ;;
  modify (fun g => set_server (on "/" (Some HTTP_GET) HandleRoot (server g)) g) ;;
  modify (fun g => set_server (on "/api/status" (Some HTTP_GET) HandleStatus (server g)) g) ;;
  modify (fun g => set_server (on "/api/led" (Some HTTP_GET) HandleLED (server g)) g) ;;
  modify (fun g => set_server (on "/api/relay" (Some HTTP_GET) HandleRelay (server g)) g) ;;
  modify (fun g => set_server (on "/api/mode" (Some HTTP_GET) HandleMode (server g)) g) ;;
  modify (fun g => set_server (on "/api/reset" (Some HTTP_GET) HandleReset (server g)) g) ;;
  modify (fun g => set_server (server_begin (server g)) g) ;;
  hw (SerialPrintln "Web server started!") ;;
  hw (SerialPrintln ("===================================" ++ nl)).

Definition handleRoot : Op :=
  send 200 "text/html" (Progmem "INDEX_HTML").

(** [handleStatus()], given what [millis()] returns. *)
Definition handleStatus (now : Z) : Op :=
  g <- get ;;
  let doc := StaticJsonDocument.declare 256 in
  let doc := StaticJsonDocument.set "sensor" (JInt (sensorValue g)) doc in
  let doc := StaticJsonDocument.set "uptime" (JInt (now / 1000)) doc in
  let doc := StaticJsonDocument.set "led" (JBool (ledState g)) doc in
  let doc := StaticJsonDocument.set "relay" (JBool (relayState g)) doc in
  let doc := StaticJsonDocument.set_String "mode" (projectMode g) doc in
  send 200 "application/json" (SerializeJson (StaticJsonDocument.members doc)).

Definition handleLED (q : request) : Op :=
  if hasArg "state" (req_args q) then
    let state := String_equals (arg "state" (req_args q)) "1" in
    modify (set_ledState state) ;;
    hw (DigitalWrite LED_PIN (if state then HIGH else LOW)) ;;
    g <- get ;;
    let doc := StaticJsonDocument.declare 64 in
    let doc := StaticJsonDocument.set "success" (JBool true) doc in
    let doc := StaticJsonDocument.set "led" (JBool (ledState g)) doc in
    send 200 "application/json" (SerializeJson (StaticJsonDocument.members doc))
  else
    send 400 "application/json" (Literal (missing "state")).

Definition handleRelay (q : request) : Op :=
  if hasArg "state" (req_args q) then
    let state := String_equals (arg "state" (req_args q)) "1" in
    g <- get ;;
    when (String_equals (projectMode g) "manual")
      (modify (set_relayState state) ;;
       hw (DigitalWrite RELAY_PIN (if state then HIGH else LOW))) ;;
    g <- get ;;
    let doc := StaticJsonDocument.declare 64 in
    let doc := StaticJsonDocument.set "success" (JBool true) doc in
    let doc := StaticJsonDocument.set "relay" (JBool (relayState g)) doc in
    send 200 "application/json" (SerializeJson (StaticJsonDocument.members doc))
  else
    send 400 "application/json" (Literal (missing "state")).

Definition handleMode (q : request) : Op :=
  if hasArg "mode" (req_args q) then
    modify (set_projectMode (arg "mode" (req_args q))) ;;
    g <- get ;;
    let doc := StaticJsonDocument.declare 64 in
    let doc := StaticJsonDocument.set "success" (JBool true) doc in
    let doc := StaticJsonDocument.set_String "mode" (projectMode g) doc in
    send 200 "application/json" (SerializeJson (StaticJsonDocument.members doc))
  else
    send 400 "application/json" (Literal (missing "mode")).

Definition handleReset : Op :=
  let doc := StaticJsonDocument.declare 64 in
  let doc := StaticJsonDocument.set "success" (JBool true) doc in
  let doc := StaticJsonDocument.set "message" (JString "Resetting in 3 seconds...") doc in
  send 200 "application/json" (SerializeJson (StaticJsonDocument.members doc)) ;;
  hw (DelayMs 3000) ;;
  never_returns (Hw EspRestart).

(** What one pass of [loop()] takes from outside. *)
Record pass := {
  pending : option request;
  millis_status : Z;
  millis_test : Z;
  millis_stamp : Z;
  adc : Z
}.

Definition dispatch (i : pass) (h : handler) (q : request) : Op :=
  match h with
  | HandleRoot => handleRoot
  | HandleStatus => handleStatus (millis_status i)
  | HandleLED => handleLED q
  | HandleRelay => handleRelay q
  | HandleMode => handleMode q
  | HandleReset => handleReset
  end.

Definition loop (i : pass) : Op :=
  g <- get ;;
  handleClient (server g) (pending i) (dispatch i) ;;
  g <- get ;;
  when (elapsed (millis_test i) (lastRead g) >? 500)
    (modify (set_sensorValue (adc i)) ;;
     modify (set_lastRead (millis_stamp i))) ;;
  g <- get ;;
  when (String_equals (projectMode g) "auto")
    (if sensorValue g >? 2000 then
       hw (DigitalWrite RELAY_PIN HIGH) ;;
       modify (set_relayState true)
     else
       hw (DigitalWrite RELAY_PIN LOW) ;;
       modify (set_relayState false)).

Definition boot : globals :=
  {| server := {| ws_port := 80; ws_routes := []; ws_listening := false |};
     wifi := WiFi.off;
     ledState := false;
     relayState := false;
     sensorValue := 0;
     projectMode := "auto";
     lastRead := 0 |}.

End Standalone.

(** ** The temperature and humidity monitor example *)

Module TempMonitor.

Definition WIFI_SSID : string := "ESP32-Weather".
Definition WIFI_PASSWORD : string := "weather123".

Definition DHTPIN : Z := 4.
Definition LED_PIN : Z := 2.

(** [const float TEMP_THRESHOLD = 25.0] *)
Definition TEMP_THRESHOLD : spec_float := float_of_Z 25.

(** The promotion of a [float] to [double], and a [double] literal. *)
Definition double_of_float (f : spec_float) : spec_float :=
  match f with
  | S754_finite s m e => binary_normalize 53 1024 (cond_Zopp s (Zpos m)) e s
  | _ => f
  end.
Definition double_of_Z (z : Z) : spec_float := binary_normalize 53 1024 z 0 false.

(** The globals of the sketch; [lastRead] is the static local of
    [loop()]. [mode] is assigned only from a literal and from
    [String(newMode)], a C string, and so holds no NUL. *)
Record globals := {
  sensors : SensorData.t;
  outputs : OutputStates.t;
  systemInfo : SystemInfo.t;
  temperature : spec_float;
  humidity : spec_float;
  fanState : bool;
  mode : string;
  lastRead : Z
}.

Definition set_sensors (v : SensorData.t) (g : globals) : globals :=
  {| sensors := v; outputs := outputs g; systemInfo := systemInfo g;
     temperature := temperature g; humidity := humidity g;
     fanState := fanState g; mode := mode g; lastRead := lastRead g |}.
Definition set_outputs (v : OutputStates.t) (g : globals) : globals :=
  {| sensors := sensors g; outputs := v; systemInfo := systemInfo g;
     temperature := temperature g; humidity := humidity g;
     fanState := fanState g; mode := mode g; lastRead := lastRead g |}.
Definition set_systemInfo (v : SystemInfo.t) (g : globals) : globals :=
  {| sensors := sensors g; outputs := outputs g; systemInfo := v;
     temperature := temperature g; humidity := humidity g;
     fanState := fanState g; mode := mode g; lastRead := lastRead g |}.
Definition set_temperature (v : spec_float) (g : globals) : globals :=
  {| sensors := sensors g; outputs := outputs g; systemInfo := systemInfo g;
     temperature := v; humidity := humidity g;
     fanState := fanState g; mode := mode g; lastRead := lastRead g |}.
Definition set_humidity (v : spec_float) (g : globals) : globals :=
  {| sensors := sensors g; outputs := outputs g; systemInfo := systemInfo g;
     temperature := temperature g; humidity := v;
     fanState := fanState g; mode := mode g; lastRead := lastRead g |}.
Definition set_fanState (v : bool) (g : globals) : globals :=
  {| sensors := sensors g; outputs := outputs g; systemInfo := systemInfo g;
     temperature := temperature g; humidity := humidity g;
     fanState := v; mode := mode g; lastRead := lastRead g |}.
Definition set_mode (v : string) (g : globals) : globals :=
  {| sensors := sensors g; outputs := outputs g; systemInfo := systemInfo g;
     temperature := temperature g; humidity := humidity g;
     fanState := fanState g; mode := v; lastRead := lastRead g |}.
Definition set_lastRead (v : Z) (g : globals) : globals :=
  {| sensors := sensors g; outputs := outputs g; systemInfo := systemInfo g;
     temperature := temperature g; humidity := humidity g;
     fanState := fanState g; mode := mode g; lastRead := v |}.

Definition Fn : Type := M hw_event globals unit.

Definition onOff (state : bool) : string := if state then "ON" else "OFF".

Definition onFanControl (state : bool) : Fn :=
  g <- get ;;
  when (String.eqb (mode g) "manual")
    (modify (set_fanState state) ;;
     emit (DigitalWrite LED_PIN (if state then HIGH else LOW)) ;;
     emit (SerialPrintf ("Fan manually set to %s" ++ nl) [ArgStr (onOff state)])).

(** [newMode] is a [const char*]: [String(newMode)] reads it up to its
    first NUL. *)
Definition onModeChange (newMode : string) : Fn :=
  modify (set_mode (c_str newMode)) ;;
  g <- get ;;
  emit (SerialPrintf ("Mode: %s" ++ nl) [ArgStr (mode g)]) ;;
  if String.eqb (mode g) "manual" then
    emit (SerialPrintln "Manual mode: Use dashboard to control fan")
  else if String.eqb (mode g) "auto" then
    emit (SerialPrintln "Auto mode: Fan controlled by temperature")
  else ret tt.

Definition onReset : Fn :=
  emit (SerialPrintln "Resetting...").

Fixpoint blink (rounds : nat) : Fn :=
  match rounds with
  | O => ret tt
  | S n =>
      emit (DigitalWrite LED_PIN HIGH) ;;
      emit (DelayMs 150) ;;
      emit (DigitalWrite LED_PIN LOW) ;;
      emit (DelayMs 150) ;;
      blink n
  end.

Definition onBlinkTest : Fn :=
  emit (SerialPrintln "💡 Blink LED Test - Blinking onboard LED 5 times...") ;;
  g <- get ;;
  let originalState := fanState g in
  blink 5 ;;
  emit (DigitalWrite LED_PIN (if originalState then HIGH else LOW)) ;;
  emit (SerialPrintln "✓ LED blink test completed!").

Definition World : Type := WebDashboard.World globals.
Definition Op : Type := M event World unit.

Definition fn (f : Fn) : Op :=
  zoom WebDashboard.app WebDashboard.set_app Hw f.

Definition setup : Op :=
  WebDashboard.hw (SerialBegin 115200) ;;
  WebDashboard.hw (DelayMs 1000) ;;
  WebDashboard.hw (SerialPrintln (nl ++ "╔══════════════════════════════╗")) ;;
  WebDashboard.hw (SerialPrintln "║  Temperature Monitor v1.0   ║") ;;
  WebDashboard.hw (SerialPrintln ("╚══════════════════════════════╝" ++ nl)) ;;
  WebDashboard.hw (PinMode LED_PIN OUTPUT) ;;
  WebDashboard.hw (DigitalWrite LED_PIN LOW) ;;
  WebDashboard.hw DhtBegin ;;
  fn (modify (fun g => set_sensors
    {| SensorData.label1 := "Temperature";
       SensorData.label2 := "Humidity";
       SensorData.label3 := "Heat Index";
       SensorData.unit1 := "°C";
       SensorData.unit2 := "%";
       SensorData.unit3 := "°C";
       SensorData.showValue1 := true;
       SensorData.showValue2 := true;
       SensorData.showValue3 := true;
       SensorData.value1 := SensorData.value1 (sensors g);
       SensorData.value2 := SensorData.value2 (sensors g);
       SensorData.value3 := SensorData.value3 (sensors g) |} g)) ;;
  fn (modify (fun g => set_outputs
    {| OutputStates.label1 := "Fan/Cooler";
       OutputStates.label2 := "";
       OutputStates.showOutput1 := true;
       OutputStates.showOutput2 := false;
       OutputStates.output1 := OutputStates.output1 (outputs g);
       OutputStates.output2 := OutputStates.output2 (outputs g) |} g)) ;;
  fn (modify (fun g => set_systemInfo
    {| SystemInfo.projectName := "🌡️ Weather Station";
       SystemInfo.version := "v1.0";
       SystemInfo.mode := mode g;
       SystemInfo.uptime := SystemInfo.uptime (systemInfo g) |} g)) ;;
  WebDashboard.begin ;;
  WebDashboard.on_dash (WebDashboard.onOutput1Change (Some onFanControl)) ;;
  WebDashboard.on_dash (WebDashboard.onModeChange (Some onModeChange)) ;;
  WebDashboard.on_dash (WebDashboard.onReset (Some onReset)) ;;
  WebDashboard.on_dash (WebDashboard.onCustomAction (Some onBlinkTest)) ;;
  WebDashboard.hw (SerialPrintln ("✓ Ready! Open http://192.168.4.1" ++ nl)).

(** What one pass of [loop()] takes from outside: the request waiting
    at the listener, the three readings of [millis()], and what the
    sensor returns for the temperature and the humidity if it is read. *)
Record pass := {
  pending : option request;
  millis_test : Z;
  millis_stamp : Z;
  millis_uptime : Z;
  readTemperature : spec_float;
  readHumidity : spec_float
}.

Section Dht.
(** [dht.computeHeatIndex] of the sensor library. *)
Variable computeHeatIndex : spec_float -> spec_float -> bool -> spec_float.

Definition loop (i : pass) : Op :=
  WebDashboard.loop (pending i) ;;
  w <- get ;;
  when (elapsed (millis_test i) (lastRead (WebDashboard.app w)) >? 2000)
    (fn (modify (set_temperature (readTemperature i))) ;;
     fn (modify (set_humidity (readHumidity i))) ;;
     w <- get ;;
     let g := WebDashboard.app w in
     (if isnan (temperature g) || isnan (humidity g) then
        WebDashboard.hw (SerialPrintln "Failed to read from DHT sensor!") ;;
        fn (modify (set_temperature (float_of_Z 0))) ;;
        fn (modify (set_humidity (float_of_Z 0)))
      else
        let heatIndex := computeHeatIndex (temperature g) (humidity g) false in
        fn (modify (fun g => set_sensors (SensorData.set_value3 heatIndex (sensors g)) g))) ;;
     fn (modify (set_lastRead (millis_stamp i)))) ;;
  w <- get ;;
  let g := WebDashboard.app w in
  when (String.eqb (mode g) "auto")
    (if SFltb TEMP_THRESHOLD (temperature g) && negb (fanState g) then
       fn (modify (set_fanState true)) ;;
       WebDashboard.hw (DigitalWrite LED_PIN HIGH) ;;
       WebDashboard.hw (SerialPrintf ("Auto: Fan ON (temp: %.1f°C)" ++ nl)
                          [ArgFloat (temperature g)])
     else if SFltb (double_of_float (temperature g))
                   (SFsub 53 1024 (double_of_float TEMP_THRESHOLD) (double_of_Z 1))
             && fanState g then
       fn (modify (set_fanState false)) ;;
       WebDashboard.hw (DigitalWrite LED_PIN LOW) ;;
       WebDashboard.hw (SerialPrintf ("Auto: Fan OFF (temp: %.1f°C)" ++ nl)
                          [ArgFloat (temperature g)])
     else ret tt) ;;
  fn (modify (fun g => set_sensors (SensorData.set_value1 (temperature g) (sensors g)) g)) ;;
  fn (modify (fun g => set_sensors (SensorData.set_value2 (humidity g) (sensors g)) g)) ;;
  fn (modify (fun g => set_outputs (OutputStates.set_output1 (fanState g) (outputs g)) g)) ;;
  fn (modify (fun g => set_systemInfo (SystemInfo.set_uptime (millis_uptime i / 1000) (systemInfo g)) g)) ;;
  fn (modify (fun g => set_systemInfo (SystemInfo.set_mode (mode g) (systemInfo g)) g)) ;;
  WebDashboard.on_dash (WebDashboard.updateSensorData (Some sensors)) ;;
  WebDashboard.on_dash (WebDashboard.updateOutputStates (Some outputs)) ;;
  WebDashboard.on_dash (WebDashboard.updateSystemInfo (Some systemInfo)) ;;
  WebDashboard.hw (DelayMs 10).
End Dht.

Definition boot_globals : globals :=
  {| sensors :=
       {| SensorData.value1 := S754_zero false;
          SensorData.value2 := S754_zero false;
          SensorData.value3 := S754_zero false;
          SensorData.label1 := ""; SensorData.label2 := ""; SensorData.label3 := "";
          SensorData.unit1 := ""; SensorData.unit2 := ""; SensorData.unit3 := "";
          SensorData.showValue1 := false;
          SensorData.showValue2 := false;
          SensorData.showValue3 := false |};
     outputs :=
       {| OutputStates.output1 := false; OutputStates.output2 := false;
          OutputStates.label1 := ""; OutputStates.label2 := "";
          OutputStates.showOutput1 := false; OutputStates.showOutput2 := false |};
     systemInfo :=
       {| SystemInfo.projectName := ""; SystemInfo.version := "";
          SystemInfo.mode := ""; SystemInfo.uptime := 0 |};
     temperature := float_of_Z 0;
     humidity := float_of_Z 0;
     fanState := false;
     mode := "auto";
     lastRead := 0 |}.

Definition boot : World :=
  {| WebDashboard.dash := WebDashboard.WebDashboard WIFI_SSID WIFI_PASSWORD;
     WebDashboard.app := boot_globals;
     WebDashboard.wifi := WiFi.off |}.

End TempMonitor.

(** ** The phototransistor light sensor sketch *)

(** [map] and [constrain] of the Arduino core: [long] arithmetic with the
    division of C, which truncates toward zero. *)
Definition map_range (x in_min in_max out_min out_max : Z) : Z :=
  (x - in_min) * (out_max - out_min) ÷ (in_max - in_min) + out_min.

Definition constrain (x lo hi : Z) : Z :=
  if x <? lo then lo else if x >? hi then hi else x.

Module LightSensor.

Definition WIFI_SSID : string := "ESP32-LightSensor".
Definition WIFI_PASSWORD : string := "esp32light".

Definition LED_PIN : Z := 2.
Definition PHOTOTRANSISTOR_PIN : Z := 32.

Definition LIGHT_MIN_ADC : Z := 0.
Definition LIGHT_MAX_ADC : Z := 4095.
Definition LIGHT_THRESHOLD_DARK : Z := 3000.
Definition LIGHT_THRESHOLD_DIM : Z := 2000.
Definition LIGHT_THRESHOLD_BRIGHT : Z := 500.

Definition NUM_SAMPLES : Z := 10.

(** The globals of the sketch; [lightSamples] is the array of
    [NUM_SAMPLES] readings, and the three [last...] fields are the static
    locals of [loop()]. [currentMode] is assigned only from literals and
    from [String(mode)], a C string, and so holds no NUL. *)
Record globals := {
  sensors : SensorData.t;
  outputs : OutputStates.t;
  systemInfo : SystemInfo.t;
  currentMode : string;
  ledState : bool;
  lightRawValue : Z;
  lightPercent : Z;
  lightStatus : string;
  lightSamples : list Z;
  sampleIndex : Z;
  lastSensorRead : Z;
  lastDashboardUpdate : Z;
  lastDebugPrint : Z
}.

Definition set_sensors (v : SensorData.t) (g : globals) : globals :=
  {| sensors := v; outputs := outputs g; systemInfo := systemInfo g;
     currentMode := currentMode g; ledState := ledState g;
     lightRawValue := lightRawValue g; lightPercent := lightPercent g;
     lightStatus := lightStatus g; lightSamples := lightSamples g;
     sampleIndex := sampleIndex g; lastSensorRead := lastSensorRead g;
     lastDashboardUpdate := lastDashboardUpdate g;
     lastDebugPrint := lastDebugPrint g |}.
Definition set_outputs (v : OutputStates.t) (g : globals) : globals :=
  {| sensors := sensors g; outputs := v; systemInfo := systemInfo g;
     currentMode := currentMode g; ledState := ledState g;
     lightRawValue := lightRawValue g; lightPercent := lightPercent g;
     lightStatus := lightStatus g; lightSamples := lightSamples g;
     sampleIndex := sampleIndex g; lastSensorRead := lastSensorRead g;
     lastDashboardUpdate := lastDashboardUpdate g;
     lastDebugPrint := lastDebugPrint g |}.
Definition set_systemInfo (v : SystemInfo.t) (g : globals) : globals :=
  {| sensors := sensors g; outputs := outputs g; systemInfo := v;
     currentMode := currentMode g; ledState := ledState g;
     lightRawValue := lightRawValue g; lightPercent := lightPercent g;
     lightStatus := lightStatus g; lightSamples := lightSamples g;
     sampleIndex := sampleIndex g; lastSensorRead := lastSensorRead g;
     lastDashboardUpdate := lastDashboardUpdate g;
     lastDebugPrint := lastDebugPrint g |}.
Definition set_currentMode (v : string) (g : globals) : globals :=
  {| sensors := sensors g; outputs := outputs g; systemInfo := systemInfo g;
     currentMode := v; ledState := ledState g;
     lightRawValue := lightRawValue g; lightPercent := lightPercent g;
     lightStatus := lightStatus g; lightSamples := lightSamples g;
     sampleIndex := sampleIndex g; lastSensorRead := lastSensorRead g;
     lastDashboardUpdate := lastDashboardUpdate g;
     lastDebugPrint := lastDebugPrint g |}.
Definition set_ledState (v : bool) (g : globals) : globals :=
  {| sensors := sensors g; outputs := outputs g; systemInfo := systemInfo g;
     currentMode := currentMode g; ledState := v;
     lightRawValue := lightRawValue g; lightPercent := lightPercent g;
     lightStatus := lightStatus g; lightSamples := lightSamples g;
     sampleIndex := sampleIndex g; lastSensorRead := lastSensorRead g;
     lastDashboardUpdate := lastDashboardUpdate g;
     lastDebugPrint := lastDebugPrint g |}.
Definition set_lightRawValue (v : Z) (g : globals) : globals :=
  {| sensors := sensors g; outputs := outputs g; systemInfo := systemInfo g;
     currentMode := currentMode g; ledState := ledState g;
     lightRawValue := v; lightPercent := lightPercent g;
     lightStatus := lightStatus g; lightSamples := lightSamples g;
     sampleIndex := sampleIndex g; lastSensorRead := lastSensorRead g;
     lastDashboardUpdate := lastDashboardUpdate g;
     lastDebugPrint := lastDebugPrint g |}.
Definition set_lightPercent (v : Z) (g : globals) : globals :=
  {| sensors := sensors g; outputs := outputs g; systemInfo := systemInfo g;
     currentMode := currentMode g; ledState := ledState g;
     lightRawValue := lightRawValue g; lightPercent := v;
     lightStatus := lightStatus g; lightSamples := lightSamples g;
     sampleIndex := sampleIndex g; lastSensorRead := lastSensorRead g;
     lastDashboardUpdate := lastDashboardUpdate g;
     lastDebugPrint := lastDebugPrint g |}.
Definition set_lightStatus (v : string) (g : globals) : globals :=
  {| sensors := sensors g; outputs := outputs g; systemInfo := systemInfo g;
     currentMode := currentMode g; ledState := ledState g;
     lightRawValue := lightRawValue g; lightPercent := lightPercent g;
     lightStatus := v; lightSamples := lightSamples g;
     sampleIndex := sampleIndex g; lastSensorRead := lastSensorRead g;
     lastDashboardUpdate := lastDashboardUpdate g;
     lastDebugPrint := lastDebugPrint g |}.
Definition set_lightSamples (v : list Z) (g : globals) : globals :=
  {| sensors := sensors g; outputs := outputs g; systemInfo := systemInfo g;
     currentMode := currentMode g; ledState := ledState g;
     lightRawValue := lightRawValue g; lightPercent := lightPercent g;
     lightStatus := lightStatus g; lightSamples := v;
     sampleIndex := sampleIndex g; lastSensorRead := lastSensorRead g;
     lastDashboardUpdate := lastDashboardUpdate g;
     lastDebugPrint := lastDebugPrint g |}.
Definition set_sampleIndex (v : Z) (g : globals) : globals :=
  {| sensors := sensors g; outputs := outputs g; systemInfo := systemInfo g;
     currentMode := currentMode g; ledState := ledState g;
     lightRawValue := lightRawValue g; lightPercent := lightPercent g;
     lightStatus := lightStatus g; lightSamples := lightSamples g;
     sampleIndex := v; lastSensorRead := lastSensorRead g;
     lastDashboardUpdate := lastDashboardUpdate g;
     lastDebugPrint := lastDebugPrint g |}.
Definition set_lastSensorRead (v : Z) (g : globals) : globals :=
  {| sensors := sensors g; outputs := outputs g; systemInfo := systemInfo g;
     currentMode := currentMode g; ledState := ledState g;
     lightRawValue := lightRawValue g; lightPercent := lightPercent g;
     lightStatus := lightStatus g; lightSamples := lightSamples g;
     sampleIndex := sampleIndex g; lastSensorRead := v;
     lastDashboardUpdate := lastDashboardUpdate g;
     lastDebugPrint := lastDebugPrint g |}.
Definition set_lastDashboardUpdate (v : Z) (g : globals) : globals :=
  {| sensors := sensors g; outputs := outputs g; systemInfo := systemInfo g;
     currentMode := currentMode g; ledState := ledState g;
     lightRawValue := lightRawValue g; lightPercent := lightPercent g;
     lightStatus := lightStatus g; lightSamples := lightSamples g;
     sampleIndex := sampleIndex g; lastSensorRead := lastSensorRead g;
     lastDashboardUpdate := v;
     lastDebugPrint := lastDebugPrint g |}.
Definition set_lastDebugPrint (v : Z) (g : globals) : globals :=
  {| sensors := sensors g; outputs := outputs g; systemInfo := systemInfo g;
     currentMode := currentMode g; ledState := ledState g;
     lightRawValue := lightRawValue g; lightPercent := lightPercent g;
     lightStatus := lightStatus g; lightSamples := lightSamples g;
     sampleIndex := sampleIndex g; lastSensorRead := lastSensorRead g;
     lastDashboardUpdate := lastDashboardUpdate g;
     lastDebugPrint := v |}.

(** [a[i] = v] on an array kept as a list; a write past the end, which
    the sketch never performs, leaves the list as it is. *)
Fixpoint store (i : nat) (v : Z) (a : list Z) : list Z :=
  match a, i with
  | [], _ => []
  | _ :: rest, O => v :: rest
  | x :: rest, S j => x :: store j v rest
  end.

(** [for (int i = 0; i < n; i++) sum += a[i]], on the number of rounds
    left and the index reached. *)
Fixpoint sum_from (rounds : nat) (i : nat) (a : list Z) (sum : Z) : Z :=
  match rounds with
  | O => sum
  | S n => sum_from n (S i) a (sum + nth i a 0)
  end.

Definition Fn : Type := M hw_event globals unit.

Definition onLEDChange (state : bool) : Fn :=
  emit (SerialPrint "LED: ") ;;
  emit (SerialPrintln (if state then "PAALLA" else "POIS")) ;;
  modify (set_ledState state) ;;
  emit (DigitalWrite LED_PIN (if state then HIGH else LOW)) ;;
  modify (fun g => set_outputs (OutputStates.set_output1 (ledState g) (outputs g)) g).

Definition onAutoLightChange (state : bool) : Fn :=
  emit (SerialPrint "Automaattinen valo: ") ;;
  emit (SerialPrintln (if state then "PAALLA" else "POIS")) ;;
  (if state then modify (set_currentMode "auto")
   else modify (set_currentMode "manual")) ;;
  modify (fun g => set_systemInfo (SystemInfo.set_mode (currentMode g) (systemInfo g)) g).

(** [mode] is a [const char*]: [println(mode)] and [String(mode)] read
    it up to its first NUL. *)
Definition onModeChange (mode : string) : Fn :=
  emit (SerialPrint "Tila vaihdettu: ") ;;
  emit (SerialPrintln (c_str mode)) ;;
  modify (set_currentMode (c_str mode)) ;;
  modify (fun g => set_systemInfo (SystemInfo.set_mode (currentMode g) (systemInfo g)) g).

Definition onReset : Fn :=
  emit (SerialPrintln "Kaynnistetaan uudelleen...").

Definition onCustomAction : Fn :=
  g <- get ;;
  emit (SerialPrintln (nl ++ "========== KALIBROINTI ==========")) ;;
  emit (SerialPrint "Raaka ADC-arvo: ") ;;
  emit (SerialPrintlnInt (lightRawValue g)) ;;
  emit (SerialPrint "Valoprosentti: ") ;;
  emit (SerialPrintInt (lightPercent g)) ;;
  emit (SerialPrintln "%") ;;
  emit (SerialPrint "Tila: ") ;;
  emit (SerialPrintln (lightStatus g)) ;;
  emit (SerialPrintln ("=================================" ++ nl)) ;;
  emit (DigitalWrite LED_PIN HIGH) ;;
  emit (DelayMs 100) ;;
  emit (DigitalWrite LED_PIN LOW).

(** [readLightSensor()], given what [analogRead] returns. *)
Definition readLightSensor (rawValue : Z) : Fn :=
  modify (fun g => set_lightSamples
                     (store (Z.to_nat (sampleIndex g)) rawValue (lightSamples g)) g) ;;
  modify (fun g => set_sampleIndex (Z.rem (sampleIndex g + 1) NUM_SAMPLES) g) ;;
  g <- get ;;
  let sum := sum_from (Z.to_nat NUM_SAMPLES) 0 (lightSamples g) 0 in
  modify (set_lightRawValue (sum ÷ NUM_SAMPLES)) ;;
  modify (fun g => set_lightPercent
                     (map_range (lightRawValue g) LIGHT_MAX_ADC LIGHT_MIN_ADC 0 100) g) ;;
  modify (fun g => set_lightPercent (constrain (lightPercent g) 0 100) g) ;;
  g <- get ;;
  if lightRawValue g >=? LIGHT_THRESHOLD_DARK then
    modify (set_lightStatus "PIMEA")
  else if lightRawValue g >=? LIGHT_THRESHOLD_DIM then
    modify (set_lightStatus "HIMMEA")
  else if lightRawValue g >=? LIGHT_THRESHOLD_BRIGHT then
    modify (set_lightStatus "VALOISA")
  else
    modify (set_lightStatus "KIRKAS").

Definition runLightControl : Fn :=
  g <- get ;;
  when (String.eqb (currentMode g) "auto")
    (let shouldLedBeOn := lightRawValue g >=? LIGHT_THRESHOLD_DIM in
     if shouldLedBeOn && negb (ledState g) then
       modify (set_ledState true) ;;
       emit (DigitalWrite LED_PIN HIGH) ;;
       modify (fun g => set_outputs (OutputStates.set_output1 true (outputs g)) g) ;;
       emit (SerialPrintln "Auto: LED PAALLE (pimeaa)")
     else if negb shouldLedBeOn && ledState g then
       modify (set_ledState false) ;;
       emit (DigitalWrite LED_PIN LOW) ;;
       modify (fun g => set_outputs (OutputStates.set_output1 false (outputs g)) g) ;;
       emit (SerialPrintln "Auto: LED POIS (valoisaa)")
     else ret tt).

Definition initializeDataStructures : Fn :=
  g <- get ;;
  modify (set_sensors
    {| SensorData.label1 := "Valo";
       SensorData.label2 := "ADC";
       SensorData.label3 := "Tila";
       SensorData.unit1 := "%";
       SensorData.unit2 := "raw";
       SensorData.unit3 := "";
       SensorData.showValue1 := true;
       SensorData.showValue2 := true;
       SensorData.showValue3 := false;
       SensorData.value1 := float_of_Z 0;
       SensorData.value2 := float_of_Z 0;
       SensorData.value3 := float_of_Z 0 |}) ;;
  modify (set_outputs
    {| OutputStates.label1 := "LED";
       OutputStates.label2 := "Auto";
       OutputStates.showOutput1 := true;
       OutputStates.showOutput2 := true;
       OutputStates.output1 := false;
       OutputStates.output2 := true |}) ;;
  modify (set_systemInfo
    {| SystemInfo.projectName := "Valosensori (Layout 5)";
       SystemInfo.version := "v1.0";
       SystemInfo.mode := currentMode g;
       SystemInfo.uptime := 0 |}).

Definition printDebugInfo : Fn :=
  g <- get ;;
  emit (SerialPrint "Valo: ") ;;
  emit (SerialPrintInt (lightPercent g)) ;;
  emit (SerialPrint "% | ADC: ") ;;
  emit (SerialPrintInt (lightRawValue g)) ;;
  emit (SerialPrint " | ") ;;
  emit (SerialPrint (lightStatus g)) ;;
  emit (SerialPrint " | LED: ") ;;
  emit (SerialPrint (if ledState g then "ON" else "OFF")) ;;
  emit (SerialPrint " | Mode: ") ;;
  emit (SerialPrintln (currentMode g)).

Definition World : Type := WebDashboard.World globals.
Definition Op : Type := M event World unit.

Definition fn (f : Fn) : Op :=
  zoom WebDashboard.app WebDashboard.set_app Hw f.

(** [updateDashboardData()], given what [millis()] returns. *)
Definition updateDashboardData (now : Z) : Op :=
  fn (modify (fun g => set_sensors
        (SensorData.set_value1 (float_of_Z (lightPercent g)) (sensors g)) g)) ;;
  fn (modify (fun g => set_sensors
        (SensorData.set_value2 (float_of_Z (lightRawValue g)) (sensors g)) g)) ;;
  fn (modify (fun g => set_sensors
        (SensorData.set_value3 (float_of_Z 0) (sensors g)) g)) ;;
  fn (modify (fun g => set_outputs (OutputStates.set_output1 (ledState g) (outputs g)) g)) ;;
  fn (modify (fun g => set_outputs
        (OutputStates.set_output2 (String.eqb (currentMode g) "auto") (outputs g)) g)) ;;
  fn (modify (fun g => set_systemInfo (SystemInfo.set_uptime (now / 1000) (systemInfo g)) g)) ;;
  fn (modify (fun g => set_systemInfo (SystemInfo.set_mode (currentMode g) (systemInfo g)) g)) ;;
  WebDashboard.on_dash (WebDashboard.updateSensorData (Some sensors)) ;;
  WebDashboard.on_dash (WebDashboard.updateOutputStates (Some outputs)) ;;
  WebDashboard.on_dash (WebDashboard.updateSystemInfo (Some systemInfo)).

(** [for (int i = 0; i < NUM_SAMPLES; i++) lightSamples[i] = 0] of
    [setup()], on the number of rounds left and the index reached. *)
Fixpoint clear_from (rounds : nat) (i : nat) (a : list Z) : list Z :=
  match rounds with
  | O => a
  | S n => clear_from n (S i) (store i 0 a)
  end.

Definition setup : Op :=
  WebDashboard.hw (SerialBegin 115200) ;;
  WebDashboard.hw (DelayMs 1000) ;;
  WebDashboard.hw (SerialPrintln (nl ++ nl ++ "========================================")) ;;
  WebDashboard.hw (SerialPrintln "  Fototransistori Valosensori") ;;
  WebDashboard.hw (SerialPrintln "  Layout 5 - Valon havaitseminen") ;;
  WebDashboard.hw (SerialPrintln ("========================================" ++ nl)) ;;
  WebDashboard.hw (PinMode LED_PIN OUTPUT) ;;
  WebDashboard.hw (PinMode PHOTOTRANSISTOR_PIN INPUT) ;;
  WebDashboard.hw (DigitalWrite LED_PIN LOW) ;;
  fn (modify (fun g => set_lightSamples
        (clear_from (Z.to_nat NUM_SAMPLES) 0 (lightSamples g)) g)) ;;
  fn initializeDataStructures ;;
  WebDashboard.begin ;;
  WebDashboard.on_dash (WebDashboard.onOutput1Change (Some onLEDChange)) ;;
  WebDashboard.on_dash (WebDashboard.onOutput2Change (Some onAutoLightChange)) ;;
  WebDashboard.on_dash (WebDashboard.onModeChange (Some onModeChange)) ;;
  WebDashboard.on_dash (WebDashboard.onReset (Some onReset)) ;;
  WebDashboard.on_dash (WebDashboard.onCustomAction (Some onCustomAction)) ;;
  WebDashboard.hw (SerialPrintln "Kaynnistys valmis!") ;;
  WebDashboard.hw (SerialPrintln "Yhdista WiFi-verkkoon ja avaa http://192.168.4.1") ;;
  WebDashboard.hw (SerialPrint "WiFi: ") ;;
  WebDashboard.hw (SerialPrintln WIFI_SSID) ;;
  WebDashboard.hw (SerialPrintln "").

(** What one pass of [loop()] takes from outside: the request waiting at
    the listener, the readings of [millis()] in the order they are taken,
    and what [analogRead] returns if the sensor is read. *)
Record pass := {
  pending : option request;
  millis_sensor_test : Z;
  millis_sensor_stamp : Z;
  millis_dashboard_test : Z;
  millis_uptime : Z;
  millis_dashboard_stamp : Z;
  millis_debug_test : Z;
  millis_debug_stamp : Z;
  adc : Z
}.

Definition loop (i : pass) : Op :=
  WebDashboard.loop (pending i) ;;
  w <- get ;;
  when (elapsed (millis_sensor_test i) (lastSensorRead (WebDashboard.app w)) >? 100)
    (fn (readLightSensor (adc i)) ;;
     fn (modify (set_lastSensorRead (millis_sensor_stamp i)))) ;;
  w <- get ;;
  when (elapsed (millis_dashboard_test i) (lastDashboardUpdate (WebDashboard.app w)) >? 250)
    (updateDashboardData (millis_uptime i) ;;
     fn (modify (set_lastDashboardUpdate (millis_dashboard_stamp i)))) ;;
  fn runLightControl ;;
  w <- get ;;
  when (elapsed (millis_debug_test i) (lastDebugPrint (WebDashboard.app w)) >? 2000)
    (fn printDebugInfo ;;
     fn (modify (set_lastDebugPrint (millis_debug_stamp i)))) ;;
  WebDashboard.hw (DelayMs 10).

Definition boot_globals : globals :=
  {| sensors :=
       {| SensorData.value1 := S754_zero false;
          SensorData.value2 := S754_zero false;
          SensorData.value3 := S754_zero false;
          SensorData.label1 := ""; SensorData.label2 := ""; SensorData.label3 := "";
          SensorData.unit1 := ""; SensorData.unit2 := ""; SensorData.unit3 := "";
          SensorData.showValue1 := false;
          SensorData.showValue2 := false;
          SensorData.showValue3 := false |};
     outputs :=
       {| OutputStates.output1 := false; OutputStates.output2 := false;
          OutputStates.label1 := ""; OutputStates.label2 := "";
          OutputStates.showOutput1 := false; OutputStates.showOutput2 := false |};
     systemInfo :=
       {| SystemInfo.projectName := ""; SystemInfo.version := "";
          SystemInfo.mode := ""; SystemInfo.uptime := 0 |};
     currentMode := "auto";
     ledState := false;
     lightRawValue := 0;
     lightPercent := 0;
     lightStatus := "?";
     lightSamples := [0; 0; 0; 0; 0; 0; 0; 0; 0; 0];
     sampleIndex := 0;
     lastSensorRead := 0;
     lastDashboardUpdate := 0;
     lastDebugPrint := 0 |}.

Definition boot : World :=
  {| WebDashboard.dash := WebDashboard.WebDashboard WIFI_SSID WIFI_PASSWORD;
     WebDashboard.app := boot_globals;
     WebDashboard.wifi := WiFi.off |}.

End LightSensor.

(** ** Reading a trace *)

(** The callback calls of a trace, in order. *)
Fixpoint invocations (t : list event) : list callback_call :=
  match t with
  | [] => []
  | Invoke c :: rest => c :: invocations rest
  | _ :: rest => invocations rest
  end.

(** The responses of a trace, in order. *)
Fixpoint responses (t : list event) : list (Z * string * payload) :=
  match t with
  | [] => []
  | Send code ct body :: rest => (code, ct, body) :: responses rest
  | _ :: rest => responses rest
  end.

(** The hardware effects of a trace, in order. *)
Fixpoint hardware (t : list event) : list hw_event :=
  match t with
  | [] => []
  | Hw e :: rest => e :: hardware rest
  | _ :: rest => hardware rest
  end.

Definition is_restart (e : hw_event) : bool :=
  match e with
  | EspRestart => true
  | _ => false
  end.

Definition restarts (t : list event) : bool := existsb is_restart (hardware t).

(** Writes to one pin. *)
Definition writes_pin (pin : Z) (e : hw_event) : bool :=
  match e with
  | DigitalWrite p _ => Z.eqb p pin
  | _ => false
  end.

(** Off-to-on transitions in the successive values of an output that was
    [prev] before. *)
Fixpoint rising (prev : bool) (h : list bool) : nat :=
  match h with
  | [] => O
  | b :: rest => ((if negb prev && b then 1 else 0) + rising b rest)%nat
  end.

(** A request is turned down: one 400 answer with the error payload, no
    callback called, no restart, and the state as it was. *)
Definition turned_down {S} (s : S) (r : option unit * S * list event) : Prop :=
  outcome r = Some tt /\
  final r = s /\
  trace r = [Send 400 "application/json" (Literal invalid_request)].

(** A request is answered with the success document. *)
Definition success_response : Z * string * payload :=
  (200, "application/json", SerializeJson WebDashboard.success_doc).

(** Successive passes of [loop()] of the template: the sketch after each
    pass, up to a pass in which the device restarts. *)
Fixpoint template_run (passes : list Template.pass) (w : Template.World)
    : list Template.World :=
  match passes with
  | [] => []
  | i :: rest =>
      match Template.loop i w with
      | (Some _, w', _) => w' :: template_run rest w'
      | (None, _, _) => []
      end
  end.

(** The same for the stand-alone sketch. *)
Fixpoint standalone_run (passes : list Standalone.pass) (g : Standalone.globals)
    : list Standalone.globals :=
  match passes with
  | [] => []
  | i :: rest =>
      match Standalone.loop i g with
      | (Some _, g', _) => g' :: standalone_run rest g'
      | (None, _, _) => []
      end
  end.

(** A request is served: the handler returns, having called exactly the
    callback call [c] and sent exactly the success answer. *)
Definition served {S} (c : callback_call) (r : option unit * S * list event) : Prop :=
  outcome r = Some tt /\
  invocations (trace r) = [c] /\
  responses (trace r) = [success_response].

(** The boolean an output handler reads from the [state] parameter. *)
Definition requested_state (q : request) : bool :=
  String_equals (arg "state" (req_args q)) "1".

(** The sketches as they are once [setup()] has run. *)
Definition template_ready : Template.World := final (Template.setup Template.boot).
Definition standalone_ready : Standalone.globals := final (Standalone.setup Standalone.boot).
Definition monitor_ready : TempMonitor.World := final (TempMonitor.setup TempMonitor.boot).

Definition GET (uri : string) (args : list (string * string)) : request :=
  {| req_method := HTTP_GET; req_uri := uri; req_args := args |}.

(** The NUL character, as the text %00 of a query string decodes to. *)
Definition NUL : string := String Ascii.zero EmptyString.

(** The template and the stand-alone sketch after a request for manual
    mode. *)
Definition template_manual : Template.World :=
  final (WebDashboard.handleMode (GET "/api/mode" [("mode", "manual")]) template_ready).
Definition standalone_manual : Standalone.globals :=
  final (Standalone.handleMode (GET "/api/mode" [("mode", "manual")]) standalone_ready).

(** The seven paths [begin()] registers. *)
Definition dashboard_paths : list string :=
  ["/"; "/api/status"; "/api/output1"; "/api/output2"; "/api/mode"; "/api/reset";
   "/api/custom"].

(** Whether a data pointer or a callback pointer is set. *)
Definition is_set {X} (o : option X) : bool :=
  match o with
  | Some _ => true
  | None => false
  end.

(** A sketch that has started its dashboard with [begin()] and has
    registered no callback and supplied no data. *)
Definition unregistered : Template.World := final (WebDashboard.begin Template.boot).

(** The listener [begin()] leaves behind. *)
Definition dashboard_server : WebServer WebDashboard.handler :=
  {| ws_port := 80;
     ws_routes :=
       [ {| r_uri := "/"; r_method := None; r_handler := WebDashboard.HandleRoot |};
         {| r_uri := "/api/status"; r_method := None; r_handler := WebDashboard.HandleStatus |};
         {| r_uri := "/api/output1"; r_method := None; r_handler := WebDashboard.HandleOutput1 |};
         {| r_uri := "/api/output2"; r_method := None; r_handler := WebDashboard.HandleOutput2 |};
         {| r_uri := "/api/mode"; r_method := None; r_handler := WebDashboard.HandleMode |};
         {| r_uri := "/api/reset"; r_method := None; r_handler := WebDashboard.HandleReset |};
         {| r_uri := "/api/custom"; r_method := None; r_handler := WebDashboard.HandleCustom |} ];
     ws_listening := true |}.

(** The sensor value the control logic of the template sees in a pass:
    the fresh sample when the sensor period is over, the last one
    otherwise. *)
Definition monitored (i : Template.pass) (g : Template.globals) : Z :=
  if elapsed (Template.millis_test i) (Template.lastSensorRead g) >? 500
  then Template.adc i
  else Template.sensorValue g.

(** Hysteresis in the words of the specification: on above the upper
    threshold, off below the lower one, unchanged in between. *)
Definition hysteresis_rule (upper lower v : Z) (output : bool) : bool :=
  if v >? upper then true
  else if v <? lower then false
  else output.

(** A pass of the stand-alone sketch in which no request waits and the
    sensor, read at time [now], returns [v]. *)
Definition standalone_sample (now v : Z) : Standalone.pass :=
  {| Standalone.pending := None;
     Standalone.millis_status := now;
     Standalone.millis_test := now;
     Standalone.millis_stamp := now;
     Standalone.adc := v |}.

(** A pass of the monitor in which no request waits and the sensor, read
    at time [now], returns the given readings. *)
Definition monitor_sample (now : Z) (t h : spec_float) : TempMonitor.pass :=
  {| TempMonitor.pending := None;
     TempMonitor.millis_test := now;
     TempMonitor.millis_stamp := now;
     TempMonitor.millis_uptime := now;
     TempMonitor.readTemperature := t;
     TempMonitor.readHumidity := h |}.

(** A pass of the template in which no request waits and the sensor, read
    at time [now], returns [v]. *)
Definition template_sample (now v : Z) : Template.pass :=
  {| Template.pending := None;
     Template.millis_test := now;
     Template.millis_stamp := now;
     Template.millis_uptime := now;
     Template.adc := v |}.

(** The dashboard of the template as [setup()] wires it: the listener of
    [begin()] and the five callbacks of the sketch. *)
Definition wired (w : Template.World) : Prop :=
  WebDashboard._server (WebDashboard.dash w) = Some dashboard_server /\
  WebDashboard._output1Callback (WebDashboard.dash w) = Some Template.onLEDChange /\
  WebDashboard._output2Callback (WebDashboard.dash w) = Some Template.onRelayChange /\
  WebDashboard._modeCallback (WebDashboard.dash w) = Some Template.onModeChange /\
  WebDashboard._resetCallback (WebDashboard.dash w) = Some Template.onReset /\
  WebDashboard._customCallback (WebDashboard.dash w) = Some Template.onCustomAction.

(** A pass in which the request waiting at the listener, if there is one,
    is neither a mode change nor a reset. *)
Definition keeps_mode (i : Template.pass) : Prop :=
  match Template.pending i with
  | None => True
  | Some q => req_uri q <> "/api/mode" /\ req_uri q <> "/api/reset"
  end.

(** Every callback registered with a dashboard returns, whatever it is
    called with. *)
Definition callbacks_return {A} (d : WebDashboard.t A) : Prop :=
  (forall callback state a,
     WebDashboard._output1Callback d = Some callback ->
     outcome (callback state a) = Some tt) /\
  (forall callback state a,
     WebDashboard._output2Callback d = Some callback ->
     outcome (callback state a) = Some tt) /\
  (forall callback mode a,
     WebDashboard._modeCallback d = Some callback ->
     outcome (callback mode a) = Some tt) /\
  (forall callback a,
     WebDashboard._resetCallback d = Some callback ->
     outcome (callback a) = Some tt) /\
  (forall callback a,
     WebDashboard._customCallback d = Some callback ->
     outcome (callback a) = Some tt).

(** The level a pin is left at by a sequence of hardware effects, given
    the level it had before. *)
Fixpoint pin_level (pin : Z) (level : bool) (t : list hw_event) : bool :=
  match t with
  | [] => level
  | DigitalWrite p l :: rest => pin_level pin (if Z.eqb p pin then l else level) rest
  | _ :: rest => pin_level pin level rest
  end.

(** The time a sequence of hardware effects spends in [delay]. *)
Fixpoint total_delay (t : list hw_event) : Z :=
  match t with
  | [] => 0
  | DelayMs ms :: rest => ms + total_delay rest
  | _ :: rest => total_delay rest
  end.

(** The light sensor sketch once [setup()] has run. *)
Definition light_ready : LightSensor.World := final (LightSensor.setup LightSensor.boot).

(** Successive calls of [readLightSensor()] with the given readings. *)
Fixpoint light_reads (g : LightSensor.globals) (readings : list Z) : LightSensor.globals :=
  match readings with
  | [] => g
  | v :: rest => light_reads (final (LightSensor.readLightSensor v g)) rest
  end.

(** A request, if there is one, that is not for the reset path. *)
Definition not_reset (pending : option request) : Prop :=
  match pending with
  | None => True
  | Some q => req_uri q <> "/api/reset"
  end.

(** The sample array is whole and the write index points into it. *)
Definition buffer_ok (g : LightSensor.globals) : Prop :=
  List.length (LightSensor.lightSamples g) = 10%nat /\
  0 <= LightSensor.sampleIndex g < 10.

(** ** Properties *)

(** Unfolds the combinators of [M] and computes what is determined. *)
Ltac run_monad :=
  cbv beta iota delta [bind ret get modify emit when never_returns zoom];
  simpl.

(** An event that differs from each event of an explicit trace is not
    in it. *)
Ltac absent_from_trace :=
  let Hin := fresh "Hin" in
  unfold trace; simpl; intros Hin;
  repeat (destruct Hin as [Hin|Hin]; [discriminate Hin|]);
  exact Hin.

(** Reading a text as a C string. *)
Lemma c_str_idem (s : string) : c_str (c_str s) = c_str s.
Proof.
  induction s as [|c rest IH]; [reflexivity|].
  cbn [c_str]. destruct (Ascii.eqb c Ascii.zero) eqn:Hc; [reflexivity|].
  cbn [c_str]. rewrite Hc, IH. reflexivity.
Qed.

Lemma String_equals_true (s literal : string) :
  String_equals s literal = true <-> c_str s = literal.
Proof. apply String.eqb_eq. Qed.

Lemma String_equals_false (s literal : string) :
  String_equals s literal = false <-> c_str s <> literal.
Proof. apply String.eqb_neq. Qed.

Section DashboardFacts.
Context {A : Type}.
Implicit Types (w : WebDashboard.World A) (q : request).

Lemma invocations_app (t1 t2 : list event) :
  invocations (t1 ++ t2) = (invocations t1 ++ invocations t2)%list.
Proof.
  induction t1 as [|e t1 IH]; simpl; [reflexivity|].
  destruct e; simpl; rewrite IH; reflexivity.
Qed.

Lemma responses_app (t1 t2 : list event) :
  responses (t1 ++ t2) = (responses t1 ++ responses t2)%list.
Proof.
  induction t1 as [|e t1 IH]; simpl; [reflexivity|].
  destruct e; simpl; rewrite IH; reflexivity.
Qed.

Lemma hardware_app (t1 t2 : list event) :
  hardware (t1 ++ t2) = (hardware t1 ++ hardware t2)%list.
Proof.
  induction t1 as [|e t1 IH]; simpl; [reflexivity|].
  destruct e; simpl; rewrite IH; reflexivity.
Qed.

Lemma invocations_Hw (t : list hw_event) : invocations (map Hw t) = [].
Proof. induction t; simpl; auto. Qed.

Lemma responses_Hw (t : list hw_event) : responses (map Hw t) = [].
Proof. induction t; simpl; auto. Qed.

Lemma hardware_Hw (t : list hw_event) : hardware (map Hw t) = t.
Proof. induction t; simpl; congruence. Qed.

(** A call through a callback pointer, when the function returns. *)
Lemma call_returns (c : callback_call) (fn : M hw_event A unit) w a t :
  fn (WebDashboard.app w) = (Some tt, a, t) ->
  WebDashboard.call c fn w
  = (Some tt, WebDashboard.set_app a w, Invoke c :: map Hw t).
Proof.
  intros Hfn. unfold WebDashboard.call, bind, emit, zoom.
  rewrite Hfn. reflexivity.
Qed.

(** The run of [handleOutput1] on a request that carries [state], with
    a callback that returns. *)
Lemma handleOutput1_run w q callback a t :
  hasArg "state" (req_args q) = true ->
  WebDashboard._output1Callback (WebDashboard.dash w) = Some callback ->
  callback (String_equals (arg "state" (req_args q)) "1") (WebDashboard.app w)
    = (Some tt, a, t) ->
  WebDashboard.handleOutput1 q w
  = (Some tt, WebDashboard.set_app a w,
     (Invoke (CallOutput1 (String_equals (arg "state" (req_args q)) "1"))
      :: map Hw t ++ [Send 200 "application/json" (SerializeJson WebDashboard.success_doc)])%list).
Proof.
  intros Harg Hcb Hrun.
  unfold WebDashboard.handleOutput1, bind at 1, get.
  rewrite Harg, Hcb.
  unfold bind. rewrite (call_returns _ _ _ _ _ Hrun).
  reflexivity.
Qed.

Lemma handleOutput2_run w q callback a t :
  hasArg "state" (req_args q) = true ->
  WebDashboard._output2Callback (WebDashboard.dash w) = Some callback ->
  callback (String_equals (arg "state" (req_args q)) "1") (WebDashboard.app w)
    = (Some tt, a, t) ->
  WebDashboard.handleOutput2 q w
  = (Some tt, WebDashboard.set_app a w,
     (Invoke (CallOutput2 (String_equals (arg "state" (req_args q)) "1"))
      :: map Hw t ++ [Send 200 "application/json" (SerializeJson WebDashboard.success_doc)])%list).
Proof.
  intros Harg Hcb Hrun.
  unfold WebDashboard.handleOutput2, bind at 1, get.
  rewrite Harg, Hcb.
  unfold bind. rewrite (call_returns _ _ _ _ _ Hrun).
  reflexivity.
Qed.

Lemma handleMode_run w q callback a t :
  hasArg "mode" (req_args q) = true ->
  WebDashboard._modeCallback (WebDashboard.dash w) = Some callback ->
  callback (c_str (arg "mode" (req_args q))) (WebDashboard.app w) = (Some tt, a, t) ->
  WebDashboard.handleMode q w
  = (Some tt, WebDashboard.set_app a w,
     (Invoke (CallMode (c_str (arg "mode" (req_args q))))
      :: map Hw t ++ [Send 200 "application/json" (SerializeJson WebDashboard.success_doc)])%list).
Proof.
  intros Harg Hcb Hrun.
  unfold WebDashboard.handleMode, bind at 1, get.
  rewrite Harg, Hcb.
  unfold bind. rewrite (call_returns _ _ _ _ _ Hrun).
  reflexivity.
Qed.

Lemma handleReset_run w callback a t :
  WebDashboard._resetCallback (WebDashboard.dash w) = Some callback ->
  callback (WebDashboard.app w) = (Some tt, a, t) ->
  WebDashboard.handleReset w
  = (None, WebDashboard.set_app a w,
     (Invoke CallReset
      :: map Hw t ++ [Send 200 "application/json" (SerializeJson WebDashboard.success_doc);
                      Hw (DelayMs 1000); Hw EspRestart])%list).
Proof.
  intros Hcb Hrun.
  unfold WebDashboard.handleReset, bind at 1, get. rewrite Hcb.
  unfold bind. rewrite (call_returns _ _ _ _ _ Hrun).
  reflexivity.
Qed.

Lemma handleReset_run_null w :
  WebDashboard._resetCallback (WebDashboard.dash w) = None ->
  WebDashboard.handleReset w
  = (None, w, [Send 200 "application/json" (SerializeJson WebDashboard.success_doc);
               Hw (DelayMs 1000); Hw EspRestart]).
Proof.
  intros H. unfold WebDashboard.handleReset, bind, get. rewrite H. reflexivity.
Qed.

(** [loop()] of the dashboard, case by case. *)
Lemma loop_idle w : WebDashboard.loop None w = (Some tt, w, []).
Proof.
  unfold WebDashboard.loop, bind, get.
  destruct (WebDashboard._server (WebDashboard.dash w)); reflexivity.
Qed.

Lemma loop_no_server w pending :
  WebDashboard._server (WebDashboard.dash w) = None ->
  WebDashboard.loop pending w = (Some tt, w, []).
Proof.
  intros H. unfold WebDashboard.loop, bind, get. rewrite H. reflexivity.
Qed.

Lemma loop_route w srv q h :
  WebDashboard._server (WebDashboard.dash w) = Some srv ->
  ws_listening srv = true ->
  find_route srv q = Some h ->
  WebDashboard.loop (Some q) w = WebDashboard.dispatch h q w.
Proof.
  intros Hsrv Hl Hh. unfold WebDashboard.loop, bind, get.
  rewrite Hsrv. unfold handleClient. rewrite Hl, Hh.
  destruct (WebDashboard.dispatch h q w) as [[o s'] t]. reflexivity.
Qed.

Lemma loop_not_found w srv q :
  WebDashboard._server (WebDashboard.dash w) = Some srv ->
  ws_listening srv = true ->
  find_route srv q = None ->
  WebDashboard.loop (Some q) w
  = (Some tt, w, [Send 404 "text/plain" (Literal ("Not found: " ++ req_uri q))]).
Proof.
  intros Hsrv Hl Hh. unfold WebDashboard.loop, bind, get.
  rewrite Hsrv. unfold handleClient. rewrite Hl, Hh. reflexivity.
Qed.

(** A computation that returns is a triple with [Some tt] in front. *)
Lemma returns_run {E S} (m : M E S unit) (s : S) :
  outcome (m s) = Some tt -> m s = (Some tt, final (m s), trace (m s)).
Proof.
  unfold outcome, final, trace. destruct (m s) as [[o s'] t]; simpl.
  intros ->. reflexivity.
Qed.
End DashboardFacts.

Lemma served_intro {S} (c : callback_call) (s : S) (t : list hw_event) :
  served c (Some tt, s,
            (Invoke c :: map Hw t ++ [Send 200 "application/json"
                                        (SerializeJson WebDashboard.success_doc)])%list).
Proof.
  unfold served, outcome, trace; simpl.
  rewrite invocations_app, responses_app, invocations_Hw, responses_Hw.
  repeat split.
Qed.

(** C1. A request to /api/output1 or /api/output2 whose [state] parameter
    is present and is "0" or "1" makes the handler call the registered
    callback (one that returns) exactly once, with [true] exactly when the
    parameter is "1", and answer 200 with the JSON document
    [success = true]; the globals are then as the callback left them. *)
Theorem output_valid_state_served {A} (w : WebDashboard.World A) (q : request)
    (callback : WebDashboard.OutputCallback A) :
  hasArg "state" (req_args q) = true ->
  arg "state" (req_args q) = "0" \/ arg "state" (req_args q) = "1" ->
  outcome (callback (requested_state q) (WebDashboard.app w)) = Some tt ->
  (requested_state q = true <-> arg "state" (req_args q) = "1") /\
  json_get "success" WebDashboard.success_doc = Some (JBool true) /\
  (WebDashboard._output1Callback (WebDashboard.dash w) = Some callback ->
     served (CallOutput1 (requested_state q)) (WebDashboard.handleOutput1 q w) /\
     WebDashboard.app (final (WebDashboard.handleOutput1 q w))
       = final (callback (requested_state q) (WebDashboard.app w))) /\
  (WebDashboard._output2Callback (WebDashboard.dash w) = Some callback ->
     served (CallOutput2 (requested_state q)) (WebDashboard.handleOutput2 q w) /\
     WebDashboard.app (final (WebDashboard.handleOutput2 q w))
       = final (callback (requested_state q) (WebDashboard.app w))).
Proof.
  intros Harg Hval Hret.
  apply returns_run in Hret.
  split.
  { unfold requested_state. rewrite String_equals_true.
    destruct Hval as [H|H]; rewrite H; split; intros E;
      (reflexivity || (cbn in E; discriminate E)). }
  unfold requested_state in *.
  split; [reflexivity|].
  split; intros Hcb.
  - rewrite (handleOutput1_run _ _ _ _ _ Harg Hcb Hret).
    split; [apply served_intro | reflexivity].
  - rewrite (handleOutput2_run _ _ _ _ _ Harg Hcb Hret).
    split; [apply served_intro | reflexivity].
Qed.

Lemma output_valid_state_served_witness :
  served (CallOutput1 true)
    (WebDashboard.handleOutput1 (GET "/api/output1" [("state", "1")]) template_ready).
Proof.
  destruct (output_valid_state_served template_ready
              (GET "/api/output1" [("state", "1")]) Template.onLEDChange)
    as (_ & _ & H1 & _).
  - reflexivity.
  - right; reflexivity.
  - reflexivity.
  - apply H1. reflexivity.
Defined.

(** C9, as stated, fails for a [state] text with an embedded NUL. The
    comparison with "1" is a comparison of C strings, which ends at the
    NUL: the text 1%00x is not "1", yet the handler reads it as [true],
    the LED callback of the template is called with [true] and the LED
    goes on. *)
Lemma state_with_nul_is_read_as_one :
  arg "state" (req_args (GET "/api/output1" [("state", "1" ++ NUL ++ "x")])) <> "1" /\
  served (CallOutput1 true)
    (WebDashboard.handleOutput1 (GET "/api/output1" [("state", "1" ++ NUL ++ "x")])
       template_ready) /\
  Template.ledState (WebDashboard.app template_ready) = false /\
  Template.ledState
    (WebDashboard.app
       (final (WebDashboard.handleOutput1 (GET "/api/output1" [("state", "1" ++ NUL ++ "x")])
                 template_ready)))
  = true.
Proof.
  split; [intros H; vm_compute in H; discriminate H|].
  split; [unfold served; repeat split|].
  split; reflexivity.
Qed.

(** C9, amended. Whatever text the [state] parameter of an output request
    holds, the handler reads it as a C string: the value is [true] exactly
    when the text up to its first NUL is "1", and [false] otherwise ("0",
    "true", "2" and the empty text included). With that boolean the
    registered callback (one that returns) is called exactly once, the
    globals are as that call left them, and the answer is 200 with
    [success = true]: no value is rejected. *)
Theorem output_state_is_one_test {A} (w : WebDashboard.World A) (q : request)
    (callback : WebDashboard.OutputCallback A) :
  hasArg "state" (req_args q) = true ->
  (forall state, outcome (callback state (WebDashboard.app w)) = Some tt) ->
  (c_str (arg "state" (req_args q)) = "1" ->
   (WebDashboard._output1Callback (WebDashboard.dash w) = Some callback ->
    served (CallOutput1 true) (WebDashboard.handleOutput1 q w) /\
    WebDashboard.app (final (WebDashboard.handleOutput1 q w))
    = final (callback true (WebDashboard.app w))) /\
   (WebDashboard._output2Callback (WebDashboard.dash w) = Some callback ->
    served (CallOutput2 true) (WebDashboard.handleOutput2 q w) /\
    WebDashboard.app (final (WebDashboard.handleOutput2 q w))
    = final (callback true (WebDashboard.app w)))) /\
  (c_str (arg "state" (req_args q)) <> "1" ->
   (WebDashboard._output1Callback (WebDashboard.dash w) = Some callback ->
    served (CallOutput1 false) (WebDashboard.handleOutput1 q w) /\
    WebDashboard.app (final (WebDashboard.handleOutput1 q w))
    = final (callback false (WebDashboard.app w))) /\
   (WebDashboard._output2Callback (WebDashboard.dash w) = Some callback ->
    served (CallOutput2 false) (WebDashboard.handleOutput2 q w) /\
    WebDashboard.app (final (WebDashboard.handleOutput2 q w))
    = final (callback false (WebDashboard.app w)))) /\
  (arg "state" (req_args q) = "1" -> c_str (arg "state" (req_args q)) = "1") /\
  (In (arg "state" (req_args q)) ["0"; "true"; "2"; ""] ->
   c_str (arg "state" (req_args q)) <> "1").
Proof.
  intros Harg Hret.
  assert (Hrun : forall state,
             callback state (WebDashboard.app w)
             = (Some tt, final (callback state (WebDashboard.app w)),
                trace (callback state (WebDashboard.app w))))
    by (intros state; apply returns_run, Hret).
  split; [|split; [|split]].
  - intros Hone. apply String_equals_true in Hone.
    split; intros Hcb.
    + pose proof (handleOutput1_run _ _ _ _ _ Harg Hcb (Hrun _)) as H.
      rewrite Hone in H. rewrite H. split; [apply served_intro | reflexivity].
    + pose proof (handleOutput2_run _ _ _ _ _ Harg Hcb (Hrun _)) as H.
      rewrite Hone in H. rewrite H. split; [apply served_intro | reflexivity].
  - intros Hother. apply String_equals_false in Hother.
    split; intros Hcb.
    + pose proof (handleOutput1_run _ _ _ _ _ Harg Hcb (Hrun _)) as H.
      rewrite Hother in H. rewrite H. split; [apply served_intro | reflexivity].
    + pose proof (handleOutput2_run _ _ _ _ _ Harg Hcb (Hrun _)) as H.
      rewrite Hother in H. rewrite H. split; [apply served_intro | reflexivity].
  - intros ->. reflexivity.
  - intros Hin. cbn [In] in Hin.
    destruct Hin as [<-|[<-|[<-|[<-|[]]]]]; discriminate.
Qed.

Lemma output_state_is_one_test_witness :
  served (CallOutput1 false)
    (WebDashboard.handleOutput1 (GET "/api/output1" [("state", "true")]) template_ready) /\
  served (CallOutput2 false)
    (WebDashboard.handleOutput2 (GET "/api/output2" [("state", "")]) template_ready).
Proof.
  split.
  - destruct (output_state_is_one_test template_ready
                (GET "/api/output1" [("state", "true")]) Template.onLEDChange)
      as (_ & H & _).
    + reflexivity.
    + intros state. destruct state; reflexivity.
    + destruct H as (H1 & _); [discriminate|].
      apply H1. reflexivity.
  - destruct (output_state_is_one_test template_ready
                (GET "/api/output2" [("state", "")]) Template.onRelayChange)
      as (_ & H & _).
    + reflexivity.
    + intros state. destruct state; reflexivity.
    + destruct H as (_ & H2); [discriminate|].
      apply H2. reflexivity.
Defined.

(** C2, as stated, fails for /api/reset and /api/custom: with no reset
    callback registered the reset request is not turned down, it is
    answered 200 with [success = true] and the device restarts; with no
    custom callback the custom request is answered 200 as well. *)
Lemma reset_without_callback_not_turned_down :
  WebDashboard._resetCallback (WebDashboard.dash unregistered) = None /\
  WebDashboard._customCallback (WebDashboard.dash unregistered) = None /\
  WebDashboard.loop (Some (GET "/api/reset" [])) unregistered
  = WebDashboard.handleReset unregistered /\
  ~ turned_down unregistered (WebDashboard.handleReset unregistered) /\
  responses (trace (WebDashboard.handleReset unregistered)) = [success_response] /\
  restarts (trace (WebDashboard.handleReset unregistered)) = true /\
  WebDashboard.loop (Some (GET "/api/custom" [])) unregistered
  = WebDashboard.handleCustom unregistered /\
  ~ turned_down unregistered (WebDashboard.handleCustom unregistered) /\
  responses (trace (WebDashboard.handleCustom unregistered))
  = [(200, "application/json", SerializeJson WebDashboard.custom_doc)].
Proof.
  split; [reflexivity|]. split; [reflexivity|]. split; [reflexivity|].
  split; [intros (H & _); discriminate H|].
  split; [reflexivity|]. split; [reflexivity|]. split; [reflexivity|].
  split; [intros (_ & _ & H); discriminate H|].
  reflexivity.
Qed.

(** C2, amended. A request to /api/output1, /api/output2 or /api/mode
    sent while the corresponding callback is not registered is answered
    400 with the JSON error payload; nothing is called, the device does
    not restart and the state is as it was. The handlers of /api/reset
    and /api/custom do not need their callback: without it the reset
    request is answered 200 and the device restarts, and the custom
    request is answered 200, in both cases with no callback called. *)
Theorem control_without_callback {A} (w : WebDashboard.World A) (q : request) :
  (WebDashboard._output1Callback (WebDashboard.dash w) = None ->
     turned_down w (WebDashboard.handleOutput1 q w)) /\
  (WebDashboard._output2Callback (WebDashboard.dash w) = None ->
     turned_down w (WebDashboard.handleOutput2 q w)) /\
  (WebDashboard._modeCallback (WebDashboard.dash w) = None ->
     turned_down w (WebDashboard.handleMode q w)) /\
  (WebDashboard._resetCallback (WebDashboard.dash w) = None ->
     WebDashboard.handleReset w
     = (None, w, [Send 200 "application/json" (SerializeJson WebDashboard.success_doc);
                  Hw (DelayMs 1000); Hw EspRestart])) /\
  (WebDashboard._customCallback (WebDashboard.dash w) = None ->
     WebDashboard.handleCustom w
     = (Some tt, w, [Send 200 "application/json" (SerializeJson WebDashboard.custom_doc)])).
Proof.
  split; [|split; [|split; [|split]]]; intros H.
  - unfold WebDashboard.handleOutput1, bind, get. rewrite H.
    destruct (hasArg _ _); repeat split.
  - unfold WebDashboard.handleOutput2, bind, get. rewrite H.
    destruct (hasArg _ _); repeat split.
  - unfold WebDashboard.handleMode, bind, get. rewrite H.
    destruct (hasArg _ _); repeat split.
  - unfold WebDashboard.handleReset, bind, get. rewrite H. reflexivity.
  - unfold WebDashboard.handleCustom, bind, get. rewrite H. reflexivity.
Qed.

Lemma control_without_callback_witness :
  turned_down unregistered
    (WebDashboard.handleOutput1 (GET "/api/output1" [("state", "1")]) unregistered) /\
  turned_down unregistered
    (WebDashboard.handleMode (GET "/api/mode" [("mode", "manual")]) unregistered).
Proof.
  split.
  - apply (proj1 (control_without_callback unregistered
                    (GET "/api/output1" [("state", "1")]))).
    reflexivity.
  - apply (proj1 (proj2 (proj2 (control_without_callback unregistered
                    (GET "/api/mode" [("mode", "manual")]))))).
    reflexivity.
Defined.




(** C5. A reset request always runs the same sequence: the reset callback
    is called if one is registered (and returns), the 200 answer with
    [success = true] is sent, the fixed delay is waited, and the device
    restarts, after which the handler never returns. The answer precedes
    the delay, and nothing in the handler skips the restart. The handler
    of the stand-alone sketch does the same with no callback and its own
    delay. *)
Theorem reset_sequence {A} (w : WebDashboard.World A) (g : Standalone.globals) :
  (forall callback,
     WebDashboard._resetCallback (WebDashboard.dash w) = Some callback ->
     outcome (callback (WebDashboard.app w)) = Some tt) ->
  outcome (WebDashboard.handleReset w) = None /\
  trace (WebDashboard.handleReset w)
  = (match WebDashboard._resetCallback (WebDashboard.dash w) with
     | Some callback => Invoke CallReset :: map Hw (trace (callback (WebDashboard.app w)))
     | None => []
     end ++
     [Send 200 "application/json" (SerializeJson WebDashboard.success_doc);
      Hw (DelayMs 1000);
      Hw EspRestart])%list /\
  json_get "success" WebDashboard.success_doc = Some (JBool true) /\
  exists doc,
    json_get "success" doc = Some (JBool true) /\
    Standalone.handleReset g
    = (None, g, [Send 200 "application/json" (SerializeJson doc);
                 Hw (DelayMs 3000);
                 Hw EspRestart]).
Proof.
  intros Hret.
  assert (Hs : exists doc,
             json_get "success" doc = Some (JBool true) /\
             Standalone.handleReset g
             = (None, g, [Send 200 "application/json" (SerializeJson doc);
                          Hw (DelayMs 3000); Hw EspRestart])).
  { eexists. split; [|reflexivity]. reflexivity. }
  destruct (WebDashboard._resetCallback (WebDashboard.dash w)) as [callback|] eqn:Hcb.
  - specialize (Hret callback eq_refl). apply returns_run in Hret.
    rewrite (handleReset_run _ _ _ _ Hcb Hret).
    unfold outcome, trace; simpl. repeat split; auto.
  - rewrite (handleReset_run_null _ Hcb).
    unfold outcome, trace; simpl. repeat split; auto.
Qed.

Lemma reset_sequence_witness :
  trace (WebDashboard.handleReset template_ready)
  = [Invoke CallReset;
     Hw (SerialPrintln "Reset requested via dashboard");
     Send 200 "application/json" (SerializeJson WebDashboard.success_doc);
     Hw (DelayMs 1000);
     Hw EspRestart].
Proof.
  destruct (reset_sequence template_ready standalone_ready) as (_ & Ht & _).
  - intros callback Hcb. injection Hcb as <-. reflexivity.
  - rewrite Ht. reflexivity.
Defined.


(** The path of a request that found a route of the dashboard. *)
Lemma dashboard_route_uri (q : request) (h : WebDashboard.handler) :
  find_route dashboard_server q = Some h ->
  req_uri q
  = match h with
    | WebDashboard.HandleRoot => "/"
    | WebDashboard.HandleStatus => "/api/status"
    | WebDashboard.HandleOutput1 => "/api/output1"
    | WebDashboard.HandleOutput2 => "/api/output2"
    | WebDashboard.HandleMode => "/api/mode"
    | WebDashboard.HandleReset => "/api/reset"
    | WebDashboard.HandleCustom => "/api/custom"
    end.
Proof.
  unfold find_route, dashboard_server, route_matches.
  cbn [ws_routes find r_uri r_method r_handler].
  repeat match goal with
         | |- context [String.eqb ?u (req_uri q)] =>
             destruct (String.eqb_spec u (req_uri q)) as [<-|_];
             cbn [andb option_map find r_uri r_method r_handler];
             [intros H; injection H as <-; reflexivity|]
         end.
  discriminate.
Qed.

(** The custom handler with a callback that returns, and the handlers
    that take a parameter. *)
Lemma handleCustom_run {A} (w : WebDashboard.World A) callback a t :
  WebDashboard._customCallback (WebDashboard.dash w) = Some callback ->
  callback (WebDashboard.app w) = (Some tt, a, t) ->
  WebDashboard.handleCustom w
  = (Some tt, WebDashboard.set_app a w,
     (Invoke CallCustom
      :: map Hw t ++ [Send 200 "application/json" (SerializeJson WebDashboard.custom_doc)])%list).
Proof.
  intros Hcb Hrun.
  unfold WebDashboard.handleCustom, bind at 1, get. rewrite Hcb.
  unfold bind. rewrite (call_returns _ _ _ _ _ Hrun).
  reflexivity.
Qed.

Lemma parameter_handlers_answer_once {A} (w : WebDashboard.World A) (q : request) :
  callbacks_return (WebDashboard.dash w) ->
  forall r,
    r = WebDashboard.handleOutput1 q w \/
    r = WebDashboard.handleOutput2 q w \/
    r = WebDashboard.handleMode q w ->
    outcome r = Some tt /\
    exists code body,
      responses (trace r) = [(code, "application/json", body)] /\
      (code = 200 \/ code = 400).
Proof.
  intros (H1 & H2 & Hm & _ & _) r Hr.
  assert (Hok : forall c (s : WebDashboard.World A) (t : list hw_event),
             outcome (Some tt, s,
                      (Invoke c :: map Hw t ++
                       [Send 200 "application/json"
                          (SerializeJson WebDashboard.success_doc)])%list) = Some tt /\
             exists code body,
               responses (trace (Some tt, s,
                                 (Invoke c :: map Hw t ++
                                  [Send 200 "application/json"
                                     (SerializeJson WebDashboard.success_doc)])%list))
               = [(code, "application/json", body)] /\ (code = 200 \/ code = 400)).
  { intros c s t. split; [reflexivity|]. do 2 eexists.
    unfold trace; simpl. rewrite responses_app, responses_Hw. simpl. split; eauto. }
  assert (Hbad : forall s : WebDashboard.World A,
             outcome (Some tt, s, [Send 400 "application/json" (Literal invalid_request)])
             = Some tt /\
             exists code body,
               responses (trace (Some tt, s,
                                 [Send 400 "application/json" (Literal invalid_request)]))
               = [(code, "application/json", body)] /\ (code = 200 \/ code = 400)).
  { intros s. split; [reflexivity|]. do 2 eexists. split; [reflexivity|]. eauto. }
  destruct Hr as [->|[->| ->]].
  - destruct (hasArg "state" (req_args q)) eqn:Harg;
      destruct (WebDashboard._output1Callback (WebDashboard.dash w)) as [cb|] eqn:Hcb.
    + rewrite (handleOutput1_run _ _ _ _ _ Harg Hcb (returns_run _ _ (H1 cb _ _ eq_refl))).
      apply Hok.
    + unfold WebDashboard.handleOutput1, bind, get. rewrite Harg, Hcb. apply Hbad.
    + unfold WebDashboard.handleOutput1, bind, get. rewrite Harg. apply Hbad.
    + unfold WebDashboard.handleOutput1, bind, get. rewrite Harg. apply Hbad.
  - destruct (hasArg "state" (req_args q)) eqn:Harg;
      destruct (WebDashboard._output2Callback (WebDashboard.dash w)) as [cb|] eqn:Hcb.
    + rewrite (handleOutput2_run _ _ _ _ _ Harg Hcb (returns_run _ _ (H2 cb _ _ eq_refl))).
      apply Hok.
    + unfold WebDashboard.handleOutput2, bind, get. rewrite Harg, Hcb. apply Hbad.
    + unfold WebDashboard.handleOutput2, bind, get. rewrite Harg. apply Hbad.
    + unfold WebDashboard.handleOutput2, bind, get. rewrite Harg. apply Hbad.
  - destruct (hasArg "mode" (req_args q)) eqn:Harg;
      destruct (WebDashboard._modeCallback (WebDashboard.dash w)) as [cb|] eqn:Hcb.
    + rewrite (handleMode_run _ _ _ _ _ Harg Hcb (returns_run _ _ (Hm cb _ _ eq_refl))).
      apply Hok.
    + unfold WebDashboard.handleMode, bind, get. rewrite Harg, Hcb. apply Hbad.
    + unfold WebDashboard.handleMode, bind, get. rewrite Harg. apply Hbad.
    + unfold WebDashboard.handleMode, bind, get. rewrite Harg. apply Hbad.
Qed.

Lemma handleCustom_run_null {A} (w : WebDashboard.World A) :
  WebDashboard._customCallback (WebDashboard.dash w) = None ->
  WebDashboard.handleCustom w
  = (Some tt, w, [Send 200 "application/json" (SerializeJson WebDashboard.custom_doc)]).
Proof.
  intros H. unfold WebDashboard.handleCustom, bind, get. rewrite H. reflexivity.
Qed.

(** The poll of a listening dashboard whose callbacks return answers the
    waiting request exactly once, and fails to return exactly when the
    request is routed to the reset handler. *)
Lemma poll_answers_once {A} (w : WebDashboard.World A)
    (srv : WebServer WebDashboard.handler) (q : request) :
  WebDashboard._server (WebDashboard.dash w) = Some srv ->
  ws_listening srv = true ->
  callbacks_return (WebDashboard.dash w) ->
  (exists code content_type body,
     responses (trace (WebDashboard.loop (Some q) w)) = [(code, content_type, body)] /\
     (code = 200 \/ code = 400 \/ code = 404)) /\
  (outcome (WebDashboard.loop (Some q) w) = None <->
   find_route srv q = Some WebDashboard.HandleReset).
Proof.
  intros Hsrv Hl Hret.
  destruct (find_route srv q) as [h|] eqn:Hroute.
  2: { rewrite (loop_not_found _ _ _ Hsrv Hl Hroute). split.
       - do 3 eexists. split; [reflexivity|]. auto.
       - split; discriminate. }
  rewrite (loop_route _ _ _ _ Hsrv Hl Hroute).
  destruct h; simpl WebDashboard.dispatch.
  - split; [do 3 eexists; split; [reflexivity|]; auto | split; discriminate].
  - split; [do 3 eexists; split; [reflexivity|]; auto | split; discriminate].
  - destruct (parameter_handlers_answer_once w q Hret _ (or_introl eq_refl))
      as (Ho & code & body & Hr & Hc).
    split; [do 3 eexists; split; [exact Hr|]; tauto|].
    rewrite Ho. split; discriminate.
  - destruct (parameter_handlers_answer_once w q Hret _ (or_intror (or_introl eq_refl)))
      as (Ho & code & body & Hr & Hc).
    split; [do 3 eexists; split; [exact Hr|]; tauto|].
    rewrite Ho. split; discriminate.
  - destruct (parameter_handlers_answer_once w q Hret _ (or_intror (or_intror eq_refl)))
      as (Ho & code & body & Hr & Hc).
    split; [do 3 eexists; split; [exact Hr|]; tauto|].
    rewrite Ho. split; discriminate.
  - destruct Hret as (_ & _ & _ & Hr & _).
    destruct (WebDashboard._resetCallback (WebDashboard.dash w)) as [cb|] eqn:Hcb.
    + rewrite (handleReset_run _ _ _ _ Hcb (returns_run _ _ (Hr cb _ eq_refl))).
      split; [|split; reflexivity].
      do 3 eexists. unfold trace; simpl.
      rewrite responses_app, responses_Hw. simpl. split; [reflexivity|]. auto.
    + rewrite (handleReset_run_null _ Hcb).
      split; [|split; reflexivity].
      do 3 eexists. split; [reflexivity|]. auto.
  - destruct Hret as (_ & _ & _ & _ & Hc).
    destruct (WebDashboard._customCallback (WebDashboard.dash w)) as [cb|] eqn:Hcb.
    + rewrite (handleCustom_run _ _ _ _ Hcb (returns_run _ _ (Hc cb _ eq_refl))).
      split; [|split; discriminate].
      do 3 eexists. unfold trace; simpl.
      rewrite responses_app, responses_Hw. simpl. split; [reflexivity|]. auto.
    + rewrite (handleCustom_run_null _ Hcb).
      split; [|split; discriminate].
      do 3 eexists. split; [reflexivity|]. auto.
Qed.

(** The state [begin()] leaves behind. *)
Lemma begin_final {A} (w : WebDashboard.World A) :
  final (WebDashboard.begin w)
  = {| WebDashboard.dash := WebDashboard.set_server (Some dashboard_server) (WebDashboard.dash w);
       WebDashboard.app := WebDashboard.app w;
       WebDashboard.wifi :=
         WiFi.softAP (WebDashboard._ssid (WebDashboard.dash w))
           (WebDashboard._password (WebDashboard.dash w))
           (WiFi.softAPConfig (192, 168, 4, 1) (192, 168, 4, 1) (255, 255, 255, 0)
              (WebDashboard.wifi w)) |}.
Proof. reflexivity. Qed.

(** A path that [begin()] did not register has no route. *)
Lemma dashboard_no_route (q : request) :
  ~ In (req_uri q) dashboard_paths -> find_route dashboard_server q = None.
Proof.
  intros Hnot.
  destruct (find_route dashboard_server q) as [h|] eqn:Hroute; [|reflexivity].
  exfalso. apply Hnot. rewrite (dashboard_route_uri _ _ Hroute).
  unfold dashboard_paths. destruct h; cbn [In]; tauto.
Qed.




(** The relay handlers of the three sketches, outside manual mode and in
    it. *)
Lemma standalone_handleRelay_locked (g : Standalone.globals) (q : request) :
  hasArg "state" (req_args q) = true ->
  String_equals (Standalone.projectMode g) "manual" = false ->
  Standalone.handleRelay q g
  = (Some tt, g,
     [Send 200 "application/json"
        (SerializeJson [("success", JBool true);
                        ("relay", JBool (Standalone.relayState g))])]).
Proof.
  intros Harg Hmode. unfold Standalone.handleRelay. rewrite Harg.
  unfold bind, get, when. rewrite Hmode. reflexivity.
Qed.

Lemma standalone_handleRelay_manual (g : Standalone.globals) (q : request) :
  hasArg "state" (req_args q) = true ->
  String_equals (Standalone.projectMode g) "manual" = true ->
  Standalone.handleRelay q g
  = (Some tt, Standalone.set_relayState (requested_state q) g,
     [Hw (DigitalWrite Standalone.RELAY_PIN (requested_state q));
      Send 200 "application/json"
        (SerializeJson [("success", JBool true);
                        ("relay", JBool (requested_state q))])]).
Proof.
  intros Harg Hmode. unfold Standalone.handleRelay. rewrite Harg.
  unfold bind, get, when. rewrite Hmode. unfold requested_state.
  destruct (String_equals (arg "state" (req_args q)) "1"); reflexivity.
Qed.

Lemma template_onRelayChange_locked (state : bool) (g : Template.globals) :
  String.eqb (Template.currentMode g) "manual" = false ->
  Template.onRelayChange state g
  = (Some tt, g,
     [SerialPrint "Relay button pressed: ";
      SerialPrintln (Template.onOff state);
      SerialPrintln "Relay control only available in manual mode"]).
Proof.
  intros Hmode. unfold Template.onRelayChange, bind, get, emit.
  rewrite Hmode. reflexivity.
Qed.

Lemma template_onRelayChange_manual (state : bool) (g : Template.globals) :
  String.eqb (Template.currentMode g) "manual" = true ->
  Template.onRelayChange state g
  = (Some tt,
     Template.set_outputs
       (OutputStates.set_output2 state (Template.outputs g))
       (Template.set_relayState state g),
     [SerialPrint "Relay button pressed: ";
      SerialPrintln (Template.onOff state);
      DigitalWrite Template.RELAY_PIN state]).
Proof.
  intros Hmode. unfold Template.onRelayChange, bind, get, emit.
  rewrite Hmode. destruct state; reflexivity.
Qed.

Lemma monitor_onFanControl_locked (state : bool) (g : TempMonitor.globals) :
  String.eqb (TempMonitor.mode g) "manual" = false ->
  TempMonitor.onFanControl state g = (Some tt, g, []).
Proof.
  intros Hmode. unfold TempMonitor.onFanControl, bind, get, when.
  rewrite Hmode. reflexivity.
Qed.

Lemma monitor_onFanControl_manual (state : bool) (g : TempMonitor.globals) :
  String.eqb (TempMonitor.mode g) "manual" = true ->
  TempMonitor.onFanControl state g
  = (Some tt, TempMonitor.set_fanState state g,
     [DigitalWrite TempMonitor.LED_PIN state;
      SerialPrintf ("Fan manually set to %s" ++ nl) [ArgStr (TempMonitor.onOff state)]]).
Proof.
  intros Hmode. unfold TempMonitor.onFanControl, bind, get, when.
  rewrite Hmode. destruct state; reflexivity.
Qed.

Lemma set_app_same {A} (w : WebDashboard.World A) :
  WebDashboard.set_app (WebDashboard.app w) w = w.
Proof. destruct w; reflexivity. Qed.

(** C8, as stated, fails in the stand-alone sketch for a mode text with an
    embedded NUL. The handler compares the stored mode with "manual" as a
    C string: after a mode request for manual%00x the mode is not
    "manual", yet a relay request switches the relay and writes its
    pin. *)
Lemma relay_request_in_nul_mode :
  Standalone.projectMode
    (final (Standalone.handleMode (GET "/api/mode" [("mode", "manual" ++ NUL ++ "x")])
              standalone_ready))
  <> "manual" /\
  Standalone.relayState
    (final (Standalone.handleMode (GET "/api/mode" [("mode", "manual" ++ NUL ++ "x")])
              standalone_ready))
  = false /\
  Standalone.relayState
    (final (Standalone.handleRelay (GET "/api/relay" [("state", "1")])
              (final (Standalone.handleMode
                        (GET "/api/mode" [("mode", "manual" ++ NUL ++ "x")])
                        standalone_ready))))
  = true /\
  hardware
    (trace (Standalone.handleRelay (GET "/api/relay" [("state", "1")])
              (final (Standalone.handleMode
                        (GET "/api/mode" [("mode", "manual" ++ NUL ++ "x")])
                        standalone_ready))))
  = [DigitalWrite Standalone.RELAY_PIN true].
Proof.
  split; [intros H; vm_compute in H; discriminate H|].
  split; [reflexivity|]. split; reflexivity.
Qed.

(** C8, amended. A relay request that carries [state] is answered 200 with
    [success = true] in every mode, but outside manual mode nothing else
    happens: the relay variable keeps its value and the relay pin is not
    written; in manual mode, and only then, the relay variable takes the
    requested value. The mode is manual when its text is "manual": for the
    relay callback of the template on /api/output2 and the fan callback of
    the temperature monitor on /api/output1, whose mode is a text without
    NUL, and for the relay handler of the stand-alone sketch, which reads
    the stored mode as a C string, when the text up to its first NUL is
    "manual". *)
Theorem relay_request_outside_manual (g : Standalone.globals)
    (w : Template.World) (m : TempMonitor.World) (q : request) :
  hasArg "state" (req_args q) = true ->
  WebDashboard._output2Callback (WebDashboard.dash w) = Some Template.onRelayChange ->
  WebDashboard._output1Callback (WebDashboard.dash m) = Some TempMonitor.onFanControl ->
  (c_str (Standalone.projectMode g) <> "manual" ->
     final (Standalone.handleRelay q g) = g /\
     hardware (trace (Standalone.handleRelay q g)) = [] /\
     exists doc,
       json_get "success" doc = Some (JBool true) /\
       responses (trace (Standalone.handleRelay q g))
       = [(200, "application/json", SerializeJson doc)]) /\
  (c_str (Standalone.projectMode g) = "manual" ->
     Standalone.relayState (final (Standalone.handleRelay q g)) = requested_state q /\
     hardware (trace (Standalone.handleRelay q g))
     = [DigitalWrite Standalone.RELAY_PIN (requested_state q)] /\
     exists doc,
       json_get "success" doc = Some (JBool true) /\
       responses (trace (Standalone.handleRelay q g))
       = [(200, "application/json", SerializeJson doc)]) /\
  (Template.currentMode (WebDashboard.app w) <> "manual" ->
     served (CallOutput2 (requested_state q)) (WebDashboard.handleOutput2 q w) /\
     final (WebDashboard.handleOutput2 q w) = w /\
     filter (writes_pin Template.RELAY_PIN)
       (hardware (trace (WebDashboard.handleOutput2 q w))) = []) /\
  (Template.currentMode (WebDashboard.app w) = "manual" ->
     served (CallOutput2 (requested_state q)) (WebDashboard.handleOutput2 q w) /\
     Template.relayState (WebDashboard.app (final (WebDashboard.handleOutput2 q w)))
     = requested_state q) /\
  (TempMonitor.mode (WebDashboard.app m) <> "manual" ->
     served (CallOutput1 (requested_state q)) (WebDashboard.handleOutput1 q m) /\
     final (WebDashboard.handleOutput1 q m) = m /\
     hardware (trace (WebDashboard.handleOutput1 q m)) = []) /\
  (TempMonitor.mode (WebDashboard.app m) = "manual" ->
     served (CallOutput1 (requested_state q)) (WebDashboard.handleOutput1 q m) /\
     TempMonitor.fanState (WebDashboard.app (final (WebDashboard.handleOutput1 q m)))
     = requested_state q).
Proof.
  intros Harg Hw Hm.
  split; [|split; [|split; [|split; [|split]]]]; intros Hmode.
  - apply String_equals_false in Hmode.
    rewrite (standalone_handleRelay_locked _ _ Harg Hmode).
    split; [reflexivity|]. split; [reflexivity|].
    eexists. split; [|reflexivity]. reflexivity.
  - apply String_equals_true in Hmode.
    rewrite (standalone_handleRelay_manual _ _ Harg Hmode).
    split; [reflexivity|]. split; [reflexivity|].
    eexists. split; [|reflexivity]. reflexivity.
  - apply String.eqb_neq in Hmode.
    rewrite (handleOutput2_run _ _ _ _ _ Harg Hw
               (template_onRelayChange_locked _ _ Hmode)).
    split; [apply served_intro|].
    split; [apply set_app_same | reflexivity].
  - apply String.eqb_eq in Hmode.
    rewrite (handleOutput2_run _ _ _ _ _ Harg Hw
               (template_onRelayChange_manual _ _ Hmode)).
    split; [apply served_intro | reflexivity].
  - apply String.eqb_neq in Hmode.
    rewrite (handleOutput1_run _ _ _ _ _ Harg Hm
               (monitor_onFanControl_locked _ _ Hmode)).
    split; [apply (served_intro _ _ [])|].
    split; [apply set_app_same | reflexivity].
  - apply String.eqb_eq in Hmode.
    rewrite (handleOutput1_run _ _ _ _ _ Harg Hm
               (monitor_onFanControl_manual _ _ Hmode)).
    split; [apply served_intro | reflexivity].
Qed.

Lemma relay_request_outside_manual_witness :
  final (Standalone.handleRelay (GET "/api/relay" [("state", "1")]) standalone_ready)
  = standalone_ready /\
  final (WebDashboard.handleOutput2 (GET "/api/relay" [("state", "1")]) template_ready)
  = template_ready /\
  final (WebDashboard.handleOutput1 (GET "/api/relay" [("state", "1")]) monitor_ready)
  = monitor_ready.
Proof.
  destruct (relay_request_outside_manual standalone_ready template_ready monitor_ready
              (GET "/api/relay" [("state", "1")]))
    as (Hs & _ & Ht & _ & Hm & _).
  - reflexivity.
  - reflexivity.
  - reflexivity.
  - split; [apply Hs; discriminate|].
    split; [apply Ht; discriminate | apply Hm; discriminate].
Defined.

(** The mode callback of the template stores the C string it is given,
    whatever it is and whatever the mode was. *)
Lemma template_onModeChange_run (mode : string) (g : Template.globals) :
  Template.onModeChange mode g
  = (Some tt,
     Template.set_systemInfo (SystemInfo.set_mode (c_str mode) (Template.systemInfo g))
       (Template.set_currentMode (c_str mode) g),
     ([SerialPrint "Mode changed to: "; SerialPrintln (c_str mode)] ++
      if String.eqb (c_str mode) "sleep"
      then [SerialPrintln "Entering sleep mode..."] else [])%list).
Proof.
  unfold Template.onModeChange, bind, get, emit, modify, when; simpl.
  destruct (String.eqb (c_str mode) "sleep"); reflexivity.
Qed.

(** Outside auto mode the control logic of the template does nothing. *)
Lemma template_logic_idle (g : Template.globals) :
  String.eqb (Template.currentMode g) "auto" = false ->
  Template.runApplicationLogic g = (Some tt, g, []).
Proof.
  intros Hmode. unfold Template.runApplicationLogic, bind, get, when.
  rewrite Hmode. simpl. destruct (String.eqb (Template.currentMode g) "sleep"); reflexivity.
Qed.

(** A pass of the stand-alone [loop()] with no request waiting, outside
    auto mode: at most the sensor is sampled. *)
Lemma standalone_loop_idle (i : Standalone.pass) (g : Standalone.globals) :
  Standalone.pending i = None ->
  String_equals (Standalone.projectMode g) "auto" = false ->
  Standalone.loop i g
  = (Some tt,
     (if elapsed (Standalone.millis_test i) (Standalone.lastRead g) >? 500
      then Standalone.set_lastRead (Standalone.millis_stamp i)
             (Standalone.set_sensorValue (Standalone.adc i) g)
      else g),
     []).
Proof.
  intros Hp Hmode. unfold Standalone.loop, handleClient, bind, get, when.
  rewrite Hp. simpl.
  destruct (elapsed (Standalone.millis_test i) (Standalone.lastRead g) >? 500);
    simpl; rewrite Hmode; reflexivity.
Qed.

(** The answer of the stand-alone mode handler: the stored mode is echoed
    when its copy fits into what the two members leave of the 64 bytes,
    and is null otherwise. *)
Lemma standalone_handleMode_run (g : Standalone.globals) (q : request) :
  hasArg "mode" (req_args q) = true ->
  Standalone.handleMode q g
  = (Some tt, Standalone.set_projectMode (arg "mode" (req_args q)) g,
     [Send 200 "application/json"
        (SerializeJson
           [("success", JBool true);
            ("mode",
             if 32 + (Z.of_nat (String.length (arg "mode" (req_args q))) + 1) <=? 64
             then JString (arg "mode" (req_args q))
             else JNull)])]).
Proof.
  intros Harg. unfold Standalone.handleMode. rewrite Harg.
  unfold bind, get, modify, Standalone.send, emit.
  cbn [Standalone.projectMode Standalone.set_projectMode].
  unfold StaticJsonDocument.set_String.
  change (StaticJsonDocument.set "mode" JNull
            (StaticJsonDocument.set "success" (JBool true) (StaticJsonDocument.declare 64)))
    with {| StaticJsonDocument.capacity := 64; StaticJsonDocument.usage := 32;
            StaticJsonDocument.members := [("success", JBool true); ("mode", JNull)] |}.
  cbn [StaticJsonDocument.has_member StaticJsonDocument.members StaticJsonDocument.usage
       StaticJsonDocument.capacity json_get andb].
  change (String.eqb "success" "mode") with false.
  change (String.eqb "mode" "mode") with true.
  cbn iota.
  destruct (32 + (Z.of_nat (String.length (arg "mode" (req_args q))) + 1) <=? 64);
    reflexivity.
Qed.

(** C6, as stated, fails for a mode text with an embedded NUL. The
    dashboard hands the text to the callback as a C string: after a
    request for auto%00x the template, which was in manual mode, has not
    stored that text but "auto", and its control logic switches the relay
    on a reading above 2000. The stand-alone sketch stores the whole text,
    which is none of the three modes, and its loop, which reads it as a C
    string, drives the relay all the same. *)
Lemma mode_with_nul_not_verbatim :
  arg "mode" (req_args (GET "/api/mode" [("mode", "auto" ++ NUL ++ "x")])) <> "auto" /\
  arg "mode" (req_args (GET "/api/mode" [("mode", "auto" ++ NUL ++ "x")])) <> "manual" /\
  arg "mode" (req_args (GET "/api/mode" [("mode", "auto" ++ NUL ++ "x")])) <> "sleep" /\
  Template.currentMode (WebDashboard.app template_manual) = "manual" /\
  Template.currentMode
    (WebDashboard.app
       (final (WebDashboard.handleMode (GET "/api/mode" [("mode", "auto" ++ NUL ++ "x")])
                 template_manual)))
  = "auto" /\
  hardware
    (trace (Template.loop (template_sample 1000 2500)
              (final (WebDashboard.handleMode
                        (GET "/api/mode" [("mode", "auto" ++ NUL ++ "x")])
                        template_manual))))
  = [DigitalWrite Template.RELAY_PIN true; SerialPrintln "Auto: Relay turned ON";
     DelayMs 10] /\
  Standalone.projectMode
    (final (Standalone.handleMode (GET "/api/mode" [("mode", "auto" ++ NUL ++ "x")])
              standalone_manual))
  = "auto" ++ NUL ++ "x" /\
  hardware
    (trace (Standalone.loop (standalone_sample 1000 2500)
              (final (Standalone.handleMode
                        (GET "/api/mode" [("mode", "auto" ++ NUL ++ "x")])
                        standalone_manual))))
  = [DigitalWrite Standalone.RELAY_PIN true].
Proof.
  split; [intros H; vm_compute in H; discriminate H|].
  split; [intros H; vm_compute in H; discriminate H|].
  split; [intros H; vm_compute in H; discriminate H|].
  split; [reflexivity|]. split; [reflexivity|]. split; [vm_compute; reflexivity|].
  split; [reflexivity|]. vm_compute. reflexivity.
Qed.

(** C6, amended. Whatever text the [mode] parameter of a /api/mode request
    holds, and whatever the mode was before, the handler accepts it: it
    passes the text, as a C string (up to its first NUL), to the
    registered callback (one that returns) and answers 200 with
    [success = true]. The mode callback of the template stores that C
    string as the current mode; the handler of the stand-alone sketch
    stores the whole text, echoes it in its answer when it is short enough
    to be copied into the document, and reads it back as a C string. A
    mode whose C string is none of "auto", "manual" and "sleep" is stored
    all the same and then drives nothing: the callback logs only the
    change, the control logic leaves state and outputs alone, and relay
    requests are dropped. *)
Theorem mode_stored_as_c_string {A} (a : WebDashboard.World A)
    (callback : WebDashboard.ModeCallback A)
    (w : Template.World) (g : Standalone.globals) (q : request) :
  hasArg "mode" (req_args q) = true ->
  WebDashboard._modeCallback (WebDashboard.dash a) = Some callback ->
  outcome (callback (c_str (arg "mode" (req_args q))) (WebDashboard.app a)) = Some tt ->
  WebDashboard._modeCallback (WebDashboard.dash w) = Some Template.onModeChange ->
  (served (CallMode (c_str (arg "mode" (req_args q)))) (WebDashboard.handleMode q a) /\
   WebDashboard.app (final (WebDashboard.handleMode q a))
   = final (callback (c_str (arg "mode" (req_args q))) (WebDashboard.app a))) /\
  served (CallMode (c_str (arg "mode" (req_args q)))) (WebDashboard.handleMode q w) /\
  Template.currentMode (WebDashboard.app (final (WebDashboard.handleMode q w)))
  = c_str (arg "mode" (req_args q)) /\
  SystemInfo.mode (Template.systemInfo (WebDashboard.app (final (WebDashboard.handleMode q w))))
  = c_str (arg "mode" (req_args q)) /\
  (exists doc,
     Standalone.handleMode q g
     = (Some tt, Standalone.set_projectMode (arg "mode" (req_args q)) g,
        [Send 200 "application/json" (SerializeJson doc)]) /\
     json_keys doc = ["success"; "mode"] /\
     json_get "success" doc = Some (JBool true) /\
     ((String.length (arg "mode" (req_args q)) < 32)%nat ->
      json_get "mode" doc = Some (JString (arg "mode" (req_args q)))) /\
     ((32 <= String.length (arg "mode" (req_args q)))%nat ->
      json_get "mode" doc = Some JNull)) /\
  (c_str (arg "mode" (req_args q)) <> "auto" ->
   c_str (arg "mode" (req_args q)) <> "manual" ->
   c_str (arg "mode" (req_args q)) <> "sleep" ->
   hardware (trace (WebDashboard.handleMode q w))
   = [SerialPrint "Mode changed to: "; SerialPrintln (c_str (arg "mode" (req_args q)))] /\
   Template.runApplicationLogic (WebDashboard.app (final (WebDashboard.handleMode q w)))
   = (Some tt, WebDashboard.app (final (WebDashboard.handleMode q w)), []) /\
   (forall state,
      final (Template.onRelayChange state
               (WebDashboard.app (final (WebDashboard.handleMode q w))))
      = WebDashboard.app (final (WebDashboard.handleMode q w)) /\
      filter (writes_pin Template.RELAY_PIN)
        (trace (Template.onRelayChange state
                  (WebDashboard.app (final (WebDashboard.handleMode q w))))) = []) /\
   (forall i,
      Standalone.pending i = None ->
      Standalone.relayState (final (Standalone.loop i (final (Standalone.handleMode q g))))
      = Standalone.relayState g /\
      trace (Standalone.loop i (final (Standalone.handleMode q g))) = []) /\
   (forall q',
      hasArg "state" (req_args q') = true ->
      Standalone.relayState (final (Standalone.handleRelay q' (final (Standalone.handleMode q g))))
      = Standalone.relayState g /\
      hardware (trace (Standalone.handleRelay q' (final (Standalone.handleMode q g)))) = [])).
Proof.
  intros Harg Hcb Hret Hw.
  apply returns_run in Hret.
  rewrite (handleMode_run _ _ _ _ _ Harg Hcb Hret).
  rewrite (handleMode_run _ _ _ _ _ Harg Hw (template_onModeChange_run _ _)).
  rewrite (standalone_handleMode_run _ _ Harg).
  rewrite c_str_idem.
  split; [split; [apply served_intro | reflexivity]|].
  split; [apply served_intro|].
  split; [reflexivity|]. split; [reflexivity|].
  split.
  { eexists. split; [reflexivity|]. split; [reflexivity|]. split; [reflexivity|].
    cbn [json_get]. change (String.eqb "success" "mode") with false.
    change (String.eqb "mode" "mode") with true. cbn iota.
    split; intros Hlen.
    - destruct (Z.leb_spec (32 + (Z.of_nat (String.length (arg "mode" (req_args q))) + 1)) 64);
        [reflexivity | lia].
    - destruct (Z.leb_spec (32 + (Z.of_nat (String.length (arg "mode" (req_args q))) + 1)) 64);
        [lia | reflexivity]. }
  intros Hauto Hmanual Hsleep.
  pose proof (proj2 (String_equals_false _ _) Hauto) as Hauto'.
  pose proof (proj2 (String_equals_false _ _) Hmanual) as Hmanual'.
  apply String.eqb_neq in Hauto, Hmanual, Hsleep.
  unfold final, trace; simpl fst; simpl snd.
  split; [|split; [|split; [|split]]].
  - rewrite Hsleep. reflexivity.
  - apply template_logic_idle. exact Hauto.
  - intros state. rewrite template_onRelayChange_locked by exact Hmanual.
    split; reflexivity.
  - intros i Hi. rewrite standalone_loop_idle by assumption.
    simpl. destruct (elapsed _ _ >? 500); split; reflexivity.
  - intros q' Hq'. rewrite standalone_handleRelay_locked by assumption.
    split; reflexivity.
Qed.

Lemma mode_stored_as_c_string_witness :
  Template.currentMode
    (WebDashboard.app
       (final (WebDashboard.handleMode (GET "/api/mode" [("mode", "turbo")]) template_ready)))
  = "turbo" /\
  Template.runApplicationLogic
    (WebDashboard.app
       (final (WebDashboard.handleMode (GET "/api/mode" [("mode", "turbo")]) template_ready)))
  = (Some tt,
     WebDashboard.app
       (final (WebDashboard.handleMode (GET "/api/mode" [("mode", "turbo")]) template_ready)),
     []).
Proof.
  destruct (mode_stored_as_c_string template_ready Template.onModeChange
              template_ready standalone_ready (GET "/api/mode" [("mode", "turbo")]))
    as (_ & _ & H & _ & _ & Hinert).
  - reflexivity.
  - reflexivity.
  - reflexivity.
  - reflexivity.
  - split; [exact H|].
    apply Hinert; discriminate.
Defined.

(** The rest of a pass of the monitor's [loop()] once the listener was
    polled, when the sensor is read and a reading is not a number. *)
Lemma monitor_loop_failed_read
    (computeHeatIndex : spec_float -> spec_float -> bool -> spec_float)
    (i : TempMonitor.pass) (w w1 : TempMonitor.World) (t1 : list event) :
  WebDashboard.loop (TempMonitor.pending i) w = (Some tt, w1, t1) ->
  (elapsed (TempMonitor.millis_test i) (TempMonitor.lastRead (WebDashboard.app w1)) >? 2000) = true ->
  isnan (TempMonitor.readTemperature i) || isnan (TempMonitor.readHumidity i) = true ->
  exists w2,
    TempMonitor.loop computeHeatIndex i w
    = (Some tt, w2,
       (t1 ++
        [Hw (SerialPrintln "Failed to read from DHT sensor!")] ++
        (if String.eqb (TempMonitor.mode (WebDashboard.app w1)) "auto"
            && TempMonitor.fanState (WebDashboard.app w1)
         then [Hw (DigitalWrite TempMonitor.LED_PIN LOW);
               Hw (SerialPrintf ("Auto: Fan OFF (temp: %.1f°C)" ++ nl)
                     [ArgFloat (float_of_Z 0)])]
         else []) ++
        [Hw (DelayMs 10)])%list) /\
    TempMonitor.temperature (WebDashboard.app w2) = float_of_Z 0 /\
    TempMonitor.humidity (WebDashboard.app w2) = float_of_Z 0 /\
    SensorData.value1 (TempMonitor.sensors (WebDashboard.app w2)) = float_of_Z 0 /\
    SensorData.value2 (TempMonitor.sensors (WebDashboard.app w2)) = float_of_Z 0 /\
    SensorData.value3 (TempMonitor.sensors (WebDashboard.app w2))
    = SensorData.value3 (TempMonitor.sensors (WebDashboard.app w1)) /\
    TempMonitor.lastRead (WebDashboard.app w2) = TempMonitor.millis_stamp i /\
    TempMonitor.mode (WebDashboard.app w2) = TempMonitor.mode (WebDashboard.app w1).
Proof.
  intros Hpoll Hdue Hnan.
  unfold TempMonitor.loop. unfold bind at 1. rewrite Hpoll.
  destruct w1 as [d g wf]. destruct g as [se ou sy te hu fan mo lr].
  simpl in Hdue |- *.
  unfold TempMonitor.fn, WebDashboard.hw, WebDashboard.on_dash.
  run_monad. rewrite Hdue.
  run_monad. rewrite Hnan.
  run_monad.
  destruct (String.eqb mo "auto"); run_monad.
  - destruct fan; run_monad; eexists; (split; [reflexivity|]); repeat split.
  - eexists; (split; [reflexivity|]); repeat split.
Qed.

(** A pass of the monitor's [loop()] with no request waiting and the
    sensor period not yet over: the readings are kept. *)
Lemma monitor_loop_no_read
    (computeHeatIndex : spec_float -> spec_float -> bool -> spec_float)
    (i : TempMonitor.pass) (w : TempMonitor.World) :
  TempMonitor.pending i = None ->
  (elapsed (TempMonitor.millis_test i) (TempMonitor.lastRead (WebDashboard.app w)) >? 2000) = false ->
  exists w2 t,
    TempMonitor.loop computeHeatIndex i w = (Some tt, w2, t) /\
    TempMonitor.temperature (WebDashboard.app w2) = TempMonitor.temperature (WebDashboard.app w) /\
    TempMonitor.humidity (WebDashboard.app w2) = TempMonitor.humidity (WebDashboard.app w) /\
    ~ In (Hw (SerialPrintln "Failed to read from DHT sensor!")) t.
Proof.
  intros Hp Hdue.
  unfold TempMonitor.loop. unfold bind at 1. rewrite Hp, loop_idle.
  destruct w as [d g wf]. destruct g as [se ou sy te hu fan mo lr].
  simpl in Hdue |- *.
  unfold TempMonitor.fn, WebDashboard.hw, WebDashboard.on_dash.
  run_monad. rewrite Hdue. run_monad.
  destruct (String.eqb mo "auto"); run_monad.
  - destruct (SFltb TempMonitor.TEMP_THRESHOLD te && negb fan); run_monad.
    + do 2 eexists. split; [reflexivity|]. simpl.
      split; [reflexivity|split; [reflexivity|absent_from_trace]].
    + destruct (SFltb _ _ && fan); run_monad.
      * do 2 eexists. split; [reflexivity|]. simpl.
        split; [reflexivity|split; [reflexivity|absent_from_trace]].
      * do 2 eexists. split; [reflexivity|]. simpl.
        split; [reflexivity|split; [reflexivity|absent_from_trace]].
  - do 2 eexists. split; [reflexivity|]. simpl.
    split; [reflexivity|split; [reflexivity|absent_from_trace]].
Qed.

(** C7. In a pass of the monitor's [loop()] in which the sensor is read
    and the temperature or the humidity comes back as not-a-number, both
    readings are replaced by zero, the failure is logged once, and the pass
    runs to its end (the dashboard shows the zeros); the sensor is not read
    again in that pass, and a following pass before the next period keeps
    the zeros without reading or logging. *)
Theorem failed_read_becomes_zero
    (computeHeatIndex : spec_float -> spec_float -> bool -> spec_float)
    (i : TempMonitor.pass) (w : TempMonitor.World) :
  outcome (WebDashboard.loop (TempMonitor.pending i) w) = Some tt ->
  elapsed (TempMonitor.millis_test i)
    (TempMonitor.lastRead (WebDashboard.app (final (WebDashboard.loop (TempMonitor.pending i) w))))
  > 2000 ->
  isnan (TempMonitor.readTemperature i) = true \/ isnan (TempMonitor.readHumidity i) = true ->
  outcome (TempMonitor.loop computeHeatIndex i w) = Some tt /\
  TempMonitor.temperature (WebDashboard.app (final (TempMonitor.loop computeHeatIndex i w)))
  = float_of_Z 0 /\
  TempMonitor.humidity (WebDashboard.app (final (TempMonitor.loop computeHeatIndex i w)))
  = float_of_Z 0 /\
  SensorData.value1
    (TempMonitor.sensors (WebDashboard.app (final (TempMonitor.loop computeHeatIndex i w))))
  = float_of_Z 0 /\
  SensorData.value2
    (TempMonitor.sensors (WebDashboard.app (final (TempMonitor.loop computeHeatIndex i w))))
  = float_of_Z 0 /\
  TempMonitor.lastRead (WebDashboard.app (final (TempMonitor.loop computeHeatIndex i w)))
  = TempMonitor.millis_stamp i /\
  (exists rest,
     trace (TempMonitor.loop computeHeatIndex i w)
     = (trace (WebDashboard.loop (TempMonitor.pending i) w) ++
        Hw (SerialPrintln "Failed to read from DHT sensor!") :: rest)%list /\
     ~ In (Hw (SerialPrintln "Failed to read from DHT sensor!")) rest) /\
  (forall i',
     TempMonitor.pending i' = None ->
     elapsed (TempMonitor.millis_test i') (TempMonitor.millis_stamp i) <= 2000 ->
     outcome (TempMonitor.loop computeHeatIndex i'
                (final (TempMonitor.loop computeHeatIndex i w))) = Some tt /\
     TempMonitor.temperature
       (WebDashboard.app
          (final (TempMonitor.loop computeHeatIndex i'
                    (final (TempMonitor.loop computeHeatIndex i w))))) = float_of_Z 0 /\
     TempMonitor.humidity
       (WebDashboard.app
          (final (TempMonitor.loop computeHeatIndex i'
                    (final (TempMonitor.loop computeHeatIndex i w))))) = float_of_Z 0 /\
     ~ In (Hw (SerialPrintln "Failed to read from DHT sensor!"))
          (trace (TempMonitor.loop computeHeatIndex i'
                    (final (TempMonitor.loop computeHeatIndex i w))))).
Proof.
  intros Hpoll Hdue Hnan.
  apply returns_run in Hpoll.
  assert (Hdue' : (elapsed (TempMonitor.millis_test i)
                     (TempMonitor.lastRead
                        (WebDashboard.app (final (WebDashboard.loop (TempMonitor.pending i) w))))
                   >? 2000) = true) by (apply Z.gtb_lt; lia).
  assert (Hnan' : isnan (TempMonitor.readTemperature i) || isnan (TempMonitor.readHumidity i) = true)
    by (apply orb_true_iff; exact Hnan).
  destruct (monitor_loop_failed_read computeHeatIndex i w _ _ Hpoll Hdue' Hnan')
    as (w2 & Hrun & Ht & Hh & Hv1 & Hv2 & _ & Hlr & _).
  rewrite Hrun. unfold outcome, final, trace; simpl fst; simpl snd.
  repeat match goal with |- _ /\ _ => split end; auto.
  - eexists. split; [reflexivity|].
    intros Hin. apply in_app_or in Hin. destruct Hin as [Hin|Hin].
    + destruct (_ && _); simpl in Hin;
        repeat match goal with H : _ \/ _ |- _ => destruct H as [H|H] end;
        try discriminate; contradiction.
    + simpl in Hin. destruct Hin as [Hin|[]]. discriminate Hin.
  - intros i' Hp' Hdue2.
    assert (Hq : (elapsed (TempMonitor.millis_test i') (TempMonitor.lastRead (WebDashboard.app w2))
                  >? 2000) = false).
    { rewrite Hlr, Z.gtb_ltb. apply Z.ltb_ge. exact Hdue2. }
    destruct (monitor_loop_no_read computeHeatIndex i' w2 Hp' Hq)
      as (w3 & t3 & Hrun3 & Ht' & Hh' & Hlog).
    rewrite Hrun3. simpl. rewrite Ht', Hh'. auto.
Qed.

Lemma failed_read_becomes_zero_witness :
  TempMonitor.temperature
    (WebDashboard.app
       (final (TempMonitor.loop (fun t _ _ => t)
                 (monitor_sample 5000 S754_nan (float_of_Z 40)) monitor_ready)))
  = float_of_Z 0 /\
  TempMonitor.humidity
    (WebDashboard.app
       (final (TempMonitor.loop (fun t _ _ => t)
                 (monitor_sample 5000 S754_nan (float_of_Z 40)) monitor_ready)))
  = float_of_Z 0.
Proof.
  destruct (failed_read_becomes_zero (fun t _ _ => t)
              (monitor_sample 5000 S754_nan (float_of_Z 40)) monitor_ready)
    as (_ & Ht & Hh & _).
  - reflexivity.
  - reflexivity.
  - left. reflexivity.
  - split; [exact Ht | exact Hh].
Defined.

(** The route of a request decides its path. *)
(** The LED callback and the blink test of the template. *)
Lemma template_onLEDChange_run (state : bool) (g : Template.globals) :
  Template.onLEDChange state g
  = (Some tt,
     Template.set_outputs (OutputStates.set_output1 state (Template.outputs g))
       (Template.set_ledState state g),
     [SerialPrint "LED button pressed: ";
      SerialPrintln (Template.onOff state);
      DigitalWrite Template.LED_PIN state]).
Proof. destruct state; reflexivity. Qed.

Lemma template_onCustomAction_run (g : Template.globals) :
  exists t, Template.onCustomAction g = (Some tt, g, t).
Proof. eexists. reflexivity. Qed.

(** What the poll of the listener leaves alone in the template, when the
    mode is auto and the request is neither a mode change nor a reset. *)
Lemma template_poll_auto (pending : option request) (w : Template.World) :
  wired w ->
  Template.currentMode (WebDashboard.app w) = "auto" ->
  match pending with
  | None => True
  | Some q => req_uri q <> "/api/mode" /\ req_uri q <> "/api/reset"
  end ->
  exists w1 t1,
    WebDashboard.loop pending w = (Some tt, w1, t1) /\
    WebDashboard.dash w1 = WebDashboard.dash w /\
    Template.currentMode (WebDashboard.app w1) = "auto" /\
    Template.relayState (WebDashboard.app w1) = Template.relayState (WebDashboard.app w) /\
    Template.sensorValue (WebDashboard.app w1) = Template.sensorValue (WebDashboard.app w) /\
    Template.lastSensorRead (WebDashboard.app w1)
    = Template.lastSensorRead (WebDashboard.app w).
Proof.
  intros (Hsrv & Hc1 & Hc2 & Hcm & Hcr & Hcc) Hmode Hq.
  destruct pending as [q|].
  2: { exists w, []. rewrite loop_idle. repeat split; auto. }
  destruct Hq as (Hnm & Hnr).
  destruct (find_route dashboard_server q) as [h|] eqn:Hroute.
  2: { do 2 eexists. rewrite (loop_not_found _ _ _ Hsrv eq_refl Hroute).
       repeat split; auto. }
  rewrite (loop_route _ _ _ _ Hsrv eq_refl Hroute).
  pose proof (dashboard_route_uri _ _ Hroute) as Huri.
  assert (Hlocked : String.eqb (Template.currentMode (WebDashboard.app w)) "manual" = false)
    by (rewrite Hmode; reflexivity).
  destruct h; simpl WebDashboard.dispatch; try congruence.
  - do 2 eexists. split; [reflexivity|]. repeat split; auto.
  - do 2 eexists. split; [reflexivity|]. repeat split; auto.
  - destruct (hasArg "state" (req_args q)) eqn:Harg.
    + rewrite (handleOutput1_run _ _ _ _ _ Harg Hc1 (template_onLEDChange_run _ _)).
      do 2 eexists. split; [reflexivity|]. repeat split; auto.
    + do 2 eexists.
      split; [unfold WebDashboard.handleOutput1, bind, get; rewrite Harg; reflexivity|].
      repeat split; auto.
  - destruct (hasArg "state" (req_args q)) eqn:Harg.
    + rewrite (handleOutput2_run _ _ _ _ _ Harg Hc2
                 (template_onRelayChange_locked _ _ Hlocked)).
      do 2 eexists. split; [reflexivity|]. repeat split; auto.
    + do 2 eexists.
      split; [unfold WebDashboard.handleOutput2, bind, get; rewrite Harg; reflexivity|].
      repeat split; auto.
  - destruct (template_onCustomAction_run (WebDashboard.app w)) as (t & Ht).
    rewrite (handleCustom_run _ _ _ _ Hcc Ht).
    do 2 eexists. split; [reflexivity|]. repeat split; auto.
Qed.

(** One pass of the template's [loop()] in auto mode, the dashboard wired
    and the request, if any, neither a mode change nor a reset: the pass
    returns, the mode and the wiring are kept, and the relay follows the
    hysteresis rule on the monitored value. *)
Lemma template_loop_auto (i : Template.pass) (w : Template.World) :
  wired w ->
  keeps_mode i ->
  Template.currentMode (WebDashboard.app w) = "auto" ->
  exists w' t,
    Template.loop i w = (Some tt, w', t) /\
    wired w' /\
    Template.currentMode (WebDashboard.app w') = "auto" /\
    Template.sensorValue (WebDashboard.app w') = monitored i (WebDashboard.app w) /\
    Template.relayState (WebDashboard.app w')
    = hysteresis_rule 2000 1500 (monitored i (WebDashboard.app w))
        (Template.relayState (WebDashboard.app w)).
Proof.
  intros Hwired Hkeep Hmode.
  destruct (template_poll_auto (Template.pending i) w Hwired Hmode Hkeep)
    as (w1 & t1 & Hpoll & Hdash & Hm1 & Hr1 & Hv1 & Hl1).
  unfold Template.loop. unfold bind at 1. rewrite Hpoll.
  unfold monitored. rewrite <- Hr1, <- Hv1, <- Hl1.
  unfold wired in Hwired. rewrite <- Hdash in Hwired.
  destruct Hwired as (Hsrv & Hc1 & Hc2 & Hcm & Hcr & Hcc).
  clear Hpoll Hdash Hr1 Hv1 Hl1 Hmode Hkeep.
  destruct w1 as [d g wf]. destruct g as [se ou sy mo led relay v lr].
  simpl in Hm1, Hsrv, Hc1, Hc2, Hcm, Hcr, Hcc. subst mo.
  unfold hysteresis_rule, wired.
  unfold Template.updateDashboardData, Template.fn, WebDashboard.hw, WebDashboard.on_dash,
    Template.readSensors, Template.runApplicationLogic.
  run_monad.
  destruct (elapsed (Template.millis_test i) lr >? 500); run_monad.
  - destruct (Z.gtb_spec (Template.adc i) 2000), (Z.ltb_spec (Template.adc i) 1500),
      relay; run_monad; try lia; do 2 eexists; (split; [reflexivity|]);
      simpl; repeat split; assumption.
  - destruct (Z.gtb_spec v 2000), (Z.ltb_spec v 1500),
      relay; run_monad; try lia; do 2 eexists; (split; [reflexivity|]);
      simpl; repeat split; assumption.
Qed.

Lemma hysteresis_rule_holds (v : Z) :
  1500 <= v -> hysteresis_rule 2000 1500 v true = true.
Proof.
  intros Hv. unfold hysteresis_rule.
  destruct (Z.gtb_spec v 2000); [reflexivity|].
  destruct (Z.ltb_spec v 1500); [lia|reflexivity].
Qed.

(** Once on, the relay of the template stays on for as long as the mode
    is auto and the monitored value does not fall below 1500. *)
Lemma template_relay_stays_on (passes : list Template.pass) :
  forall w : Template.World,
    wired w ->
    Forall keeps_mode passes ->
    Template.currentMode (WebDashboard.app w) = "auto" ->
    Template.relayState (WebDashboard.app w) = true ->
    Forall (fun w' => 1500 <= Template.sensorValue (WebDashboard.app w'))
      (template_run passes w) ->
    List.length (template_run passes w) = List.length passes /\
    Forall (fun w' => Template.relayState (WebDashboard.app w') = true)
      (template_run passes w) /\
    rising true (map (fun w' => Template.relayState (WebDashboard.app w'))
                   (template_run passes w)) = O.
Proof.
  induction passes as [|i rest IH]; intros w Hwired Hkeep Hmode Hon Hlow.
  - simpl. repeat split. constructor.
  - inversion Hkeep as [|? ? Hi Hrest]; subst.
    destruct (template_loop_auto i w Hwired Hi Hmode)
      as (w' & t & Hrun & Hwired' & Hmode' & Hv & Hr).
    simpl in Hlow |- *. rewrite Hrun in Hlow |- *.
    inversion Hlow as [|? ? Hv' Hlow']; subst.
    rewrite Hv in Hv'. rewrite Hon, (hysteresis_rule_holds _ Hv') in Hr.
    destruct (IH w' Hwired' Hrest Hmode' Hr Hlow') as (Hlen & Hall & Hrise).
    simpl. rewrite Hlen, Hr, Hrise.
    repeat split. constructor; assumption.
Qed.

(** A pass of the stand-alone [loop()] with no request waiting, in auto
    mode: the relay is on exactly when the value just monitored is above
    2000. *)
Lemma standalone_loop_auto (i : Standalone.pass) (g : Standalone.globals) :
  Standalone.pending i = None ->
  Standalone.projectMode g = "auto" ->
  exists g' t,
    Standalone.loop i g = (Some tt, g', t) /\
    Standalone.projectMode g' = "auto" /\
    Standalone.relayState g' = (Standalone.sensorValue g' >? 2000).
Proof.
  intros Hp Hmode. unfold Standalone.loop, handleClient, Standalone.hw.
  rewrite Hp. destruct g as [srv wf led relay v mo lr]. simpl in Hmode. subst mo.
  run_monad.
  destruct (elapsed (Standalone.millis_test i) lr >? 500); run_monad.
  - destruct (Standalone.adc i >? 2000) eqn:Hv; run_monad;
      do 2 eexists; (split; [reflexivity|]); simpl; rewrite ?Hv; split; reflexivity.
  - destruct (v >? 2000) eqn:Hv; run_monad;
      do 2 eexists; (split; [reflexivity|]); simpl; rewrite ?Hv; split; reflexivity.
Qed.





(** ** Further properties of the dashboard *)

(** X1. A control request that lacks its parameter is turned down even
    when the callback is registered: /api/output1 and /api/output2 without
    [state], and /api/mode without [mode], are answered 400 with the error
    payload, nothing is called and the state is as it was. *)
Theorem missing_parameter_turned_down {A} (w : WebDashboard.World A) (q : request) :
  (hasArg "state" (req_args q) = false ->
   turned_down w (WebDashboard.handleOutput1 q w) /\
   turned_down w (WebDashboard.handleOutput2 q w)) /\
  (hasArg "mode" (req_args q) = false ->
   turned_down w (WebDashboard.handleMode q w)).
Proof.
  split; intros Harg; [split|].
  - unfold WebDashboard.handleOutput1, bind, get. rewrite Harg. repeat split.
  - unfold WebDashboard.handleOutput2, bind, get. rewrite Harg. repeat split.
  - unfold WebDashboard.handleMode, bind, get. rewrite Harg. repeat split.
Qed.

Lemma missing_parameter_turned_down_witness :
  turned_down template_ready
    (WebDashboard.handleOutput1 (GET "/api/output1" [("State", "1")]) template_ready) /\
  turned_down template_ready
    (WebDashboard.handleMode (GET "/api/mode" []) template_ready).
Proof.
  split.
  - apply (proj1 (missing_parameter_turned_down template_ready
                    (GET "/api/output1" [("State", "1")]))).
    reflexivity.
  - apply (proj2 (missing_parameter_turned_down template_ready (GET "/api/mode" []))).
    reflexivity.
Defined.

(** X2. A custom request needs no parameter: with a registered callback
    that returns, the handler calls it exactly once and then answers 200
    with [success = true] and the message "Custom action completed"; the
    globals are as the callback left them. *)
Theorem custom_request_served {A} (w : WebDashboard.World A)
    (callback : WebDashboard.ActionCallback A) :
  WebDashboard._customCallback (WebDashboard.dash w) = Some callback ->
  outcome (callback (WebDashboard.app w)) = Some tt ->
  outcome (WebDashboard.handleCustom w) = Some tt /\
  invocations (trace (WebDashboard.handleCustom w)) = [CallCustom] /\
  responses (trace (WebDashboard.handleCustom w))
  = [(200, "application/json", SerializeJson WebDashboard.custom_doc)] /\
  json_get "success" WebDashboard.custom_doc = Some (JBool true) /\
  json_get "message" WebDashboard.custom_doc = Some (JString "Custom action completed") /\
  WebDashboard.app (final (WebDashboard.handleCustom w))
  = final (callback (WebDashboard.app w)).
Proof.
  intros Hcb Hret. apply returns_run in Hret.
  rewrite (handleCustom_run _ _ _ _ Hcb Hret).
  unfold outcome, trace, final; simpl.
  rewrite invocations_app, responses_app, invocations_Hw, responses_Hw.
  repeat split.
Qed.

Lemma custom_request_served_witness :
  invocations (trace (WebDashboard.handleCustom template_ready)) = [CallCustom].
Proof.
  destruct (custom_request_served template_ready Template.onCustomAction)
    as (_ & H & _).
  - reflexivity.
  - reflexivity.
  - exact H.
Defined.

(** The handlers for /api/output1, /api/output2 and /api/mode answer
    exactly once and return, whatever the request holds, when the callback
    concerned returns. *)
(** X3. Every request that reaches a listening dashboard whose callbacks
    return is answered exactly once, with status 200, 400 or 404, whatever
    its path, method and parameters; and the poll returns to the sketch
    unless the request was routed to the reset handler. *)
Theorem every_request_answered_once {A} (w : WebDashboard.World A)
    (srv : WebServer WebDashboard.handler) (q : request) :
  WebDashboard._server (WebDashboard.dash w) = Some srv ->
  ws_listening srv = true ->
  callbacks_return (WebDashboard.dash w) ->
  (exists code content_type body,
     responses (trace (WebDashboard.loop (Some q) w)) = [(code, content_type, body)] /\
     (code = 200 \/ code = 400 \/ code = 404)) /\
  (outcome (WebDashboard.loop (Some q) w) = None <->
   find_route srv q = Some WebDashboard.HandleReset).
Proof.
  intros Hsrv Hl Hret. exact (poll_answers_once w srv q Hsrv Hl Hret).
Qed.

(** Callbacks of the template return, whatever they are called with. *)
Lemma template_callbacks_return (w : Template.World) :
  wired w -> callbacks_return (WebDashboard.dash w).
Proof.
  intros (_ & H1 & H2 & Hm & Hr & Hc).
  unfold callbacks_return. rewrite H1, H2, Hm, Hr, Hc.
  repeat split; intros callback; intros; injection H as <-.
  - rewrite template_onLEDChange_run. reflexivity.
  - destruct (String.eqb (Template.currentMode a) "manual") eqn:Hmode.
    + rewrite (template_onRelayChange_manual _ _ Hmode). reflexivity.
    + rewrite (template_onRelayChange_locked _ _ Hmode). reflexivity.
  - rewrite template_onModeChange_run. reflexivity.
  - reflexivity.
  - reflexivity.
Qed.

Lemma every_request_answered_once_witness :
  responses (trace (WebDashboard.loop
                      (Some {| req_method := HTTP_POST; req_uri := "/nowhere";
                               req_args := [] |}) template_ready))
  = [(404, "text/plain", Literal "Not found: /nowhere")].
Proof.
  destruct (every_request_answered_once template_ready dashboard_server
              {| req_method := HTTP_POST; req_uri := "/nowhere"; req_args := [] |})
    as ((code & ct & body & Hr & _) & _).
  - reflexivity.
  - reflexivity.
  - apply template_callbacks_return. repeat split.
  - reflexivity.
Defined.



(** ** Further properties of the template sketch *)

(** What a pass of the template's [loop()] does once the poll of the
    listener has returned, in every mode. *)
Lemma template_pass_after_poll (i : Template.pass) (w w1 : Template.World)
    (t1 : list event) :
  WebDashboard.loop (Template.pending i) w = (Some tt, w1, t1) ->
  exists w' t,
    Template.loop i w = (Some tt, w', t) /\
    WebDashboard.dash w'
    = WebDashboard.updateSystemInfo (Some Template.systemInfo)
        (WebDashboard.updateOutputStates (Some Template.outputs)
           (WebDashboard.updateSensorData (Some Template.sensors)
              (WebDashboard.dash w1))) /\
    Template.currentMode (WebDashboard.app w') = Template.currentMode (WebDashboard.app w1) /\
    Template.ledState (WebDashboard.app w') = Template.ledState (WebDashboard.app w1) /\
    Template.sensorValue (WebDashboard.app w') = monitored i (WebDashboard.app w1) /\
    Template.relayState (WebDashboard.app w')
    = (if String.eqb (Template.currentMode (WebDashboard.app w1)) "auto"
       then hysteresis_rule 2000 1500 (monitored i (WebDashboard.app w1))
              (Template.relayState (WebDashboard.app w1))
       else Template.relayState (WebDashboard.app w1)) /\
    SystemInfo.mode (Template.systemInfo (WebDashboard.app w'))
    = Template.currentMode (WebDashboard.app w1) /\
    SystemInfo.uptime (Template.systemInfo (WebDashboard.app w'))
    = Template.millis_uptime i / 1000 /\
    OutputStates.output1 (Template.outputs (WebDashboard.app w'))
    = Template.ledState (WebDashboard.app w1) /\
    OutputStates.output2 (Template.outputs (WebDashboard.app w'))
    = Template.relayState (WebDashboard.app w1) /\
    SensorData.value1 (Template.sensors (WebDashboard.app w'))
    = float_of_Z (monitored i (WebDashboard.app w1)) /\
    (String.eqb (Template.currentMode (WebDashboard.app w1)) "auto" = false ->
     t = (t1 ++ [Hw (DelayMs 10)])%list) /\
    responses t = responses t1.
Proof.
  intros Hpoll.
  unfold Template.loop. unfold bind at 1. rewrite Hpoll. clear Hpoll.
  destruct w1 as [d g wf]. destruct g as [se ou sy mo led relay v lr].
  unfold monitored, hysteresis_rule.
  unfold Template.updateDashboardData, Template.fn, WebDashboard.hw, WebDashboard.on_dash,
    Template.readSensors, Template.runApplicationLogic.
  run_monad.
  destruct (elapsed (Template.millis_test i) lr >? 500); run_monad;
    destruct (String.eqb mo "auto") eqn:Hauto; run_monad.
  - apply String.eqb_eq in Hauto. subst mo.
    destruct (Z.gtb_spec (Template.adc i) 2000), (Z.ltb_spec (Template.adc i) 1500),
      relay; run_monad; try lia;
      do 2 eexists; (split; [reflexivity|]); simpl; repeat split;
      try discriminate; rewrite responses_app; apply app_nil_r.
  - destruct (String.eqb mo "sleep"); run_monad;
      do 2 eexists; (split; [reflexivity|]); simpl; repeat split;
      rewrite responses_app; apply app_nil_r.
  - apply String.eqb_eq in Hauto. subst mo.
    destruct (Z.gtb_spec v 2000), (Z.ltb_spec v 1500),
      relay; run_monad; try lia;
      do 2 eexists; (split; [reflexivity|]); simpl; repeat split;
      try discriminate; rewrite responses_app; apply app_nil_r.
  - destruct (String.eqb mo "sleep"); run_monad;
      do 2 eexists; (split; [reflexivity|]); simpl; repeat split;
      rewrite responses_app; apply app_nil_r.
Qed.

Lemma dashboard_reset_route (q : request) :
  req_uri q = "/api/reset" ->
  find_route dashboard_server q = Some WebDashboard.HandleReset.
Proof.
  intros Huri. unfold find_route, dashboard_server, route_matches.
  cbn [ws_routes find r_uri r_method r_handler]. rewrite Huri. reflexivity.
Qed.

(** The poll of the listener in the wired template: it returns, with the
    dashboard object as it was, unless the request is for the reset
    path. *)
Lemma template_poll_returns (pending : option request) (w : Template.World) :
  wired w ->
  not_reset pending ->
  exists w1 t1,
    WebDashboard.loop pending w = (Some tt, w1, t1) /\
    WebDashboard.dash w1 = WebDashboard.dash w.
Proof.
  intros (Hsrv & Hc1 & Hc2 & Hcm & Hcr & Hcc) Hq.
  destruct pending as [q|].
  2: { exists w, []. rewrite loop_idle. split; reflexivity. }
  simpl in Hq.
  destruct (find_route dashboard_server q) as [h|] eqn:Hroute.
  2: { do 2 eexists. rewrite (loop_not_found _ _ _ Hsrv eq_refl Hroute).
       split; reflexivity. }
  rewrite (loop_route _ _ _ _ Hsrv eq_refl Hroute).
  pose proof (dashboard_route_uri _ _ Hroute) as Huri.
  destruct h; simpl WebDashboard.dispatch; try congruence.
  - do 2 eexists. split; reflexivity.
  - do 2 eexists. split; reflexivity.
  - destruct (hasArg "state" (req_args q)) eqn:Harg.
    + rewrite (handleOutput1_run _ _ _ _ _ Harg Hc1 (template_onLEDChange_run _ _)).
      do 2 eexists. split; reflexivity.
    + do 2 eexists.
      split; [unfold WebDashboard.handleOutput1, bind, get; rewrite Harg; reflexivity|].
      reflexivity.
  - destruct (hasArg "state" (req_args q)) eqn:Harg.
    + destruct (String.eqb (Template.currentMode (WebDashboard.app w)) "manual") eqn:Hmode.
      * rewrite (handleOutput2_run _ _ _ _ _ Harg Hc2
                   (template_onRelayChange_manual _ _ Hmode)).
        do 2 eexists. split; reflexivity.
      * rewrite (handleOutput2_run _ _ _ _ _ Harg Hc2
                   (template_onRelayChange_locked _ _ Hmode)).
        do 2 eexists. split; reflexivity.
    + do 2 eexists.
      split; [unfold WebDashboard.handleOutput2, bind, get; rewrite Harg; reflexivity|].
      reflexivity.
  - destruct (hasArg "mode" (req_args q)) eqn:Harg.
    + rewrite (handleMode_run _ _ _ _ _ Harg Hcm (template_onModeChange_run _ _)).
      do 2 eexists. split; reflexivity.
    + do 2 eexists.
      split; [unfold WebDashboard.handleMode, bind, get; rewrite Harg; reflexivity|].
      reflexivity.
  - destruct (template_onCustomAction_run (WebDashboard.app w)) as (t & Ht).
    rewrite (handleCustom_run _ _ _ _ Hcc Ht).
    do 2 eexists. split; reflexivity.
Qed.

Lemma wired_after_pass (w w1 w' : Template.World) :
  wired w ->
  WebDashboard.dash w1 = WebDashboard.dash w ->
  WebDashboard.dash w'
  = WebDashboard.updateSystemInfo (Some Template.systemInfo)
      (WebDashboard.updateOutputStates (Some Template.outputs)
         (WebDashboard.updateSensorData (Some Template.sensors)
            (WebDashboard.dash w1))) ->
  wired w'.
Proof.
  intros Hw H1 H'. unfold wired in *. rewrite H', H1. exact Hw.
Qed.

(** X5. The wired template keeps running: a pass of [loop()] fails to
    return exactly when the request it finds is for /api/reset; every
    other pass, whatever the request, the mode, the clock and the sensor
    reading, runs to its end and leaves the dashboard wired, so that any
    sequence of passes without a reset request is carried out in full. *)
Theorem template_runs_until_reset (passes : list Template.pass) (w : Template.World) :
  wired w ->
  (forall i,
     outcome (Template.loop i w) = None <->
     exists q, Template.pending i = Some q /\ req_uri q = "/api/reset") /\
  (Forall (fun i => not_reset (Template.pending i)) passes ->
   List.length (template_run passes w) = List.length passes /\
   Forall wired (template_run passes w)).
Proof.
  intros Hw. split.
  - intros i. split.
    + intros Hnone.
      destruct (Template.pending i) as [q|] eqn:Hp.
      * destruct (string_dec (req_uri q) "/api/reset") as [Huri|Huri]; [eauto|].
        exfalso.
        destruct (template_poll_returns (Some q) w Hw Huri) as (w1 & t1 & Hpoll & _).
        rewrite <- Hp in Hpoll.
        destruct (template_pass_after_poll i w w1 t1 Hpoll) as (w' & t & Hrun & _).
        rewrite Hrun in Hnone. discriminate Hnone.
      * exfalso.
        destruct (template_poll_returns None w Hw I) as (w1 & t1 & Hpoll & _).
        rewrite <- Hp in Hpoll.
        destruct (template_pass_after_poll i w w1 t1 Hpoll) as (w' & t & Hrun & _).
        rewrite Hrun in Hnone. discriminate Hnone.
    + intros (q & Hp & Huri).
      destruct Hw as (Hsrv & _ & _ & _ & Hcr & _).
      unfold Template.loop. unfold bind at 1. rewrite Hp.
      rewrite (loop_route _ _ _ _ Hsrv eq_refl (dashboard_reset_route _ Huri)).
      simpl WebDashboard.dispatch.
      rewrite (handleReset_run _ _ _ _ Hcr eq_refl). reflexivity.
  - revert w Hw. induction passes as [|i rest IH]; intros w Hw Hall.
    + simpl. split; [reflexivity | constructor].
    + inversion Hall as [|? ? Hi Hrest]; subst.
      destruct (template_poll_returns _ w Hw Hi) as (w1 & t1 & Hpoll & Hdash).
      destruct (template_pass_after_poll i w w1 t1 Hpoll) as (w' & t & Hrun & Hd' & _).
      pose proof (wired_after_pass _ _ _ Hw Hdash Hd') as Hw'.
      destruct (IH w' Hw' Hrest) as (Hlen & Hwired).
      simpl. rewrite Hrun. simpl. rewrite Hlen.
      split; [reflexivity | constructor; assumption].
Qed.

Lemma template_runs_until_reset_witness :
  List.length
    (template_run
       [template_sample 600 100;
        {| Template.pending := Some (GET "/api/mode" [("mode", "manual")]);
           Template.millis_test := 700; Template.millis_stamp := 700;
           Template.millis_uptime := 700; Template.adc := 3000 |};
        {| Template.pending := Some (GET "/api/output2" [("state", "1")]);
           Template.millis_test := 1200; Template.millis_stamp := 1200;
           Template.millis_uptime := 1200; Template.adc := 3000 |}]
       template_ready) = 3%nat.
Proof.
  destruct (template_runs_until_reset
              [template_sample 600 100;
               {| Template.pending := Some (GET "/api/mode" [("mode", "manual")]);
                  Template.millis_test := 700; Template.millis_stamp := 700;
                  Template.millis_uptime := 700; Template.adc := 3000 |};
               {| Template.pending := Some (GET "/api/output2" [("state", "1")]);
                  Template.millis_test := 1200; Template.millis_stamp := 1200;
                  Template.millis_uptime := 1200; Template.adc := 3000 |}]
              template_ready) as (_ & Hrun).
  - repeat split.
  - destruct Hrun as (Hlen & _).
    + repeat constructor; simpl; discriminate.
    + exact Hlen.
Defined.

Lemma dashboard_status_route (q : request) :
  req_uri q = "/api/status" ->
  find_route dashboard_server q = Some WebDashboard.HandleStatus.
Proof.
  intros Huri. unfold find_route, dashboard_server, route_matches.
  cbn [ws_routes find r_uri r_method r_handler]. rewrite Huri. reflexivity.
Qed.

(** A pass of the template's [loop()] that returns is one whose poll
    returned. *)
Lemma template_pass_returned (i : Template.pass) (w : Template.World) :
  outcome (Template.loop i w) = Some tt ->
  exists w1 t1, WebDashboard.loop (Template.pending i) w = (Some tt, w1, t1).
Proof.
  intros Hret.
  destruct (WebDashboard.loop (Template.pending i) w) as [[[[]|] w1] t1] eqn:Hpoll.
  - eauto.
  - exfalso. unfold Template.loop in Hret. unfold bind at 1 in Hret.
    rewrite Hpoll in Hret. discriminate Hret.
Qed.

(** X6. After every pass of the template's [loop()] that returns, the
    three data pointers of the dashboard are set and the structures behind
    them mirror the globals: the status document has the keys "sensors",
    "outputs" and "system", its mode is the current mode, its first output
    is the LED state, its first value is the sensor value and its uptime
    is the clock reading in whole seconds. *)
Theorem template_status_mirrors_globals (i : Template.pass) (w : Template.World) :
  outcome (Template.loop i w) = Some tt ->
  json_keys (WebDashboard.status_doc (final (Template.loop i w)))
  = ["sensors"; "outputs"; "system"] /\
  SystemInfo.mode (Template.systemInfo (WebDashboard.app (final (Template.loop i w))))
  = Template.currentMode (WebDashboard.app (final (Template.loop i w))) /\
  OutputStates.output1 (Template.outputs (WebDashboard.app (final (Template.loop i w))))
  = Template.ledState (WebDashboard.app (final (Template.loop i w))) /\
  SensorData.value1 (Template.sensors (WebDashboard.app (final (Template.loop i w))))
  = float_of_Z (Template.sensorValue (WebDashboard.app (final (Template.loop i w)))) /\
  SystemInfo.uptime (Template.systemInfo (WebDashboard.app (final (Template.loop i w))))
  = Template.millis_uptime i / 1000 /\
  json_get "system" (WebDashboard.status_doc (final (Template.loop i w)))
  = Some (JObject
            [("name", JString (SystemInfo.projectName
                                 (Template.systemInfo
                                    (WebDashboard.app (final (Template.loop i w))))));
             ("version", JString (SystemInfo.version
                                    (Template.systemInfo
                                       (WebDashboard.app (final (Template.loop i w))))));
             ("mode", JString (Template.currentMode
                                 (WebDashboard.app (final (Template.loop i w)))));
             ("uptime", JInt (Template.millis_uptime i / 1000))]).
Proof.
  intros Hret.
  destruct (template_pass_returned i w Hret) as (w1 & t1 & Hpoll).
  destruct (template_pass_after_poll i w w1 t1 Hpoll)
    as (w' & t & Hrun & Hd & Hmode & Hled & Hv & _ & Hsm & Hup & Ho1 & _ & Hv1 & _).
  rewrite Hrun. unfold final; simpl fst; simpl snd.
  assert (Hdoc : WebDashboard.status_doc w'
                 = [("sensors", JObject (WebDashboard.sensors_members
                                           (Template.sensors (WebDashboard.app w'))));
                    ("outputs", JObject (WebDashboard.outputs_members
                                           (Template.outputs (WebDashboard.app w'))));
                    ("system", JObject (WebDashboard.system_members
                                          (Template.systemInfo (WebDashboard.app w'))))]).
  { unfold WebDashboard.status_doc. rewrite Hd. reflexivity. }
  rewrite Hdoc.
  split; [reflexivity|].
  split; [congruence|]. split; [congruence|]. split; [congruence|].
  split; [exact Hup|].
  simpl. unfold WebDashboard.system_members. simpl.
  rewrite Hsm, Hup, Hmode. reflexivity.
Qed.

Lemma template_status_mirrors_globals_witness :
  json_keys (WebDashboard.status_doc
               (final (Template.loop
                         {| Template.pending := Some (GET "/api/mode" [("mode", "manual")]);
                            Template.millis_test := 700; Template.millis_stamp := 700;
                            Template.millis_uptime := 4700; Template.adc := 3000 |}
                         template_ready)))
  = ["sensors"; "outputs"; "system"].
Proof.
  destruct (template_status_mirrors_globals
              {| Template.pending := Some (GET "/api/mode" [("mode", "manual")]);
                 Template.millis_test := 700; Template.millis_stamp := 700;
                 Template.millis_uptime := 4700; Template.adc := 3000 |}
              template_ready) as (H & _).
  - reflexivity.
  - exact H.
Defined.

(** X7. The data pointers are first set inside [loop()], after the poll:
    a status request served while they are still unset, as in the first
    pass after [setup()], is answered 200 with a document that has no key,
    whatever the clock and the sensor say; once that pass is over the
    document has all three keys. *)
Theorem first_status_has_no_key (i : Template.pass) (q : request) (w : Template.World) :
  wired w ->
  WebDashboard._sensorData (WebDashboard.dash w) = None ->
  WebDashboard._outputStates (WebDashboard.dash w) = None ->
  WebDashboard._systemInfo (WebDashboard.dash w) = None ->
  Template.pending i = Some q ->
  req_uri q = "/api/status" ->
  outcome (Template.loop i w) = Some tt /\
  responses (trace (Template.loop i w)) = [(200, "application/json", SerializeJson [])] /\
  json_keys (WebDashboard.status_doc (final (Template.loop i w)))
  = ["sensors"; "outputs"; "system"].
Proof.
  intros (Hsrv & _) Hs Ho Hi Hp Huri.
  assert (Hpoll : WebDashboard.loop (Template.pending i) w
                  = (Some tt, w, [Send 200 "application/json" (SerializeJson [])])).
  { rewrite Hp.
    rewrite (loop_route _ _ _ _ Hsrv eq_refl (dashboard_status_route _ Huri)).
    simpl WebDashboard.dispatch.
    unfold WebDashboard.handleStatus, WebDashboard.status_doc, bind, get, WebDashboard.send, emit.
    rewrite Hs, Ho, Hi. reflexivity. }
  destruct (template_pass_after_poll i w w _ Hpoll)
    as (w' & t & Hrun & Hd & _ & _ & _ & _ & _ & _ & _ & _ & _ & _ & Hresp).
  rewrite Hrun. unfold outcome, trace, final; simpl fst; simpl snd.
  split; [reflexivity|]. split; [exact Hresp|].
  unfold WebDashboard.status_doc. rewrite Hd. reflexivity.
Qed.

Lemma first_status_has_no_key_witness :
  responses (trace (Template.loop
                      {| Template.pending := Some (GET "/api/status" []);
                         Template.millis_test := 1200; Template.millis_stamp := 1200;
                         Template.millis_uptime := 1200; Template.adc := 3000 |}
                      template_ready))
  = [(200, "application/json", SerializeJson [])].
Proof.
  destruct (first_status_has_no_key
              {| Template.pending := Some (GET "/api/status" []);
                 Template.millis_test := 1200; Template.millis_stamp := 1200;
                 Template.millis_uptime := 1200; Template.adc := 3000 |}
              (GET "/api/status" []) template_ready) as (_ & H & _).
  - repeat split.
  - reflexivity.
  - reflexivity.
  - reflexivity.
  - reflexivity.
  - reflexivity.
  - exact H.
Defined.

(** X8. The dashboard shows an automatic relay switch one pass late. The
    second output is copied from the relay state before the control logic
    of the pass runs: after a pass with no request in which the logic
    turns the relay on, the relay variable is on while the status document
    still says off, and the document says on only after the following
    pass. *)
Theorem auto_switch_shown_one_pass_late (i i' : Template.pass) (w : Template.World) :
  Template.pending i = None ->
  Template.pending i' = None ->
  Template.currentMode (WebDashboard.app w) = "auto" ->
  Template.relayState (WebDashboard.app w) = false ->
  2000 < monitored i (WebDashboard.app w) ->
  Template.relayState (WebDashboard.app (final (Template.loop i w))) = true /\
  OutputStates.output2 (Template.outputs (WebDashboard.app (final (Template.loop i w))))
  = false /\
  json_get "outputs" (WebDashboard.status_doc (final (Template.loop i w)))
  = Some (JObject (WebDashboard.outputs_members
                     (Template.outputs (WebDashboard.app (final (Template.loop i w)))))) /\
  OutputStates.output2
    (Template.outputs
       (WebDashboard.app (final (Template.loop i' (final (Template.loop i w))))))
  = true.
Proof.
  intros Hp Hp' Hmode Hoff Hhigh.
  assert (Hpoll : WebDashboard.loop (Template.pending i) w = (Some tt, w, []))
    by (rewrite Hp; apply loop_idle).
  destruct (template_pass_after_poll i w w [] Hpoll)
    as (w1 & t & Hrun & Hd & _ & _ & _ & Hr & _ & _ & _ & Ho2 & _).
  rewrite Hrun. unfold final at 1 2 3 4; simpl fst; simpl snd.
  rewrite Hmode in Hr. simpl in Hr. rewrite Hoff in Hr, Ho2.
  assert (Hon : Template.relayState (WebDashboard.app w1) = true).
  { rewrite Hr. unfold hysteresis_rule.
    destruct (Z.gtb_spec (monitored i (WebDashboard.app w)) 2000); [reflexivity|lia]. }
  split; [exact Hon|]. split; [exact Ho2|].
  split.
  { unfold WebDashboard.status_doc. rewrite Hd. reflexivity. }
  assert (Hpoll' : WebDashboard.loop (Template.pending i') w1 = (Some tt, w1, []))
    by (rewrite Hp'; apply loop_idle).
  destruct (template_pass_after_poll i' w1 w1 [] Hpoll')
    as (w2 & t' & Hrun' & _ & _ & _ & _ & _ & _ & _ & _ & Ho2' & _).
  unfold final. simpl fst; simpl snd. rewrite Hrun'. simpl. rewrite Ho2'. exact Hon.
Qed.

Lemma auto_switch_shown_one_pass_late_witness :
  Template.relayState
    (WebDashboard.app (final (Template.loop (template_sample 1000 2500) template_ready)))
  = true /\
  OutputStates.output2
    (Template.outputs
       (WebDashboard.app (final (Template.loop (template_sample 1000 2500) template_ready))))
  = false.
Proof.
  destruct (auto_switch_shown_one_pass_late (template_sample 1000 2500)
              (template_sample 1010 2500) template_ready) as (H1 & H2 & _).
  - reflexivity.
  - reflexivity.
  - reflexivity.
  - reflexivity.
  - vm_compute. reflexivity.
  - split; [exact H1 | exact H2].
Defined.

(** X9. Outside auto mode the control logic of the template is
    suppressed: a pass with no request, whatever the sensor reads, writes
    no pin and leaves the relay, the LED and the mode as they were; its
    only hardware effect is the closing delay. *)
Theorem template_idle_outside_auto (i : Template.pass) (w : Template.World) :
  Template.pending i = None ->
  Template.currentMode (WebDashboard.app w) <> "auto" ->
  outcome (Template.loop i w) = Some tt /\
  trace (Template.loop i w) = [Hw (DelayMs 10)] /\
  Template.relayState (WebDashboard.app (final (Template.loop i w)))
  = Template.relayState (WebDashboard.app w) /\
  Template.ledState (WebDashboard.app (final (Template.loop i w)))
  = Template.ledState (WebDashboard.app w) /\
  Template.currentMode (WebDashboard.app (final (Template.loop i w)))
  = Template.currentMode (WebDashboard.app w).
Proof.
  intros Hp Hmode. apply String.eqb_neq in Hmode.
  assert (Hpoll : WebDashboard.loop (Template.pending i) w = (Some tt, w, []))
    by (rewrite Hp; apply loop_idle).
  destruct (template_pass_after_poll i w w [] Hpoll)
    as (w1 & t & Hrun & _ & Hm & Hl & _ & Hr & _ & _ & _ & _ & _ & Ht & _).
  rewrite Hrun. unfold outcome, trace, final; simpl fst; simpl snd.
  rewrite Hmode in Hr.
  split; [reflexivity|]. split; [apply Ht; exact Hmode|].
  split; [exact Hr|]. split; [exact Hl | exact Hm].
Qed.

Lemma template_idle_outside_auto_witness :
  trace (Template.loop (template_sample 1000 2500)
           (final (WebDashboard.handleMode (GET "/api/mode" [("mode", "manual")])
                     template_ready)))
  = [Hw (DelayMs 10)].
Proof.
  destruct (template_idle_outside_auto (template_sample 1000 2500)
              (final (WebDashboard.handleMode (GET "/api/mode" [("mode", "manual")])
                        template_ready))) as (_ & H & _).
  - reflexivity.
  - discriminate.
  - exact H.
Defined.

(** X10. The LED of the template can be switched in every mode: a request
    to /api/output1 that carries [state] sets the LED variable and the
    first output to the requested value and leaves the pin at that level,
    without touching the relay or the mode; a status document built right
    after the request already shows the new value. *)
Theorem led_request_in_every_mode (w : Template.World) (q : request) (level : bool) :
  hasArg "state" (req_args q) = true ->
  WebDashboard._output1Callback (WebDashboard.dash w) = Some Template.onLEDChange ->
  served (CallOutput1 (requested_state q)) (WebDashboard.handleOutput1 q w) /\
  Template.ledState (WebDashboard.app (final (WebDashboard.handleOutput1 q w)))
  = requested_state q /\
  pin_level Template.LED_PIN level (hardware (trace (WebDashboard.handleOutput1 q w)))
  = requested_state q /\
  Template.relayState (WebDashboard.app (final (WebDashboard.handleOutput1 q w)))
  = Template.relayState (WebDashboard.app w) /\
  Template.currentMode (WebDashboard.app (final (WebDashboard.handleOutput1 q w)))
  = Template.currentMode (WebDashboard.app w) /\
  (WebDashboard._outputStates (WebDashboard.dash w) = Some Template.outputs ->
   exists o,
     json_get "outputs" (WebDashboard.status_doc (final (WebDashboard.handleOutput1 q w)))
     = Some (JObject o) /\
     json_get "output1" o = Some (JBool (requested_state q))).
Proof.
  intros Harg Hcb.
  rewrite (handleOutput1_run _ _ _ _ _ Harg Hcb (template_onLEDChange_run _ _)).
  fold (requested_state q).
  split; [apply served_intro|].
  unfold final, trace; simpl fst; simpl snd.
  split; [reflexivity|].
  split.
  { simpl. unfold Template.LED_PIN. simpl. destruct (requested_state q); reflexivity. }
  split; [reflexivity|]. split; [reflexivity|].
  intros Hptr. unfold WebDashboard.status_doc. simpl WebDashboard.dash. rewrite Hptr.
  destruct (WebDashboard._sensorData (WebDashboard.dash w));
    destruct (WebDashboard._systemInfo (WebDashboard.dash w));
    eexists; (split; [reflexivity|]); reflexivity.
Qed.

Lemma led_request_in_every_mode_witness :
  Template.ledState
    (WebDashboard.app
       (final (WebDashboard.handleOutput1 (GET "/api/output1" [("state", "1")])
                 template_ready)))
  = true.
Proof.
  destruct (led_request_in_every_mode template_ready
              (GET "/api/output1" [("state", "1")]) false) as (_ & H & _).
  - reflexivity.
  - reflexivity.
  - exact H.
Defined.


(** X12. The sensor period of the template survives the wrap-around of
    the millisecond clock. With [d] the time since the last sample, the
    test [millis() - lastSensorRead > 500] sees [d] even when the clock
    has wrapped past 2^32 in between: in a pass with no request the sensor
    is sampled when [d] exceeds 500 and is left alone otherwise. *)
Theorem sensor_period_survives_rollover (i : Template.pass) (w : Template.World) (d : Z) :
  Template.pending i = None ->
  0 <= Template.lastSensorRead (WebDashboard.app w) < 2 ^ 32 ->
  0 <= d < 2 ^ 32 ->
  Template.millis_test i = (Template.lastSensorRead (WebDashboard.app w) + d) mod 2 ^ 32 ->
  elapsed (Template.millis_test i) (Template.lastSensorRead (WebDashboard.app w)) = d /\
  (500 < d ->
   Template.sensorValue (WebDashboard.app (final (Template.loop i w))) = Template.adc i) /\
  (d <= 500 ->
   Template.sensorValue (WebDashboard.app (final (Template.loop i w)))
   = Template.sensorValue (WebDashboard.app w)).
Proof.
  intros Hp Hlast Hd Hnow.
  assert (He : elapsed (Template.millis_test i)
                 (Template.lastSensorRead (WebDashboard.app w)) = d).
  { unfold elapsed. rewrite Hnow, Zminus_mod_idemp_l.
    replace (Template.lastSensorRead (WebDashboard.app w) + d
             - Template.lastSensorRead (WebDashboard.app w)) with d by lia.
    apply Z.mod_small. exact Hd. }
  assert (Hpoll : WebDashboard.loop (Template.pending i) w = (Some tt, w, []))
    by (rewrite Hp; apply loop_idle).
  destruct (template_pass_after_poll i w w [] Hpoll)
    as (w1 & t & Hrun & _ & _ & _ & Hv & _).
  rewrite Hrun. unfold final; simpl fst; simpl snd. rewrite Hv.
  unfold monitored. rewrite He.
  split; [reflexivity|]. split; intros Hcmp.
  - destruct (Z.gtb_spec d 500); [reflexivity|lia].
  - destruct (Z.gtb_spec d 500); [lia|reflexivity].
Qed.

Lemma sensor_period_survives_rollover_witness :
  elapsed 300 4294967000 = 596 /\
  Template.sensorValue
    (WebDashboard.app
       (final (Template.loop (template_sample 300 1234)
                 (WebDashboard.set_app
                    (Template.set_lastSensorRead 4294967000
                       (WebDashboard.app template_ready)) template_ready))))
  = 1234.
Proof.
  destruct (sensor_period_survives_rollover (template_sample 300 1234)
              (WebDashboard.set_app
                 (Template.set_lastSensorRead 4294967000
                    (WebDashboard.app template_ready)) template_ready) 596)
    as (He & Hread & _).
  - reflexivity.
  - simpl. lia.
  - lia.
  - reflexivity.
  - split; [exact He | apply Hread; lia].
Defined.

(** ** Further properties of the stand-alone sketch *)

(** X13. The LED endpoint of the stand-alone sketch works in every mode:
    with a [state] parameter the LED variable takes the requested value,
    the pin is written to that level and the answer is 200 with
    [success = true] and the new LED state, the relay and the mode being
    left alone; without the parameter the answer is 400 with the error
    "Missing state parameter" and nothing changes. *)
Theorem standalone_led_request (g : Standalone.globals) (q : request) :
  (hasArg "state" (req_args q) = true ->
   Standalone.handleLED q g
   = (Some tt, Standalone.set_ledState (requested_state q) g,
      [Hw (DigitalWrite Standalone.LED_PIN (requested_state q));
       Send 200 "application/json"
         (SerializeJson [("success", JBool true);
                         ("led", JBool (requested_state q))])])) /\
  (hasArg "state" (req_args q) = false ->
   Standalone.handleLED q g
   = (Some tt, g,
      [Send 400 "application/json"
         (Literal ("{" ++ dq ++ "error" ++ dq ++ ":" ++ dq
                   ++ "Missing state parameter" ++ dq ++ "}"))]) /\
   Standalone.handleRelay q g = Standalone.handleLED q g).
Proof.
  split; intros Harg.
  - unfold Standalone.handleLED. rewrite Harg. unfold requested_state.
    destruct (String_equals (arg "state" (req_args q)) "1"); reflexivity.
  - unfold Standalone.handleLED, Standalone.handleRelay. rewrite Harg.
    split; reflexivity.
Qed.

Lemma standalone_led_request_witness :
  Standalone.ledState
    (final (Standalone.handleLED (GET "/api/led" [("state", "1")]) standalone_ready))
  = true /\
  final (Standalone.handleLED (GET "/api/led" []) standalone_ready) = standalone_ready.
Proof.
  split.
  - rewrite (proj1 (standalone_led_request standalone_ready
                      (GET "/api/led" [("state", "1")]))) by reflexivity.
    reflexivity.
  - rewrite (proj1 (proj2 (standalone_led_request standalone_ready (GET "/api/led" []))
                      eq_refl)).
    reflexivity.
Defined.

(** The answer of the stand-alone status handler: the stored mode is
    reported when its copy fits into what the five members leave of the
    256 bytes, and is null otherwise. *)
Lemma standalone_handleStatus_run (now : Z) (s : Standalone.globals) :
  Standalone.handleStatus now s
  = (Some tt, s,
     [Send 200 "application/json"
        (SerializeJson
           [("sensor", JInt (Standalone.sensorValue s));
            ("uptime", JInt (now / 1000));
            ("led", JBool (Standalone.ledState s));
            ("relay", JBool (Standalone.relayState s));
            ("mode",
             if 80 + (Z.of_nat (String.length (Standalone.projectMode s)) + 1) <=? 256
             then JString (Standalone.projectMode s)
             else JNull)])]).
Proof.
  unfold Standalone.handleStatus, bind, get, Standalone.send, emit.
  unfold StaticJsonDocument.set_String.
  change (StaticJsonDocument.set "mode" JNull
            (StaticJsonDocument.set "relay" (JBool (Standalone.relayState s))
               (StaticJsonDocument.set "led" (JBool (Standalone.ledState s))
                  (StaticJsonDocument.set "uptime" (JInt (now / 1000))
                     (StaticJsonDocument.set "sensor" (JInt (Standalone.sensorValue s))
                        (StaticJsonDocument.declare 256))))))
    with {| StaticJsonDocument.capacity := 256; StaticJsonDocument.usage := 80;
            StaticJsonDocument.members :=
              [("sensor", JInt (Standalone.sensorValue s));
               ("uptime", JInt (now / 1000));
               ("led", JBool (Standalone.ledState s));
               ("relay", JBool (Standalone.relayState s));
               ("mode", JNull)] |}.
  change (StaticJsonDocument.has_member "mode"
            {| StaticJsonDocument.capacity := 256; StaticJsonDocument.usage := 80;
               StaticJsonDocument.members :=
                 [("sensor", JInt (Standalone.sensorValue s));
                  ("uptime", JInt (now / 1000));
                  ("led", JBool (Standalone.ledState s));
                  ("relay", JBool (Standalone.relayState s));
                  ("mode", JNull)] |})
    with true.
  cbn [StaticJsonDocument.members StaticJsonDocument.usage StaticJsonDocument.capacity andb].
  destruct (80 + (Z.of_nat (String.length (Standalone.projectMode s)) + 1) <=? 256);
    reflexivity.
Qed.

(** X14. What a control request of the stand-alone sketch stores, the
    next status request reports: the status document has the keys sensor,
    uptime, led, relay and mode, with the current values and the clock in
    whole seconds, and the status request changes nothing. The mode is
    reported in full when it has fewer than 176 characters, which is what
    the 256-byte document has room for next to its five members, and as
    null otherwise. A mode request stores its parameter, an LED request
    the LED state, and a relay request in manual mode the relay state. *)
Theorem standalone_status_round_trip (g : Standalone.globals) (q : request) (now : Z) :
  (forall s,
     exists doc,
       Standalone.handleStatus now s
       = (Some tt, s, [Send 200 "application/json" (SerializeJson doc)]) /\
       json_keys doc = ["sensor"; "uptime"; "led"; "relay"; "mode"] /\
       json_get "sensor" doc = Some (JInt (Standalone.sensorValue s)) /\
       json_get "uptime" doc = Some (JInt (now / 1000)) /\
       json_get "led" doc = Some (JBool (Standalone.ledState s)) /\
       json_get "relay" doc = Some (JBool (Standalone.relayState s)) /\
       ((String.length (Standalone.projectMode s) < 176)%nat ->
        json_get "mode" doc = Some (JString (Standalone.projectMode s))) /\
       ((176 <= String.length (Standalone.projectMode s))%nat ->
        json_get "mode" doc = Some JNull)) /\
  (hasArg "mode" (req_args q) = true ->
   Standalone.projectMode (final (Standalone.handleMode q g)) = arg "mode" (req_args q)) /\
  (hasArg "state" (req_args q) = true ->
   Standalone.ledState (final (Standalone.handleLED q g)) = requested_state q /\
   (c_str (Standalone.projectMode g) = "manual" ->
    Standalone.relayState (final (Standalone.handleRelay q g)) = requested_state q)).
Proof.
  split; [|split].
  - intros s. eexists. split; [apply standalone_handleStatus_run|].
    split; [reflexivity|]. split; [reflexivity|]. split; [reflexivity|].
    split; [reflexivity|]. split; [reflexivity|].
    change (json_get "mode"
              [("sensor", JInt (Standalone.sensorValue s));
               ("uptime", JInt (now / 1000));
               ("led", JBool (Standalone.ledState s));
               ("relay", JBool (Standalone.relayState s));
               ("mode",
                if 80 + (Z.of_nat (String.length (Standalone.projectMode s)) + 1) <=? 256
                then JString (Standalone.projectMode s)
                else JNull)])
      with (Some (if 80 + (Z.of_nat (String.length (Standalone.projectMode s)) + 1) <=? 256
                  then JString (Standalone.projectMode s)
                  else JNull)).
    split; intros Hlen;
      destruct (Z.leb_spec (80 + (Z.of_nat (String.length (Standalone.projectMode s)) + 1))
                  256); (reflexivity || lia).
  - intros Harg. rewrite (standalone_handleMode_run _ _ Harg). reflexivity.
  - intros Harg. split.
    + unfold Standalone.handleLED. rewrite Harg. reflexivity.
    + intros Hmode. apply String_equals_true in Hmode.
      rewrite (standalone_handleRelay_manual _ _ Harg Hmode). reflexivity.
Qed.

Lemma standalone_status_round_trip_witness :
  Standalone.projectMode
    (final (Standalone.handleMode (GET "/api/mode" [("mode", "sleep")]) standalone_ready))
  = "sleep".
Proof.
  destruct (standalone_status_round_trip standalone_ready
              (GET "/api/mode" [("mode", "sleep")]) 0) as (_ & H & _).
  apply H. reflexivity.
Defined.

(** What a pass of the stand-alone [loop()] does once the listener was
    polled. *)
Lemma standalone_pass_after_poll (i : Standalone.pass) (g g1 : Standalone.globals)
    (t1 : list event) :
  handleClient (Standalone.server g) (Standalone.pending i) (Standalone.dispatch i) g
  = (Some tt, g1, t1) ->
  exists g' t,
    Standalone.loop i g = (Some tt, g', t) /\
    responses t = responses t1 /\
    Standalone.server g' = Standalone.server g1 /\
    Standalone.projectMode g' = Standalone.projectMode g1 /\
    Standalone.ledState g' = Standalone.ledState g1 /\
    Standalone.relayState g'
    = (if String_equals (Standalone.projectMode g1) "auto"
       then Standalone.sensorValue g' >? 2000
       else Standalone.relayState g1) /\
    (String_equals (Standalone.projectMode g1) "auto" = false -> t = t1).
Proof.
  intros Hpoll. unfold Standalone.loop. unfold bind at 1, get at 1.
  unfold bind at 1. rewrite Hpoll. clear Hpoll.
  destruct g1 as [srv wf led relay v mo lr]. unfold Standalone.hw.
  run_monad.
  destruct (elapsed (Standalone.millis_test i) lr >? 500); run_monad;
    destruct (String_equals mo "auto"); run_monad.
  - destruct (Standalone.adc i >? 2000) eqn:Hv; run_monad;
      do 2 eexists; (split; [reflexivity|]); simpl; rewrite ?Hv; repeat split;
      try discriminate; rewrite responses_app; apply app_nil_r.
  - do 2 eexists; (split; [reflexivity|]); simpl; repeat split;
      rewrite ?app_nil_r; reflexivity.
  - destruct (v >? 2000) eqn:Hv; run_monad;
      do 2 eexists; (split; [reflexivity|]); simpl; rewrite ?Hv; repeat split;
      try discriminate; rewrite responses_app; apply app_nil_r.
  - do 2 eexists; (split; [reflexivity|]); simpl; repeat split;
      rewrite ?app_nil_r; reflexivity.
Qed.

(** X15. The stand-alone sketch serves GET requests only, on its six
    paths: a request with another method, even for a registered path, is
    answered 404 by the library, no handler runs, and the LED, the mode
    and the routes are as before. *)
Theorem standalone_serves_get_only (i : Standalone.pass) (g : Standalone.globals)
    (q : request) :
  Standalone.server g = Standalone.server standalone_ready ->
  Standalone.pending i = Some q ->
  req_method q <> HTTP_GET ->
  outcome (Standalone.loop i g) = Some tt /\
  responses (trace (Standalone.loop i g))
  = [(404, "text/plain", Literal ("Not found: " ++ req_uri q))] /\
  Standalone.ledState (final (Standalone.loop i g)) = Standalone.ledState g /\
  Standalone.projectMode (final (Standalone.loop i g)) = Standalone.projectMode g /\
  Standalone.server (final (Standalone.loop i g)) = Standalone.server g /\
  map (fun r => (r_uri r, r_method r)) (ws_routes (Standalone.server g))
  = [("/", Some HTTP_GET); ("/api/status", Some HTTP_GET); ("/api/led", Some HTTP_GET);
     ("/api/relay", Some HTTP_GET); ("/api/mode", Some HTTP_GET);
     ("/api/reset", Some HTTP_GET)].
Proof.
  intros Hsrv Hp Hm.
  assert (Hroute : find_route (Standalone.server g) q = None).
  { rewrite Hsrv. unfold find_route, route_matches.
    cbn [standalone_ready ws_routes find r_uri r_method r_handler].
    assert (Hne : http_method_eqb HTTP_GET (req_method q) = false)
      by (destruct (req_method q); [contradiction|reflexivity|reflexivity]).
    vm_compute ws_routes. cbn [find r_uri r_method r_handler].
    rewrite Hne. rewrite !andb_false_r. reflexivity. }
  assert (Hpoll : handleClient (Standalone.server g) (Standalone.pending i)
                    (Standalone.dispatch i) g
                  = (Some tt, g, [Send 404 "text/plain"
                                    (Literal ("Not found: " ++ req_uri q))])).
  { assert (Hl : ws_listening (Standalone.server g) = true)
      by (rewrite Hsrv; reflexivity).
    rewrite Hp. unfold handleClient. rewrite Hl, Hroute. reflexivity. }
  destruct (standalone_pass_after_poll i g g _ Hpoll)
    as (g' & t & Hrun & Hresp & Hs & Hmo & Hled & _).
  rewrite Hrun. unfold outcome, trace, final; simpl fst; simpl snd.
  repeat split; try assumption.
  rewrite Hsrv. reflexivity.
Qed.

Lemma standalone_serves_get_only_witness :
  responses (trace (Standalone.loop
                      {| Standalone.pending :=
                           Some {| req_method := HTTP_POST; req_uri := "/api/led";
                                   req_args := [("state", "1")] |};
                         Standalone.millis_status := 0; Standalone.millis_test := 0;
                         Standalone.millis_stamp := 0; Standalone.adc := 0 |}
                      standalone_ready))
  = [(404, "text/plain", Literal "Not found: /api/led")].
Proof.
  destruct (standalone_serves_get_only
              {| Standalone.pending :=
                   Some {| req_method := HTTP_POST; req_uri := "/api/led";
                           req_args := [("state", "1")] |};
                 Standalone.millis_status := 0; Standalone.millis_test := 0;
                 Standalone.millis_stamp := 0; Standalone.adc := 0 |}
              standalone_ready
              {| req_method := HTTP_POST; req_uri := "/api/led";
                 req_args := [("state", "1")] |}) as (_ & H & _).
  - reflexivity.
  - reflexivity.
  - discriminate.
  - exact H.
Defined.

Lemma standalone_idle_passes (passes : list Standalone.pass) :
  forall g : Standalone.globals,
    Forall (fun i => Standalone.pending i = None) passes ->
    String_equals (Standalone.projectMode g) "auto" = false ->
    List.length (standalone_run passes g) = List.length passes /\
    Forall (fun g' => Standalone.relayState g' = Standalone.relayState g /\
                      Standalone.ledState g' = Standalone.ledState g /\
                      Standalone.projectMode g' = Standalone.projectMode g)
      (standalone_run passes g).
Proof.
  induction passes as [|i rest IH]; intros g Hidle Hmode.
  - split; [reflexivity | constructor].
  - inversion Hidle as [|? ? Hi Hrest]; subst.
    simpl. rewrite (standalone_loop_idle i g Hi Hmode).
    set (g1 := if elapsed (Standalone.millis_test i) (Standalone.lastRead g) >? 500
               then Standalone.set_lastRead (Standalone.millis_stamp i)
                      (Standalone.set_sensorValue (Standalone.adc i) g)
               else g).
    assert (Hsame : Standalone.relayState g1 = Standalone.relayState g /\
                    Standalone.ledState g1 = Standalone.ledState g /\
                    Standalone.projectMode g1 = Standalone.projectMode g)
      by (unfold g1; destruct (elapsed _ _ >? 500); repeat split).
    destruct Hsame as (Hr & Hl & Hm).
    destruct (IH g1 Hrest) as (Hlen & Hall); [rewrite Hm; exact Hmode|].
    simpl. rewrite Hlen. split; [reflexivity|].
    constructor; [repeat split; assumption|].
    rewrite Hr, Hl, Hm in Hall. exact Hall.
Qed.

(** X16. In the stand-alone sketch a relay state set in manual mode is
    kept: after a relay request in manual mode the relay has the requested
    value, and through any number of following passes with no request,
    whatever the sensor reads, the relay, the LED and the mode stay as
    they are and every pass runs to its end. *)
Theorem standalone_manual_relay_kept (g : Standalone.globals) (q : request)
    (passes : list Standalone.pass) :
  hasArg "state" (req_args q) = true ->
  Standalone.projectMode g = "manual" ->
  Forall (fun i => Standalone.pending i = None) passes ->
  List.length (standalone_run passes (final (Standalone.handleRelay q g)))
  = List.length passes /\
  Forall (fun g' => Standalone.relayState g' = requested_state q /\
                    Standalone.projectMode g' = "manual")
    (standalone_run passes (final (Standalone.handleRelay q g))).
Proof.
  intros Harg Hmode Hidle.
  assert (Hm : String_equals (Standalone.projectMode g) "manual" = true)
    by (rewrite Hmode; reflexivity).
  rewrite (standalone_handleRelay_manual _ _ Harg Hm).
  unfold final; simpl fst; simpl snd.
  destruct (standalone_idle_passes passes
              (Standalone.set_relayState (requested_state q) g) Hidle)
    as (Hlen & Hall).
  - simpl. rewrite Hmode. reflexivity.
  - split; [exact Hlen|].
    eapply Forall_impl; [|exact Hall].
    intros g' (Hr & _ & Hmo). simpl in Hr, Hmo. rewrite Hr, Hmo, Hmode. split; reflexivity.
Qed.

Lemma standalone_manual_relay_kept_witness :
  map Standalone.relayState
    (standalone_run [standalone_sample 1000 100; standalone_sample 2000 4000]
       (final (Standalone.handleRelay (GET "/api/relay" [("state", "1")])
                 (final (Standalone.handleMode (GET "/api/mode" [("mode", "manual")])
                           standalone_ready)))))
  = [true; true].
Proof.
  destruct (standalone_manual_relay_kept
              (final (Standalone.handleMode (GET "/api/mode" [("mode", "manual")])
                        standalone_ready))
              (GET "/api/relay" [("state", "1")])
              [standalone_sample 1000 100; standalone_sample 2000 4000])
    as (_ & Hall).
  - reflexivity.
  - reflexivity.
  - repeat constructor.
  - reflexivity.
Defined.

(** ** Further properties of the temperature monitor *)

(** X17. In auto mode a failed sensor read switches a running fan off:
    the zero that replaces the reading is below the lower threshold, so in
    the same pass the fan variable goes off and the pin is written low.
    The heat index on the dashboard is not touched and keeps the value of
    the last successful read, next to the zeroed temperature and
    humidity. *)
Theorem failed_read_stops_fan
    (computeHeatIndex : spec_float -> spec_float -> bool -> spec_float)
    (i : TempMonitor.pass) (w : TempMonitor.World) :
  TempMonitor.pending i = None ->
  elapsed (TempMonitor.millis_test i) (TempMonitor.lastRead (WebDashboard.app w)) > 2000 ->
  isnan (TempMonitor.readTemperature i) = true \/ isnan (TempMonitor.readHumidity i) = true ->
  TempMonitor.mode (WebDashboard.app w) = "auto" ->
  TempMonitor.fanState (WebDashboard.app w) = true ->
  outcome (TempMonitor.loop computeHeatIndex i w) = Some tt /\
  TempMonitor.fanState (WebDashboard.app (final (TempMonitor.loop computeHeatIndex i w)))
  = false /\
  OutputStates.output1
    (TempMonitor.outputs (WebDashboard.app (final (TempMonitor.loop computeHeatIndex i w))))
  = false /\
  hardware (trace (TempMonitor.loop computeHeatIndex i w))
  = [SerialPrintln "Failed to read from DHT sensor!";
     DigitalWrite TempMonitor.LED_PIN LOW;
     SerialPrintf ("Auto: Fan OFF (temp: %.1f°C)" ++ nl) [ArgFloat (float_of_Z 0)];
     DelayMs 10] /\
  SensorData.value3
    (TempMonitor.sensors (WebDashboard.app (final (TempMonitor.loop computeHeatIndex i w))))
  = SensorData.value3 (TempMonitor.sensors (WebDashboard.app w)).
Proof.
  intros Hp Hdue Hnan Hmode Hfan.
  assert (Hdue' : (elapsed (TempMonitor.millis_test i)
                     (TempMonitor.lastRead (WebDashboard.app w)) >? 2000) = true)
    by (apply Z.gtb_lt; lia).
  assert (Hnan' : isnan (TempMonitor.readTemperature i) || isnan (TempMonitor.readHumidity i)
                  = true) by (apply orb_true_iff; exact Hnan).
  assert (Hrun : exists w',
             TempMonitor.loop computeHeatIndex i w
             = (Some tt, w',
                [Hw (SerialPrintln "Failed to read from DHT sensor!");
                 Hw (DigitalWrite TempMonitor.LED_PIN LOW);
                 Hw (SerialPrintf ("Auto: Fan OFF (temp: %.1f°C)" ++ nl)
                       [ArgFloat (float_of_Z 0)]);
                 Hw (DelayMs 10)]) /\
             TempMonitor.fanState (WebDashboard.app w') = false /\
             OutputStates.output1 (TempMonitor.outputs (WebDashboard.app w')) = false /\
             SensorData.value3 (TempMonitor.sensors (WebDashboard.app w'))
             = SensorData.value3 (TempMonitor.sensors (WebDashboard.app w))).
  { unfold TempMonitor.loop. unfold bind at 1. rewrite Hp, loop_idle.
    destruct w as [d g wf]. destruct g as [se ou sy te hu fan mo lr].
    simpl in Hdue', Hmode, Hfan. subst mo fan.
    unfold TempMonitor.fn, WebDashboard.hw, WebDashboard.on_dash.
    run_monad. rewrite Hdue'. run_monad. rewrite Hnan'. run_monad.
    eexists. split; [reflexivity|]. repeat split. }
  destruct Hrun as (w' & Hrun & Hf & Ho & Hv).
  rewrite Hrun. unfold outcome, trace, final; simpl fst; simpl snd.
  repeat split; assumption.
Qed.

Lemma failed_read_stops_fan_witness :
  TempMonitor.fanState
    (WebDashboard.app
       (final (TempMonitor.loop (fun t _ _ => t)
                 (monitor_sample 5000 S754_nan (float_of_Z 40))
                 (WebDashboard.set_app
                    (TempMonitor.set_fanState true (WebDashboard.app monitor_ready))
                    monitor_ready))))
  = false.
Proof.
  destruct (failed_read_stops_fan (fun t _ _ => t)
              (monitor_sample 5000 S754_nan (float_of_Z 40))
              (WebDashboard.set_app
                 (TempMonitor.set_fanState true (WebDashboard.app monitor_ready))
                 monitor_ready)) as (_ & H & _).
  - reflexivity.
  - reflexivity.
  - left. reflexivity.
  - reflexivity.
  - reflexivity.
  - exact H.
Defined.

(** X18. A pass of the monitor's [loop()] with no request in which both
    readings are numbers stores them, computes the heat index from them
    (in Celsius) and shows all three on the dashboard; nothing is logged
    as failed, the pass returns, and the dashboard also mirrors the fan
    state and the mode. *)
Theorem successful_read_is_shown
    (computeHeatIndex : spec_float -> spec_float -> bool -> spec_float)
    (i : TempMonitor.pass) (w : TempMonitor.World) :
  TempMonitor.pending i = None ->
  elapsed (TempMonitor.millis_test i) (TempMonitor.lastRead (WebDashboard.app w)) > 2000 ->
  isnan (TempMonitor.readTemperature i) = false ->
  isnan (TempMonitor.readHumidity i) = false ->
  exists w',
    final (TempMonitor.loop computeHeatIndex i w) = w' /\
    outcome (TempMonitor.loop computeHeatIndex i w) = Some tt /\
    TempMonitor.temperature (WebDashboard.app w') = TempMonitor.readTemperature i /\
    TempMonitor.humidity (WebDashboard.app w') = TempMonitor.readHumidity i /\
    SensorData.value1 (TempMonitor.sensors (WebDashboard.app w'))
    = TempMonitor.readTemperature i /\
    SensorData.value2 (TempMonitor.sensors (WebDashboard.app w'))
    = TempMonitor.readHumidity i /\
    SensorData.value3 (TempMonitor.sensors (WebDashboard.app w'))
    = computeHeatIndex (TempMonitor.readTemperature i) (TempMonitor.readHumidity i) false /\
    OutputStates.output1 (TempMonitor.outputs (WebDashboard.app w'))
    = TempMonitor.fanState (WebDashboard.app w') /\
    SystemInfo.mode (TempMonitor.systemInfo (WebDashboard.app w'))
    = TempMonitor.mode (WebDashboard.app w') /\
    TempMonitor.lastRead (WebDashboard.app w') = TempMonitor.millis_stamp i /\
    json_keys (WebDashboard.status_doc w') = ["sensors"; "outputs"; "system"] /\
    ~ In (Hw (SerialPrintln "Failed to read from DHT sensor!"))
         (trace (TempMonitor.loop computeHeatIndex i w)).
Proof.
  intros Hp Hdue Ht Hh.
  assert (Hdue' : (elapsed (TempMonitor.millis_test i)
                     (TempMonitor.lastRead (WebDashboard.app w)) >? 2000) = true)
    by (apply Z.gtb_lt; lia).
  eexists. split; [reflexivity|].
  destruct (TempMonitor.loop computeHeatIndex i w) as [[ro rw] rt] eqn:Hrun.
  unfold outcome, trace, final; simpl fst; simpl snd.
  revert Hrun.
  unfold TempMonitor.loop. unfold bind at 1. rewrite Hp, loop_idle.
  destruct w as [d g wf]. destruct g as [se ou sy te hu fan mo lr].
  simpl in Hdue'.
  unfold TempMonitor.fn, WebDashboard.hw, WebDashboard.on_dash.
  run_monad. rewrite Hdue'. run_monad. rewrite Ht, Hh. run_monad.
  destruct (String.eqb mo "auto"); run_monad.
  - destruct (SFltb TempMonitor.TEMP_THRESHOLD (TempMonitor.readTemperature i) && negb fan);
      run_monad.
    + intros Hrun. injection Hrun as <- <- <-. simpl.
      repeat (split; [reflexivity|]). absent_from_trace.
    + destruct (SFltb _ _ && fan); run_monad;
        (intros Hrun; injection Hrun as <- <- <-; simpl;
         repeat (split; [reflexivity|]); absent_from_trace).
  - intros Hrun. injection Hrun as <- <- <-. simpl.
    repeat (split; [reflexivity|]). absent_from_trace.
Qed.

Lemma successful_read_is_shown_witness :
  TempMonitor.temperature
    (WebDashboard.app
       (final (TempMonitor.loop (fun t _ _ => t)
                 (monitor_sample 5000 (float_of_Z 30) (float_of_Z 40)) monitor_ready)))
  = float_of_Z 30.
Proof.
  destruct (successful_read_is_shown (fun t _ _ => t)
              (monitor_sample 5000 (float_of_Z 30) (float_of_Z 40)) monitor_ready)
    as (w' & Hw' & _ & Ht & _).
  - reflexivity.
  - reflexivity.
  - reflexivity.
  - reflexivity.
  - rewrite Hw'. exact Ht.
Defined.

(** ** Properties of the light sensor sketch *)

Lemma store_length (i : nat) (v : Z) (a : list Z) :
  List.length (LightSensor.store i v a) = List.length a.
Proof.
  revert i. induction a as [|x a IH]; intros [|i]; simpl; auto.
Qed.

Lemma store_nth_same (i : nat) (v d : Z) (a : list Z) :
  (i < List.length a)%nat -> nth i (LightSensor.store i v a) d = v.
Proof.
  revert i. induction a as [|x a IH]; intros [|i] Hi; simpl in *; try lia; auto.
  apply IH. lia.
Qed.

Lemma store_nth_other (i j : nat) (v d : Z) (a : list Z) :
  i <> j -> nth j (LightSensor.store i v a) d = nth j a d.
Proof.
  revert i j. induction a as [|x a IH]; intros [|i] [|j] Hij; simpl; auto; try lia.
Qed.

(** What one call of [readLightSensor()] computes. *)
Lemma readLightSensor_run (v : Z) (g : LightSensor.globals) :
  exists g',
    LightSensor.readLightSensor v g = (Some tt, g', []) /\
    LightSensor.lightSamples g'
    = LightSensor.store (Z.to_nat (LightSensor.sampleIndex g)) v (LightSensor.lightSamples g) /\
    LightSensor.sampleIndex g' = Z.rem (LightSensor.sampleIndex g + 1) 10 /\
    LightSensor.lightRawValue g'
    = LightSensor.sum_from 10 0 (LightSensor.lightSamples g') 0 ÷ 10 /\
    LightSensor.lightPercent g'
    = constrain (map_range (LightSensor.lightRawValue g') 4095 0 0 100) 0 100 /\
    LightSensor.lightStatus g'
    = (if LightSensor.lightRawValue g' >=? 3000 then "PIMEA"
       else if LightSensor.lightRawValue g' >=? 2000 then "HIMMEA"
       else if LightSensor.lightRawValue g' >=? 500 then "VALOISA"
       else "KIRKAS") /\
    LightSensor.currentMode g' = LightSensor.currentMode g /\
    LightSensor.ledState g' = LightSensor.ledState g /\
    LightSensor.outputs g' = LightSensor.outputs g /\
    LightSensor.sensors g' = LightSensor.sensors g /\
    LightSensor.systemInfo g' = LightSensor.systemInfo g.
Proof.
  destruct g as [se ou sy mo led raw pc st ls ix lsr ldu ldp].
  unfold LightSensor.readLightSensor.
  cbv beta iota delta [bind ret get modify emit when].
  cbn [LightSensor.lightSamples LightSensor.sampleIndex LightSensor.lightRawValue
       LightSensor.lightPercent LightSensor.lightStatus LightSensor.currentMode
       LightSensor.ledState LightSensor.outputs LightSensor.sensors LightSensor.systemInfo
       LightSensor.set_lightSamples LightSensor.set_sampleIndex
       LightSensor.set_lightRawValue LightSensor.set_lightPercent
       LightSensor.set_lightStatus app fst snd].
  set (ls' := LightSensor.store (Z.to_nat ix) v ls).
  set (raw' := LightSensor.sum_from (Z.to_nat LightSensor.NUM_SAMPLES) 0 ls' 0
               ÷ LightSensor.NUM_SAMPLES).
  change (LightSensor.sum_from 10 0 ls' 0 ÷ 10) with raw'.
  change LightSensor.LIGHT_THRESHOLD_DARK with 3000.
  change LightSensor.LIGHT_THRESHOLD_DIM with 2000.
  change LightSensor.LIGHT_THRESHOLD_BRIGHT with 500.
  destruct (raw' >=? 3000) eqn:E1;
    [|destruct (raw' >=? 2000) eqn:E2; [|destruct (raw' >=? 500) eqn:E3]];
    eexists; (split; [reflexivity|]);
    cbn [LightSensor.lightSamples LightSensor.sampleIndex LightSensor.lightRawValue
         LightSensor.lightPercent LightSensor.lightStatus LightSensor.currentMode
         LightSensor.ledState LightSensor.outputs LightSensor.sensors
         LightSensor.systemInfo
         LightSensor.set_lightSamples LightSensor.set_sampleIndex
         LightSensor.set_lightRawValue LightSensor.set_lightPercent
         LightSensor.set_lightStatus];
    rewrite ?E1, ?E2, ?E3; repeat split.
Qed.

Lemma light_read_final (v : Z) (g : LightSensor.globals) :
  LightSensor.readLightSensor v g
  = (Some tt, final (LightSensor.readLightSensor v g), []).
Proof.
  destruct (readLightSensor_run v g) as (g' & Hrun & _). rewrite Hrun. reflexivity.
Qed.

Lemma buffer_ok_read (v : Z) (g : LightSensor.globals) :
  buffer_ok g -> buffer_ok (final (LightSensor.readLightSensor v g)).
Proof.
  intros (Hlen & Hix).
  destruct (readLightSensor_run v g) as (g' & Hrun & Hs & Hi & _).
  rewrite Hrun. unfold final; simpl. split.
  - rewrite Hs, store_length. exact Hlen.
  - rewrite Hi. apply Z.rem_bound_pos; lia.
Qed.

(** X19. The sample array of the light sensor is a ring buffer that is
    never written out of bounds. As long as the array has its ten slots
    and the index points into it (as after [setup()]), a read stores the
    new reading at the index, leaves the other nine slots alone and
    advances the index by one modulo ten; this holds again after the
    read, hence after any number of reads. *)
Theorem light_ring_buffer (v : Z) (readings : list Z) (g : LightSensor.globals) :
  buffer_ok g ->
  nth (Z.to_nat (LightSensor.sampleIndex g))
    (LightSensor.lightSamples (final (LightSensor.readLightSensor v g))) 0 = v /\
  (forall j,
     j <> Z.to_nat (LightSensor.sampleIndex g) ->
     nth j (LightSensor.lightSamples (final (LightSensor.readLightSensor v g))) 0
     = nth j (LightSensor.lightSamples g) 0) /\
  LightSensor.sampleIndex (final (LightSensor.readLightSensor v g))
  = (LightSensor.sampleIndex g + 1) mod 10 /\
  buffer_ok (light_reads g readings).
Proof.
  intros Hok. pose proof Hok as (Hlen & Hix).
  destruct (readLightSensor_run v g) as (g' & Hrun & Hs & Hi & _).
  rewrite Hrun. unfold final; simpl fst; simpl snd. rewrite Hs, Hi.
  split; [apply store_nth_same; lia|].
  split; [intros j Hj; apply store_nth_other; congruence|].
  split; [apply Z.rem_mod_nonneg; lia|].
  clear g' Hrun Hs Hi Hlen Hix. revert g Hok.
  induction readings as [|r rest IH]; intros g Hok; cbn [light_reads]; [exact Hok|].
  apply IH. apply buffer_ok_read. exact Hok.
Qed.

Lemma light_ring_buffer_witness :
  LightSensor.lightSamples (light_reads (WebDashboard.app light_ready) [700; 800; 900])
  = [700; 800; 900; 0; 0; 0; 0; 0; 0; 0] /\
  buffer_ok (light_reads (WebDashboard.app light_ready) [700; 800; 900]).
Proof.
  destruct (light_ring_buffer 700 [700; 800; 900] (WebDashboard.app light_ready))
    as (_ & _ & _ & H).
  - split; [reflexivity | vm_compute; split; [discriminate | reflexivity]].
  - split; [reflexivity | exact H].
Defined.

Lemma constrain_range (x : Z) : 0 <= constrain x 0 100 <= 100.
Proof.
  unfold constrain.
  destruct (Z.ltb_spec x 0); [lia|]. destruct (Z.gtb_spec x 100); lia.
Qed.

(** X20. The light percentage is always a percentage: after every read,
    whatever the reading and whatever the buffer held, [lightPercent] lies
    between 0 and 100. For an average within the range of the converter it
    is the share of light, (4095 - raw) * 100 / 4095 rounded down; an
    average at or below zero gives 100 and one at or above 4095 gives 0. *)
Theorem light_percent_in_range (v : Z) (g : LightSensor.globals) :
  0 <= LightSensor.lightPercent (final (LightSensor.readLightSensor v g)) <= 100 /\
  (0 <= LightSensor.lightRawValue (final (LightSensor.readLightSensor v g)) <= 4095 ->
   LightSensor.lightPercent (final (LightSensor.readLightSensor v g))
   = (4095 - LightSensor.lightRawValue (final (LightSensor.readLightSensor v g))) * 100
     / 4095) /\
  (LightSensor.lightRawValue (final (LightSensor.readLightSensor v g)) <= 0 ->
   LightSensor.lightPercent (final (LightSensor.readLightSensor v g)) = 100) /\
  (4095 <= LightSensor.lightRawValue (final (LightSensor.readLightSensor v g)) ->
   LightSensor.lightPercent (final (LightSensor.readLightSensor v g)) = 0).
Proof.
  destruct (readLightSensor_run v g) as (g' & Hrun & _ & _ & _ & Hp & _).
  rewrite Hrun. unfold final; simpl fst; simpl snd. rewrite Hp.
  set (raw := LightSensor.lightRawValue g').
  assert (Hmap : map_range raw 4095 0 0 100 = (4095 - raw) * 100 ÷ 4095).
  { unfold map_range. rewrite Z.add_0_r.
    replace ((raw - 4095) * (100 - 0)) with (- ((4095 - raw) * 100)) by lia.
    replace (0 - 4095) with (- 4095) by lia.
    exact (Z.quot_opp_opp ((4095 - raw) * 100) 4095 ltac:(lia)). }
  split; [apply constrain_range|].
  rewrite Hmap. unfold constrain.
  split; [|split]; intros Hraw.
  - rewrite Z.quot_div_nonneg by lia.
    assert (0 <= (4095 - raw) * 100 / 4095 <= 100).
    { split; [apply Z.div_pos; lia|]. apply Z.div_le_upper_bound; lia. }
    destruct (Z.ltb_spec ((4095 - raw) * 100 / 4095) 0); [lia|].
    destruct (Z.gtb_spec ((4095 - raw) * 100 / 4095) 100); [lia|reflexivity].
  - rewrite Z.quot_div_nonneg by lia.
    assert (100 <= (4095 - raw) * 100 / 4095) by (apply Z.div_le_lower_bound; lia).
    destruct (Z.ltb_spec ((4095 - raw) * 100 / 4095) 0); [lia|].
    destruct (Z.gtb_spec ((4095 - raw) * 100 / 4095) 100); [reflexivity|lia].
  - assert ((4095 - raw) * 100 ÷ 4095 <= 0).
    { replace ((4095 - raw) * 100) with (- ((raw - 4095) * 100)) by lia.
      rewrite Z.quot_opp_l by lia.
      pose proof (Z.quot_pos ((raw - 4095) * 100) 4095). lia. }
    destruct (Z.ltb_spec ((4095 - raw) * 100 ÷ 4095) 0); [reflexivity|].
    destruct (Z.gtb_spec ((4095 - raw) * 100 ÷ 4095) 100); lia.
Qed.

Lemma light_percent_in_range_witness :
  LightSensor.lightRawValue
    (final (LightSensor.readLightSensor 2000 (WebDashboard.app light_ready))) = 200 /\
  LightSensor.lightPercent
    (final (LightSensor.readLightSensor 2000 (WebDashboard.app light_ready))) = 95.
Proof.
  destruct (light_percent_in_range 2000 (WebDashboard.app light_ready)) as (_ & H & _).
  split; [reflexivity|].
  rewrite H; [reflexivity|]. vm_compute. split; discriminate.
Defined.

Lemma store_Forall (P : Z -> Prop) (i : nat) (v : Z) (a : list Z) :
  P v -> Forall P a -> Forall P (LightSensor.store i v a).
Proof.
  intros Hv. revert i. induction a as [|x a IH]; intros i Ha; simpl.
  - destruct i; constructor.
  - inversion Ha; subst. destruct i; constructor; auto.
Qed.

Lemma sum_from_bounds (lo hi : Z) (a : list Z) :
  List.length a = 10%nat ->
  Forall (fun x => lo <= x <= hi) a ->
  10 * lo <= LightSensor.sum_from 10 0 a 0 <= 10 * hi.
Proof.
  intros Hlen Hall.
  do 10 (destruct a as [|? a]; [discriminate Hlen|]).
  destruct a; [|discriminate Hlen].
  repeat match goal with
         | H : Forall _ (_ :: _) |- _ => inversion H; clear H; subst
         end.
  cbv [LightSensor.sum_from nth]. lia.
Qed.

(** X21. The averaged reading stays within the range of what was
    measured: with the buffer whole, if the ten stored samples and the new
    reading all lie between two non-negative bounds, so does
    [lightRawValue] after the read. In particular readings of the 12-bit
    converter, from 0 to 4095, give an average from 0 to 4095. *)
Theorem light_average_bounded (v lo hi : Z) (g : LightSensor.globals) :
  buffer_ok g ->
  0 <= lo ->
  Forall (fun x => lo <= x <= hi) (LightSensor.lightSamples g) ->
  lo <= v <= hi ->
  lo <= LightSensor.lightRawValue (final (LightSensor.readLightSensor v g)) <= hi /\
  Forall (fun x => lo <= x <= hi)
    (LightSensor.lightSamples (final (LightSensor.readLightSensor v g))).
Proof.
  intros (Hlen & Hix) Hlo Hall Hv.
  destruct (readLightSensor_run v g) as (g' & Hrun & Hs & _ & Hraw & _).
  rewrite Hrun. unfold final; simpl fst; simpl snd.
  assert (Hall' : Forall (fun x => lo <= x <= hi) (LightSensor.lightSamples g'))
    by (rewrite Hs; apply store_Forall; assumption).
  split; [|exact Hall'].
  assert (Hlen' : List.length (LightSensor.lightSamples g') = 10%nat)
    by (rewrite Hs, store_length; exact Hlen).
  pose proof (sum_from_bounds lo hi _ Hlen' Hall') as Hsum.
  rewrite Hraw, Z.quot_div_nonneg by lia.
  split.
  - apply Z.div_le_lower_bound; lia.
  - apply Z.div_le_upper_bound; lia.
Qed.

Lemma light_average_bounded_witness :
  0 <= LightSensor.lightRawValue
         (final (LightSensor.readLightSensor 4095 (WebDashboard.app light_ready))) <= 4095.
Proof.
  destruct (light_average_bounded 4095 0 4095 (WebDashboard.app light_ready)) as (H & _).
  - split; [reflexivity | vm_compute; split; [discriminate | reflexivity]].
  - lia.
  - vm_compute. repeat constructor; discriminate.
  - lia.
  - exact H.
Defined.

(** The buffer and the index after a sequence of reads. *)
Lemma light_reads_buffer (readings : list Z) :
  forall g,
    (LightSensor.lightSamples (light_reads g readings),
     LightSensor.sampleIndex (light_reads g readings))
    = fold_left
        (fun p v => (LightSensor.store (Z.to_nat (snd p)) v (fst p), Z.rem (snd p + 1) 10))
        readings (LightSensor.lightSamples g, LightSensor.sampleIndex g).
Proof.
  induction readings as [|v rest IH]; intros g; cbn [light_reads fold_left];
    [reflexivity|].
  rewrite IH.
  destruct (readLightSensor_run v g) as (g' & Hrun & Hs & Hi & _).
  rewrite Hrun. unfold final. cbn [fst snd]. rewrite Hs, Hi. reflexivity.
Qed.

(** After at least one read the raw value is the average of the
    buffer. *)
Lemma light_raw_is_average (readings : list Z) :
  forall g,
    readings <> [] ->
    LightSensor.lightRawValue (light_reads g readings)
    = LightSensor.sum_from 10 0 (LightSensor.lightSamples (light_reads g readings)) 0 ÷ 10.
Proof.
  induction readings as [|v rest IH]; intros g Hne; [congruence|].
  cbn [light_reads]. destruct rest as [|v' rest'].
  - cbn [light_reads].
    destruct (readLightSensor_run v g) as (g' & Hrun & _ & _ & Hraw & _).
    rewrite Hrun. exact Hraw.
  - apply IH. discriminate.
Qed.

(** Ten equal values written round the ring fill it and bring the index
    back, whatever the buffer held before. *)
Lemma ring_filled (v idx : Z) (samples : list Z) :
  List.length samples = 10%nat -> 0 <= idx < 10 ->
  fold_left
    (fun p x => (LightSensor.store (Z.to_nat (snd p)) x (fst p), Z.rem (snd p + 1) 10))
    (repeat v 10) (samples, idx)
  = (repeat v 10, idx).
Proof.
  intros Hlen Hix.
  destruct samples as [|x0 a]; [discriminate Hlen|].
  do 9 (destruct a as [|? a]; [discriminate Hlen|]).
  destruct a; [|discriminate Hlen].
  assert (Hcases : idx = 0 \/ idx = 1 \/ idx = 2 \/ idx = 3 \/ idx = 4 \/
                   idx = 5 \/ idx = 6 \/ idx = 7 \/ idx = 8 \/ idx = 9) by lia.
  repeat (destruct Hcases as [Hcases|Hcases]; [subst idx; reflexivity|]).
  subst idx. reflexivity.
Qed.

(** What a full ring of equal values says about any state whose buffer,
    index and raw value are related to it as the reads leave them. *)
Lemma settled_state (v idx : Z) (samples : list Z) (gN : LightSensor.globals) :
  List.length samples = 10%nat -> 0 <= idx < 10 ->
  (LightSensor.lightSamples gN, LightSensor.sampleIndex gN)
  = fold_left
      (fun p x => (LightSensor.store (Z.to_nat (snd p)) x (fst p), Z.rem (snd p + 1) 10))
      (repeat v 10) (samples, idx) ->
  LightSensor.lightRawValue gN
  = LightSensor.sum_from 10 0 (LightSensor.lightSamples gN) 0 ÷ 10 ->
  LightSensor.lightSamples gN = repeat v 10 /\
  LightSensor.lightRawValue gN = v /\
  LightSensor.sampleIndex gN = idx.
Proof.
  intros Hlen Hix Hbuf Hraw.
  rewrite (ring_filled v idx samples Hlen Hix) in Hbuf.
  destruct gN as [g1 g2 g3 g4 g5 g6 g7 g8 g9 g10 g11 g12 g13].
  cbn [LightSensor.lightSamples LightSensor.sampleIndex LightSensor.lightRawValue] in *.
  injection Hbuf as Hs Hi.
  split; [exact Hs|]. split; [|exact Hi].
  rewrite Hraw, Hs. cbv [LightSensor.sum_from nth repeat].
  replace (0 + v + v + v + v + v + v + v + v + v + v) with (v * 10) by lia.
  apply Z.quot_mul. discriminate.
Qed.

(** X22. The average settles within one window: whatever the buffer held
    and wherever the index stood, after ten consecutive reads that return
    the same value [v] every slot holds [v], the averaged reading is
    exactly [v], and the index is back where it was. *)
Theorem light_average_settles (v : Z) (g : LightSensor.globals) :
  buffer_ok g ->
  LightSensor.lightSamples (light_reads g (repeat v 10)) = repeat v 10 /\
  LightSensor.lightRawValue (light_reads g (repeat v 10)) = v /\
  LightSensor.sampleIndex (light_reads g (repeat v 10)) = LightSensor.sampleIndex g.
Proof.
  intros (Hlen & Hix).
  assert (Hne : repeat v 10 <> []) by (cbn [repeat]; discriminate).
  exact (settled_state v (LightSensor.sampleIndex g) (LightSensor.lightSamples g)
           (light_reads g (repeat v 10)) Hlen Hix
           (light_reads_buffer (repeat v 10) g)
           (light_raw_is_average (repeat v 10) g Hne)).
Qed.

Lemma light_average_settles_witness :
  LightSensor.lightRawValue (light_reads (WebDashboard.app light_ready) (repeat 1234 10))
  = 1234.
Proof.
  destruct (light_average_settles 1234 (WebDashboard.app light_ready)) as (_ & H & _).
  - split; [reflexivity | vm_compute; split; [discriminate | reflexivity]].
  - exact H.
Defined.

(** Running the part of a sketch that follows a call that returned. *)
Lemma bind_returns {E S X Y} (m : M E S X) (k : X -> M E S Y) (s s1 s2 : S)
    (x : X) (o : option Y) (t1 t2 : list E) :
  m s = (Some x, s1, t1) ->
  k x s1 = (o, s2, t2) ->
  bind m k s = (o, s2, (t1 ++ t2)%list).
Proof.
  intros Hm Hk. unfold bind. rewrite Hm, Hk. reflexivity.
Qed.

(** A function of the light sensor sketch run on the globals inside the
    world. *)
Lemma light_fn_run (f : LightSensor.Fn) (w : LightSensor.World) (o : option unit)
    (g' : LightSensor.globals) (t : list hw_event) :
  f (WebDashboard.app w) = (o, g', t) ->
  LightSensor.fn f w = (o, WebDashboard.set_app g' w, map Hw t).
Proof.
  intros Hf. unfold LightSensor.fn, zoom. rewrite Hf. reflexivity.
Qed.

(** What [runLightControl()] does, by cases on the mode. *)
Lemma runLightControl_run (g : LightSensor.globals) :
  exists g' t,
    LightSensor.runLightControl g = (Some tt, g', t) /\
    LightSensor.currentMode g' = LightSensor.currentMode g /\
    LightSensor.lightRawValue g' = LightSensor.lightRawValue g /\
    LightSensor.lastDebugPrint g' = LightSensor.lastDebugPrint g /\
    (LightSensor.currentMode g = "auto" ->
     LightSensor.ledState g' = (LightSensor.lightRawValue g >=? 2000) /\
     filter (writes_pin LightSensor.LED_PIN) t
     = (if Bool.eqb (LightSensor.ledState g) (LightSensor.lightRawValue g >=? 2000)
        then []
        else [DigitalWrite LightSensor.LED_PIN (LightSensor.lightRawValue g >=? 2000)]) /\
     (LightSensor.ledState g <> (LightSensor.lightRawValue g >=? 2000) ->
      OutputStates.output1 (LightSensor.outputs g')
      = (LightSensor.lightRawValue g >=? 2000)) /\
     (LightSensor.ledState g = (LightSensor.lightRawValue g >=? 2000) ->
      g' = g /\ t = [])) /\
    (LightSensor.currentMode g <> "auto" -> g' = g /\ t = []).
Proof.
  destruct g as [se ou sy mo led raw pc st ls ix lsr ldu ldp].
  unfold LightSensor.runLightControl.
  cbv beta iota delta [bind ret get modify emit when].
  cbn [LightSensor.currentMode LightSensor.lightRawValue LightSensor.ledState
       LightSensor.lastDebugPrint LightSensor.outputs].
  change LightSensor.LIGHT_THRESHOLD_DIM with 2000.
  destruct (String.eqb_spec mo "auto") as [Hmo|Hmo].
  - destruct (raw >=? 2000), led; cbn;
      do 2 eexists; (split; [reflexivity|]);
      (split; [reflexivity|]); (split; [reflexivity|]); (split; [reflexivity|]);
      (split; [intros _|intros Hne; contradiction]);
      (split; [reflexivity|]); (split; [reflexivity|]);
      (split; [intros Hd; try reflexivity; exfalso; apply Hd; reflexivity|]);
      intros Heq; try discriminate Heq; split; reflexivity.
  - do 2 eexists. split; [reflexivity|].
    split; [reflexivity|]. split; [reflexivity|]. split; [reflexivity|].
    split; [intros Heq; contradiction|]. intros _. split; reflexivity.
Qed.

(** X23. In auto mode the LED of the light sensor follows the light with
    a single threshold: after [runLightControl()] the LED variable is on
    exactly when the averaged reading is at least 2000, the pin is written
    once if that changes the LED and not at all otherwise, and a second
    call changes and writes nothing. Outside auto mode the function does
    nothing. *)
Theorem light_control_follows_light (g : LightSensor.globals) :
  outcome (LightSensor.runLightControl g) = Some tt /\
  (LightSensor.currentMode g = "auto" ->
   LightSensor.ledState (final (LightSensor.runLightControl g))
   = (LightSensor.lightRawValue g >=? 2000) /\
   filter (writes_pin LightSensor.LED_PIN) (trace (LightSensor.runLightControl g))
   = (if Bool.eqb (LightSensor.ledState g) (LightSensor.lightRawValue g >=? 2000)
      then []
      else [DigitalWrite LightSensor.LED_PIN (LightSensor.lightRawValue g >=? 2000)]) /\
   (LightSensor.ledState g <> (LightSensor.lightRawValue g >=? 2000) ->
    OutputStates.output1 (LightSensor.outputs (final (LightSensor.runLightControl g)))
    = (LightSensor.lightRawValue g >=? 2000)) /\
   LightSensor.runLightControl (final (LightSensor.runLightControl g))
   = (Some tt, final (LightSensor.runLightControl g), [])) /\
  (LightSensor.currentMode g <> "auto" ->
   LightSensor.runLightControl g = (Some tt, g, [])).
Proof.
  destruct (runLightControl_run g) as (g' & t & Hrun & Hmo & Hraw & _ & Hauto & Hman).
  rewrite Hrun. unfold outcome, final, trace. cbn [fst snd].
  split; [reflexivity|]. split.
  - intros Hm. destruct (Hauto Hm) as (Hled & Hw & Hout & _).
    split; [exact Hled|]. split; [exact Hw|]. split; [exact Hout|].
    destruct (runLightControl_run g') as (g2 & t2 & Hrun2 & _ & _ & _ & Hauto2 & _).
    rewrite Hmo, Hraw in Hauto2.
    destruct (Hauto2 Hm) as (_ & _ & _ & Hsame).
    destruct (Hsame Hled) as (-> & ->). exact Hrun2.
  - intros Hm. destruct (Hman Hm) as (-> & ->). reflexivity.
Qed.

Lemma light_control_follows_light_witness :
  LightSensor.ledState
    (final (LightSensor.runLightControl
              (light_reads (WebDashboard.app light_ready) (repeat 3500 10))))
  = true.
Proof.
  destruct (light_control_follows_light
              (light_reads (WebDashboard.app light_ready) (repeat 3500 10)))
    as (_ & H & _).
  destruct H as (H & _).
  - reflexivity.
  - exact H.
Defined.

(** The two periodic steps of the light sensor's [loop()] return and do
    not touch the mode or the LED. *)
Lemma light_sensor_step (c : bool) (v stamp : Z) (w : LightSensor.World) :
  exists w2,
    when c (LightSensor.fn (LightSensor.readLightSensor v) ;;
            LightSensor.fn (modify (LightSensor.set_lastSensorRead stamp))) w
    = (Some tt, w2, []) /\
    LightSensor.currentMode (WebDashboard.app w2) = LightSensor.currentMode (WebDashboard.app w) /\
    LightSensor.ledState (WebDashboard.app w2) = LightSensor.ledState (WebDashboard.app w).
Proof.
  destruct c; cbn [when].
  - destruct (readLightSensor_run v (WebDashboard.app w))
      as (g' & Hrun & _ & _ & _ & _ & _ & Hmo & Hled & _).
    eexists. split.
    + etransitivity;
        [eapply bind_returns;
           [exact (light_fn_run _ _ _ _ _ Hrun) | apply light_fn_run; reflexivity]
        |reflexivity].
    + split; [exact Hmo | exact Hled].
  - exists w. split; [reflexivity|]. split; reflexivity.
Qed.

Lemma light_dashboard_step (c : bool) (now stamp : Z) (w : LightSensor.World) :
  exists w3,
    when c (LightSensor.updateDashboardData now ;;
            LightSensor.fn (modify (LightSensor.set_lastDashboardUpdate stamp))) w
    = (Some tt, w3, []) /\
    LightSensor.currentMode (WebDashboard.app w3) = LightSensor.currentMode (WebDashboard.app w) /\
    LightSensor.ledState (WebDashboard.app w3) = LightSensor.ledState (WebDashboard.app w) /\
    LightSensor.lightRawValue (WebDashboard.app w3)
    = LightSensor.lightRawValue (WebDashboard.app w).
Proof.
  destruct w as [d g wf]. destruct g as [se ou sy mo led raw pc st ls ix lsr ldu ldp].
  destruct c; cbn [when].
  - unfold LightSensor.updateDashboardData, LightSensor.fn, WebDashboard.on_dash.
    run_monad. eexists. split; [reflexivity|]. split; [|split]; reflexivity.
  - eexists. split; [reflexivity|]. split; [|split]; reflexivity.
Qed.

Lemma light_debug_step (c : bool) (stamp : Z) (w : LightSensor.World) :
  exists w5 t5,
    (when c (LightSensor.fn LightSensor.printDebugInfo ;;
             LightSensor.fn (modify (LightSensor.set_lastDebugPrint stamp))) ;;
     WebDashboard.hw (DelayMs 10)) w
    = (Some tt, w5, t5) /\
    responses t5 = [] /\
    LightSensor.currentMode (WebDashboard.app w5) = LightSensor.currentMode (WebDashboard.app w) /\
    LightSensor.ledState (WebDashboard.app w5) = LightSensor.ledState (WebDashboard.app w) /\
    LightSensor.lightRawValue (WebDashboard.app w5)
    = LightSensor.lightRawValue (WebDashboard.app w).
Proof.
  destruct w as [d g wf]. destruct g as [se ou sy mo led raw pc st ls ix lsr ldu ldp].
  unfold LightSensor.printDebugInfo, LightSensor.fn, WebDashboard.hw.
  destruct c; run_monad; do 2 eexists; (split; [reflexivity|]);
    (split; [reflexivity|]); (split; [|split]); reflexivity.
Qed.

(** A pass of the light sensor's [loop()] after a poll that returned. *)
Lemma light_pass_after_poll (i : LightSensor.pass) (w w1 : LightSensor.World)
    (t1 : list event) :
  WebDashboard.loop (LightSensor.pending i) w = (Some tt, w1, t1) ->
  exists w' t,
    LightSensor.loop i w = (Some tt, w', t) /\
    responses t = responses t1 /\
    LightSensor.currentMode (WebDashboard.app w') = LightSensor.currentMode (WebDashboard.app w1) /\
    LightSensor.ledState (WebDashboard.app w')
    = (if String.eqb (LightSensor.currentMode (WebDashboard.app w')) "auto"
       then LightSensor.lightRawValue (WebDashboard.app w') >=? 2000
       else LightSensor.ledState (WebDashboard.app w1)).
Proof.
  intros Hpoll. unfold LightSensor.loop.
  destruct (light_sensor_step
              (elapsed (LightSensor.millis_sensor_test i)
                 (LightSensor.lastSensorRead (WebDashboard.app w1)) >? 100)
              (LightSensor.adc i) (LightSensor.millis_sensor_stamp i) w1)
    as (w2 & H2 & Hmo2 & Hled2).
  destruct (light_dashboard_step
              (elapsed (LightSensor.millis_dashboard_test i)
                 (LightSensor.lastDashboardUpdate (WebDashboard.app w2)) >? 250)
              (LightSensor.millis_uptime i) (LightSensor.millis_dashboard_stamp i) w2)
    as (w3 & H3 & Hmo3 & Hled3 & Hraw3).
  destruct (runLightControl_run (WebDashboard.app w3))
    as (g4 & t4 & H4 & Hmo4 & Hraw4 & _ & Hauto & Hman).
  destruct (light_debug_step
              (elapsed (LightSensor.millis_debug_test i)
                 (LightSensor.lastDebugPrint
                    (WebDashboard.app (WebDashboard.set_app g4 w3))) >? 2000)
              (LightSensor.millis_debug_stamp i) (WebDashboard.set_app g4 w3))
    as (w5 & t5 & H5 & Hresp5 & Hmo5 & Hled5 & Hraw5).
  exists w5, (t1 ++ [] ++ [] ++ [] ++ [] ++ map Hw t4 ++ [] ++ t5)%list.
  split.
  { eapply bind_returns; [exact Hpoll|]. cbv beta.
    eapply bind_returns; [reflexivity|]. cbv beta.
    eapply bind_returns; [exact H2|]. cbv beta.
    eapply bind_returns; [reflexivity|]. cbv beta.
    eapply bind_returns; [exact H3|]. cbv beta.
    eapply bind_returns; [exact (light_fn_run _ _ _ _ _ H4)|]. cbv beta.
    eapply bind_returns; [reflexivity|]. cbv beta.
    exact H5. }
  assert (Hg4 : WebDashboard.app (WebDashboard.set_app g4 w3) = g4)
    by (destruct w3; reflexivity).
  rewrite Hg4 in Hmo5, Hled5, Hraw5.
  split.
  { rewrite responses_app. cbn [app]. rewrite responses_app, responses_Hw, Hresp5.
    cbn [app]. rewrite app_nil_r. reflexivity. }
  split; [congruence|].
  rewrite Hmo5, Hled5, Hraw5, Hraw4.
  destruct (String.eqb_spec (LightSensor.currentMode g4) "auto") as [Ha|Ha].
  - rewrite Hmo4 in Ha. destruct (Hauto Ha) as (Hled & _). exact Hled.
  - rewrite Hmo4 in Ha. destruct (Hman Ha) as (-> & _). congruence.
Qed.

(** X24. In auto mode the light decides, not the request: at the end of
    every pass of the light sensor's [loop()] that returns in auto mode the
    LED variable is on exactly when the averaged reading is at least 2000,
    whatever the request of the pass asked for; in any other mode the LED
    is as the request handling left it. *)
Theorem auto_led_follows_light (i : LightSensor.pass) (w : LightSensor.World) :
  outcome (LightSensor.loop i w) = Some tt ->
  LightSensor.ledState (WebDashboard.app (final (LightSensor.loop i w)))
  = (if String.eqb (LightSensor.currentMode (WebDashboard.app (final (LightSensor.loop i w))))
                   "auto"
     then LightSensor.lightRawValue (WebDashboard.app (final (LightSensor.loop i w))) >=? 2000
     else LightSensor.ledState
            (WebDashboard.app (final (WebDashboard.loop (LightSensor.pending i) w)))).
Proof.
  intros Hret.
  destruct (WebDashboard.loop (LightSensor.pending i) w) as [[o w1] t1] eqn:Hpoll.
  destruct o as [[]|].
  - destruct (light_pass_after_poll i w w1 t1 Hpoll) as (w' & t & Hrun & _ & _ & Hled).
    rewrite Hrun. unfold final. cbn [fst snd]. exact Hled.
  - exfalso. revert Hret. unfold LightSensor.loop, bind at 1. rewrite Hpoll.
    discriminate.
Qed.

Lemma auto_led_follows_light_witness :
  LightSensor.ledState
    (WebDashboard.app
       (final (LightSensor.loop
                 {| LightSensor.pending := Some (GET "/api/output1" [("state", "1")]);
                    LightSensor.millis_sensor_test := 5000;
                    LightSensor.millis_sensor_stamp := 5000;
                    LightSensor.millis_dashboard_test := 5000;
                    LightSensor.millis_uptime := 5000;
                    LightSensor.millis_dashboard_stamp := 5000;
                    LightSensor.millis_debug_test := 5000;
                    LightSensor.millis_debug_stamp := 5000;
                    LightSensor.adc := 300 |}
                 light_ready)))
  = false.
Proof.
  rewrite auto_led_follows_light.
  - reflexivity.
  - reflexivity.
Defined.

Lemma light_onAutoLightChange_run (state : bool) (g : LightSensor.globals) :
  LightSensor.onAutoLightChange state g
  = (Some tt,
     LightSensor.set_systemInfo
       (SystemInfo.set_mode (if state then "auto" else "manual") (LightSensor.systemInfo g))
       (LightSensor.set_currentMode (if state then "auto" else "manual") g),
     [SerialPrint "Automaattinen valo: ";
      SerialPrintln (if state then "PAALLA" else "POIS")]).
Proof.
  destruct state; reflexivity.
Qed.

(** X25. The second switch of the light sensor's dashboard selects the
    mode: a request to /api/output2 with [state] is served by
    [onAutoLightChange], which sets the mode to "auto" for 1 and to
    "manual" for anything else and copies it to the system information,
    writes no pin and leaves the LED alone. The output structure is not
    touched by the request: the second output takes the requested value
    only with the next [updateDashboardData()]. *)
Theorem auto_switch_selects_mode (w : LightSensor.World) (q : request) (now : Z) :
  hasArg "state" (req_args q) = true ->
  WebDashboard._output2Callback (WebDashboard.dash w) = Some LightSensor.onAutoLightChange ->
  served (CallOutput2 (requested_state q)) (WebDashboard.handleOutput2 q w) /\
  LightSensor.currentMode (WebDashboard.app (final (WebDashboard.handleOutput2 q w)))
  = (if requested_state q then "auto" else "manual") /\
  SystemInfo.mode
    (LightSensor.systemInfo (WebDashboard.app (final (WebDashboard.handleOutput2 q w))))
  = (if requested_state q then "auto" else "manual") /\
  LightSensor.ledState (WebDashboard.app (final (WebDashboard.handleOutput2 q w)))
  = LightSensor.ledState (WebDashboard.app w) /\
  filter (writes_pin LightSensor.LED_PIN)
    (hardware (trace (WebDashboard.handleOutput2 q w))) = [] /\
  LightSensor.outputs (WebDashboard.app (final (WebDashboard.handleOutput2 q w)))
  = LightSensor.outputs (WebDashboard.app w) /\
  OutputStates.output2
    (LightSensor.outputs
       (WebDashboard.app
          (final (LightSensor.updateDashboardData now
                    (final (WebDashboard.handleOutput2 q w))))))
  = requested_state q.
Proof.
  intros Harg Hcb.
  rewrite (handleOutput2_run _ _ _ _ _ Harg Hcb (light_onAutoLightChange_run _ _)).
  fold (requested_state q).
  split; [apply served_intro|].
  unfold final, trace; cbn [fst snd].
  destruct w as [d g wf]. destruct g as [se ou sy mo led raw pc st ls ix lsr ldu ldp].
  split; [reflexivity|]. split; [reflexivity|]. split; [reflexivity|].
  split; [destruct (requested_state q); reflexivity|].
  split; [reflexivity|].
  unfold LightSensor.updateDashboardData, LightSensor.fn, WebDashboard.on_dash.
  run_monad. destruct (requested_state q); reflexivity.
Qed.

Lemma auto_switch_selects_mode_witness :
  LightSensor.currentMode
    (WebDashboard.app
       (final (WebDashboard.handleOutput2 (GET "/api/output2" [("state", "0")])
                 light_ready)))
  = "manual".
Proof.
  destruct (auto_switch_selects_mode light_ready (GET "/api/output2" [("state", "0")]) 0)
    as (_ & H & _).
  - reflexivity.
  - reflexivity.
  - exact H.
Defined.

(** X26. The calibration action of the light sensor does not restore the
    LED. It changes no global, blinks the pin once (100 ms) and leaves it
    low whatever the LED variable says; and when the LED variable is on,
    the control logic that follows writes nothing, in auto mode with a
    reading of 2000 or more as outside auto mode: the pin stays low while
    the variable and the dashboard say on. *)
Theorem calibration_leaves_led_off (g : LightSensor.globals) (level : bool) :
  LightSensor.ledState g = true ->
  LightSensor.currentMode g <> "auto" \/ 2000 <= LightSensor.lightRawValue g ->
  outcome (LightSensor.onCustomAction g) = Some tt /\
  final (LightSensor.onCustomAction g) = g /\
  filter (writes_pin LightSensor.LED_PIN) (trace (LightSensor.onCustomAction g))
  = [DigitalWrite 2 true; DigitalWrite 2 false] /\
  total_delay (trace (LightSensor.onCustomAction g)) = 100 /\
  pin_level LightSensor.LED_PIN level
    (trace (LightSensor.onCustomAction g)
     ++ trace (LightSensor.runLightControl (final (LightSensor.onCustomAction g))))%list
  = false /\
  LightSensor.ledState
    (final (LightSensor.runLightControl (final (LightSensor.onCustomAction g)))) = true.
Proof.
  intros Hled Hcase.
  assert (Hrun : LightSensor.runLightControl g = (Some tt, g, [])).
  { destruct (runLightControl_run g) as (g' & t & Hrun & _ & _ & _ & Hauto & Hman).
    rewrite Hrun.
    destruct (String.eqb_spec (LightSensor.currentMode g) "auto") as [Ha|Ha].
    - destruct Hcase as [Hc|Hc]; [contradiction|].
      destruct (Hauto Ha) as (_ & _ & _ & Hsame).
      destruct Hsame as (-> & ->); [|reflexivity].
      rewrite Hled. symmetry. apply Z.geb_le. lia.
    - destruct (Hman Ha) as (-> & ->). reflexivity. }
  assert (Hfin : final (LightSensor.onCustomAction g) = g) by reflexivity.
  split; [reflexivity|]. split; [exact Hfin|].
  split; [reflexivity|]. split; [reflexivity|].
  rewrite Hfin, Hrun. unfold final, trace. cbn [fst snd].
  split; [reflexivity | exact Hled].
Qed.

Lemma calibration_leaves_led_off_witness :
  pin_level LightSensor.LED_PIN true
    (trace (LightSensor.onCustomAction
              (LightSensor.set_ledState true
                 (LightSensor.set_currentMode "manual" (WebDashboard.app light_ready))))
     ++ trace (LightSensor.runLightControl
                 (final (LightSensor.onCustomAction
                           (LightSensor.set_ledState true
                              (LightSensor.set_currentMode "manual"
                                 (WebDashboard.app light_ready)))))))%list
  = false.
Proof.
  destruct (calibration_leaves_led_off
              (LightSensor.set_ledState true
                 (LightSensor.set_currentMode "manual" (WebDashboard.app light_ready)))
              true) as (_ & _ & _ & _ & H & _).
  - reflexivity.
  - left. discriminate.
  - exact H.
Defined.

(** [map(raw, 4095, 0, 0, 100)] is the share of light, rounded towards
    zero. *)
Lemma light_map_formula (raw : Z) :
  map_range raw 4095 0 0 100 = (4095 - raw) * 100 ÷ 4095.
Proof.
  unfold map_range. rewrite Z.add_0_r.
  replace ((raw - 4095) * (100 - 0)) with (- ((4095 - raw) * 100)) by lia.
  replace (0 - 4095) with (- 4095) by lia.
  exact (Z.quot_opp_opp ((4095 - raw) * 100) 4095 ltac:(lia)).
Qed.

(** The percentage computed from an averaged reading. *)
Lemma light_percent_formula (raw : Z) :
  (raw <= 4095 ->
   constrain (map_range raw 4095 0 0 100) 0 100 = Z.min 100 ((4095 - raw) * 100 / 4095)) /\
  (4095 <= raw -> constrain (map_range raw 4095 0 0 100) 0 100 = 0).
Proof.
  rewrite light_map_formula. unfold constrain. split; intros Hraw.
  - rewrite Z.quot_div_nonneg by lia.
    assert (0 <= (4095 - raw) * 100 / 4095) by (apply Z.div_pos; lia).
    destruct (Z.ltb_spec ((4095 - raw) * 100 / 4095) 0); [lia|].
    destruct (Z.gtb_spec ((4095 - raw) * 100 / 4095) 100); lia.
  - assert ((4095 - raw) * 100 ÷ 4095 <= 0).
    { replace ((4095 - raw) * 100) with (- ((raw - 4095) * 100)) by lia.
      rewrite Z.quot_opp_l by lia.
      pose proof (Z.quot_pos ((raw - 4095) * 100) 4095). lia. }
    destruct (Z.ltb_spec ((4095 - raw) * 100 ÷ 4095) 0); [reflexivity|].
    destruct (Z.gtb_spec ((4095 - raw) * 100 ÷ 4095) 100); lia.
Qed.

(** X27. After every read of the light sensor the status text is one of
    the four levels, chosen by the averaged reading alone, and it agrees
    with the percentage shown next to it: "PIMEA" from 3000 up goes with 0
    to 26 percent, "HIMMEA" from 2000 with 26 to 51, "VALOISA" from 500
    with 51 to 87, and "KIRKAS" below 500 with 87 to 100. The initial
    text "?" never comes back. *)
Theorem light_status_matches_percent (v : Z) (g : LightSensor.globals) :
  exists g',
    final (LightSensor.readLightSensor v g) = g' /\
    ((LightSensor.lightStatus g' = "PIMEA" /\
      3000 <= LightSensor.lightRawValue g' /\
      0 <= LightSensor.lightPercent g' <= 26) \/
     (LightSensor.lightStatus g' = "HIMMEA" /\
      2000 <= LightSensor.lightRawValue g' < 3000 /\
      26 <= LightSensor.lightPercent g' <= 51) \/
     (LightSensor.lightStatus g' = "VALOISA" /\
      500 <= LightSensor.lightRawValue g' < 2000 /\
      51 <= LightSensor.lightPercent g' <= 87) \/
     (LightSensor.lightStatus g' = "KIRKAS" /\
      LightSensor.lightRawValue g' < 500 /\
      87 <= LightSensor.lightPercent g' <= 100)).
Proof.
  destruct (readLightSensor_run v g) as (g' & Hrun & _ & _ & _ & Hp & Hst & _).
  exists g'. split; [rewrite Hrun; reflexivity|].
  rewrite Hp, Hst.
  set (raw := LightSensor.lightRawValue g').
  destruct (light_percent_formula raw) as (Hlit & Hdark).
  pose proof (constrain_range (map_range raw 4095 0 0 100)) as Hrange.
  destruct (Z.geb_spec raw 3000) as [H1|H1].
  { left. split; [reflexivity|]. split; [lia|].
    destruct (Z.le_gt_cases raw 4095) as [Hle|Hgt].
    - rewrite (Hlit Hle).
      assert ((4095 - raw) * 100 / 4095 < 27) by (apply Z.div_lt_upper_bound; lia).
      assert (0 <= (4095 - raw) * 100 / 4095) by (apply Z.div_pos; lia).
      lia.
    - rewrite Hdark by lia. lia. }
  assert (Hle : raw <= 4095) by lia. rewrite (Hlit Hle).
  destruct (Z.geb_spec raw 2000) as [H2|H2].
  { right; left. split; [reflexivity|]. split; [lia|].
    assert ((4095 - raw) * 100 / 4095 < 52) by (apply Z.div_lt_upper_bound; lia).
    assert (26 <= (4095 - raw) * 100 / 4095) by (apply Z.div_le_lower_bound; lia).
    lia. }
  destruct (Z.geb_spec raw 500) as [H3|H3].
  { right; right; left. split; [reflexivity|]. split; [lia|].
    assert ((4095 - raw) * 100 / 4095 < 88) by (apply Z.div_lt_upper_bound; lia).
    assert (51 <= (4095 - raw) * 100 / 4095) by (apply Z.div_le_lower_bound; lia).
    lia. }
  right; right; right. split; [reflexivity|]. split; [lia|].
  assert (87 <= (4095 - raw) * 100 / 4095) by (apply Z.div_le_lower_bound; lia).
  lia.
Qed.

(** ** Texts that pass through a C string *)

(** A text that is a C string compares with a literal as a text. *)
Lemma String_equals_c_string (s literal : string) :
  c_str s = s -> String_equals s literal = String.eqb s literal.
Proof. intros Hs. unfold String_equals. rewrite Hs. reflexivity. Qed.

(** The poll of the listener in the wired template keeps the current
    mode a C string. *)
Lemma template_poll_c_string (pending : option request) (w : Template.World) :
  wired w ->
  not_reset pending ->
  c_str (Template.currentMode (WebDashboard.app w)) = Template.currentMode (WebDashboard.app w) ->
  exists w1 t1,
    WebDashboard.loop pending w = (Some tt, w1, t1) /\
    WebDashboard.dash w1 = WebDashboard.dash w /\
    c_str (Template.currentMode (WebDashboard.app w1))
    = Template.currentMode (WebDashboard.app w1).
Proof.
  intros (Hsrv & Hc1 & Hc2 & Hcm & Hcr & Hcc) Hq Hc.
  destruct pending as [q|].
  2: { exists w, []. rewrite loop_idle. repeat split. exact Hc. }
  simpl in Hq.
  destruct (find_route dashboard_server q) as [h|] eqn:Hroute.
  2: { do 2 eexists. rewrite (loop_not_found _ _ _ Hsrv eq_refl Hroute).
       repeat split. exact Hc. }
  rewrite (loop_route _ _ _ _ Hsrv eq_refl Hroute).
  pose proof (dashboard_route_uri _ _ Hroute) as Huri.
  destruct h; simpl WebDashboard.dispatch; try congruence.
  - do 2 eexists. repeat split. exact Hc.
  - do 2 eexists. repeat split. exact Hc.
  - destruct (hasArg "state" (req_args q)) eqn:Harg.
    + rewrite (handleOutput1_run _ _ _ _ _ Harg Hc1 (template_onLEDChange_run _ _)).
      do 2 eexists. repeat split. exact Hc.
    + do 2 eexists.
      split; [unfold WebDashboard.handleOutput1, bind, get; rewrite Harg; reflexivity|].
      split; [reflexivity | exact Hc].
  - destruct (hasArg "state" (req_args q)) eqn:Harg.
    + destruct (String.eqb (Template.currentMode (WebDashboard.app w)) "manual") eqn:Hmode.
      * rewrite (handleOutput2_run _ _ _ _ _ Harg Hc2
                   (template_onRelayChange_manual _ _ Hmode)).
        do 2 eexists. repeat split. exact Hc.
      * rewrite (handleOutput2_run _ _ _ _ _ Harg Hc2
                   (template_onRelayChange_locked _ _ Hmode)).
        do 2 eexists. split; [reflexivity|]. split; [reflexivity|].
        rewrite set_app_same. exact Hc.
    + do 2 eexists.
      split; [unfold WebDashboard.handleOutput2, bind, get; rewrite Harg; reflexivity|].
      split; [reflexivity | exact Hc].
  - destruct (hasArg "mode" (req_args q)) eqn:Harg.
    + rewrite (handleMode_run _ _ _ _ _ Harg Hcm (template_onModeChange_run _ _)).
      do 2 eexists. split; [reflexivity|]. split; [reflexivity|].
      cbn [WebDashboard.app WebDashboard.set_app Template.currentMode
           Template.set_systemInfo Template.set_currentMode].
      apply c_str_idem.
    + do 2 eexists.
      split; [unfold WebDashboard.handleMode, bind, get; rewrite Harg; reflexivity|].
      split; [reflexivity | exact Hc].
  - destruct (template_onCustomAction_run (WebDashboard.app w)) as (t & Ht).
    rewrite (handleCustom_run _ _ _ _ Hcc Ht).
    do 2 eexists. split; [reflexivity|]. split; [reflexivity|].
    rewrite set_app_same. exact Hc.
Qed.

(** X28. The current mode of the template is always a C string. It is
    only ever assigned from [String(mode)], which reads its argument up to
    the first NUL: starting from a mode without NUL (as after [setup()]),
    after every pass of [loop()] the mode still has none, whatever the
    requests carried, so that comparing it with a literal is comparing
    the two texts. *)
Theorem template_mode_is_c_string (passes : list Template.pass) :
  forall w : Template.World,
    wired w ->
    c_str (Template.currentMode (WebDashboard.app w)) = Template.currentMode (WebDashboard.app w) ->
    Forall (fun i => not_reset (Template.pending i)) passes ->
    List.length (template_run passes w) = List.length passes /\
    Forall (fun w' =>
              c_str (Template.currentMode (WebDashboard.app w'))
              = Template.currentMode (WebDashboard.app w') /\
              forall literal,
                String_equals (Template.currentMode (WebDashboard.app w')) literal
                = String.eqb (Template.currentMode (WebDashboard.app w')) literal)
      (template_run passes w).
Proof.
  induction passes as [|i rest IH]; intros w Hw Hc Hall.
  - simpl. split; [reflexivity | constructor].
  - inversion Hall as [|? ? Hi Hrest]; subst.
    destruct (template_poll_c_string _ w Hw Hi Hc) as (w1 & t1 & Hpoll & Hdash & Hc1).
    destruct (template_pass_after_poll i w w1 t1 Hpoll)
      as (w' & t & Hrun & Hd' & Hmode & _).
    pose proof (wired_after_pass _ _ _ Hw Hdash Hd') as Hw'.
    assert (Hc' : c_str (Template.currentMode (WebDashboard.app w'))
                  = Template.currentMode (WebDashboard.app w'))
      by (rewrite Hmode; exact Hc1).
    destruct (IH w' Hw' Hc' Hrest) as (Hlen & Hrun').
    simpl. rewrite Hrun. simpl. rewrite Hlen.
    split; [reflexivity|]. constructor; [|exact Hrun'].
    split; [exact Hc'|]. intros literal. apply String_equals_c_string. exact Hc'.
Qed.

Lemma template_mode_is_c_string_witness :
  map (fun w' => Template.currentMode (WebDashboard.app w'))
    (template_run
       [{| Template.pending := Some (GET "/api/mode" [("mode", "manual" ++ NUL ++ "x")]);
           Template.millis_test := 1000; Template.millis_stamp := 1000;
           Template.millis_uptime := 1000; Template.adc := 100 |}]
       template_ready)
  = ["manual"].
Proof.
  destruct (template_mode_is_c_string
              [{| Template.pending := Some (GET "/api/mode" [("mode", "manual" ++ NUL ++ "x")]);
                  Template.millis_test := 1000; Template.millis_stamp := 1000;
                  Template.millis_uptime := 1000; Template.adc := 100 |}]
              template_ready) as (_ & H).
  - repeat split.
  - reflexivity.
  - repeat constructor. simpl. discriminate.
  - vm_compute. reflexivity.
Defined.
